(** * WiFiEnterprise: the WPA2-Enterprise connection wrapper

    A shallow embedding of [src/WiFiEnterprise.cpp] and [src/WiFiEnterprise.h].
    The wrapper object holds two booleans and sequences calls into the
    platform's WiFi/EAP stack.  The platform is not part of the repository:
    it is a parameter of the development (record [Driver]), an arbitrary
    deterministic function of the history of platform calls and of the time.
    Every platform call is recorded, with its result, in a trace. *)

From Stdlib Require Import ZArith List String Ascii Bool Lia DecimalString.
From Stdlib Require Import DecimalPos.
Import ListNotations.
Open Scope Z_scope.

(** ** Platform types *)

(** Modelled from the spec: the platform's raw connection status enumeration
    [wl_status_t] (connected / disconnected / no-such-network / auth-failed /
    connection-lost / idle ...), declared by the Arduino core, not by this
    repository. *)
Inductive wl_status_t : Type :=
| WL_NO_SHIELD
| WL_IDLE_STATUS
| WL_NO_SSID_AVAIL
| WL_SCAN_COMPLETED
| WL_CONNECTED
| WL_CONNECT_FAILED
| WL_CONNECTION_LOST
| WL_DISCONNECTED.

(** Modelled from the spec: the integer value of each status enumerator, as
    the Arduino core declares it; the wrapper only prints it. *)
Definition wl_status_code (s : wl_status_t) : Z :=
  match s with
  | WL_NO_SHIELD => 255
  | WL_IDLE_STATUS => 0
  | WL_NO_SSID_AVAIL => 1
  | WL_SCAN_COMPLETED => 2
  | WL_CONNECTED => 3
  | WL_CONNECT_FAILED => 4
  | WL_CONNECTION_LOST => 5
  | WL_DISCONNECTED => 6
  end.

(** The comparison [a == b] on the enumeration. *)
Definition wl_status_eqb (a b : wl_status_t) : bool :=
  wl_status_code a =? wl_status_code b.

(** Modelled from the spec: the radio modes of the platform; the wrapper
    only ever selects station mode. *)
Inductive wifi_mode_t : Type :=
| WIFI_OFF
| WIFI_STA
| WIFI_AP
| WIFI_AP_STA.

(** Modelled from the spec: the platform's address type, four octets. *)
Record IPAddress : Type := mkIP { oct0 : Z; oct1 : Z; oct2 : Z; oct3 : Z }.

(** [String(int)]: the decimal rendering of an integer. *)
Definition String_of_int (z : Z) : string :=
  NilZero.string_of_int (Z.to_int z).

(** Modelled from the spec: [IPAddress::toString], dotted decimal. *)
Definition IPAddress_toString (ip : IPAddress) : string :=
  (String_of_int (oct0 ip) ++ "." ++ String_of_int (oct1 ip) ++ "." ++
   String_of_int (oct2 ip) ++ "." ++ String_of_int (oct3 ip))%string.

(** A [const char*] is modelled by the bytes of its buffer; [strlen] counts
    the bytes before the first NUL (or the whole buffer if it holds none,
    the terminator then sits right behind it). *)
Fixpoint strlen (s : string) : nat :=
  match s with
  | EmptyString => 0%nat
  | String c r => if Ascii.eqb c Ascii.zero then 0%nat else S (strlen r)
  end.

(** The bytes a setter called with [(buf, len)] reads. *)
Definition bytes_of (buf : string) (len : nat) : string :=
  substring 0 len buf.

(** What printing a [const char*] writes ([Serial.print], [%s]): the bytes
    before the first NUL. *)
Definition c_str (buf : string) : string := bytes_of buf (strlen buf).

(** ** Platform calls and the trace *)

(** One platform call, with its arguments and, for queries, its result.  The
    wrapper makes the first twelve; [WiFi.RSSI()] and [WiFi.macAddress()] are
    queries the example sketches make on the same stack. *)
Inductive Event : Type :=
| EvDisconnect (wifioff : bool)
| EvMode (m : wifi_mode_t)
| EvSetIdentity (buf : string) (len : nat)
| EvSetUsername (buf : string) (len : nat)
| EvSetPassword (buf : string) (len : nat)
| EvEntEnable
| EvEntDisable
| EvBegin (ssid : string)
| EvStatus (ret : wl_status_t)
| EvLocalIP (ret : IPAddress)
| EvMillis (ret : Z)
| EvDelay (ms : Z)
| EvRSSI (ret : Z)
| EvMacAddress (ret : string).

(** What is written to [Serial]. *)
Inductive SerialOp : Type :=
| SerialPrint (s : string)
| SerialPrintln (s : string).

(** The platform stack as the wrapper sees it: what the status register and
    the address query answer, and how long a call takes (in milliseconds),
    each as a function of the calls made so far and of the time of the call. *)
Record Driver : Type := {
  drv_status : list Event -> Z -> wl_status_t;
  drv_localIP : list Event -> Z -> IPAddress;
  drv_latency : list Event -> Z -> Event -> N
}.

(** ** The wrapper object and the machine state *)

Record WiFiEnterpriseClass : Type := {
  _debugEnabled : bool;
  _connected : bool
}.

(** The object as the header initialises it. *)
Definition WiFiEnterprise : WiFiEnterpriseClass :=
  {| _debugEnabled := false; _connected := false |}.

(** The state a method runs in: the object, the time since boot in
    milliseconds (not wrapped), the trace of platform calls in the order they
    were made, and the text written to [Serial]. *)
Record State : Type := {
  this : WiFiEnterpriseClass;
  clock : Z;
  trace : list Event;
  serial : list SerialOp
}.

(** ** A state monad with failure; the only failure is a loop out of fuel *)

Definition M (A : Type) : Type := State -> option (A * State).

Definition ret {A : Type} (a : A) : M A := fun s => Some (a, s).

Definition bind {A B : Type} (m : M A) (k : A -> M B) : M B :=
  fun s => match m s with
           | Some (a, s') => k a s'
           | None => None
           end.

Definition out_of_fuel {A : Type} : M A := fun _ => None.

Declare Scope monad_scope.
Delimit Scope monad_scope with monad.
Notation "x <- m ;; k" := (bind m (fun x => k))
  (at level 61, m at next level, right associativity) : monad_scope.
Notation "m ;; k" := (bind m (fun _ => k))
  (at level 61, right associativity) : monad_scope.
Open Scope monad_scope.

(** Member access. *)
Definition get_debugEnabled : M bool := fun s => Some (_debugEnabled (this s), s).

Definition set_debugEnabled (b : bool) : M unit := fun s =>
  Some (tt, {| this := {| _debugEnabled := b; _connected := _connected (this s) |};
               clock := clock s; trace := trace s; serial := serial s |}).

Definition set_connected (b : bool) : M unit := fun s =>
  Some (tt, {| this := {| _debugEnabled := _debugEnabled (this s); _connected := b |};
               clock := clock s; trace := trace s; serial := serial s |}).

(** [Serial.print] and [Serial.println]. *)
Definition printed (o : SerialOp) (s : State) : State :=
  {| this := this s; clock := clock s; trace := trace s;
     serial := serial s ++ [o] |}.

Definition Serial_print (text : string) : M unit := fun s =>
  Some (tt, printed (SerialPrint text) s).

Definition Serial_println (text : string) : M unit := fun s =>
  Some (tt, printed (SerialPrintln text) s).

(** Width of [unsigned long] on the target. *)
Definition ULONG_BITS : Z := 32.
Definition ULONG_MOD : Z := 2 ^ ULONG_BITS.

(** Subtraction of two [unsigned long] values. *)
Definition ulong_sub (a b : Z) : Z := (a - b) mod ULONG_MOD.

Section Wrapper.

Variable drv : Driver.

(** The state after a platform call [e] that sleeps [dur] milliseconds: the
    call is appended to the trace and the clock advances by [dur] plus the
    time the call itself takes. *)
Definition performed (e : Event) (dur : Z) (s : State) : State :=
  {| this := this s;
     clock := clock s + dur + Z.of_N (drv_latency drv (trace s) (clock s) e);
     trace := trace s ++ [e];
     serial := serial s |}.

Definition invoke (e : Event) (dur : Z) : M unit := fun s =>
  Some (tt, performed e dur s).

(** The platform functions the wrapper calls.  What the commands return
    ([bool], [esp_err_t], the status [WiFi.begin] returns) is ignored by the
    code and left out. *)
Definition WiFi_disconnect (wifioff : bool) : M unit := invoke (EvDisconnect wifioff) 0.
Definition WiFi_mode (m : wifi_mode_t) : M unit := invoke (EvMode m) 0.
Definition esp_wifi_sta_wpa2_ent_set_identity (buf : string) (len : nat) : M unit :=
  invoke (EvSetIdentity buf len) 0.
Definition esp_wifi_sta_wpa2_ent_set_username (buf : string) (len : nat) : M unit :=
  invoke (EvSetUsername buf len) 0.
Definition esp_wifi_sta_wpa2_ent_set_password (buf : string) (len : nat) : M unit :=
  invoke (EvSetPassword buf len) 0.
Definition esp_wifi_sta_wpa2_ent_enable : M unit := invoke EvEntEnable 0.
Definition esp_wifi_sta_wpa2_ent_disable : M unit := invoke EvEntDisable 0.
Definition WiFi_begin (ssid : string) : M unit := invoke (EvBegin ssid) 0.

Definition WiFi_status : M wl_status_t := fun s =>
  let r := drv_status drv (trace s) (clock s) in
  (invoke (EvStatus r) 0 ;; ret r) s.

Definition WiFi_localIP : M IPAddress := fun s =>
  let r := drv_localIP drv (trace s) (clock s) in
  (invoke (EvLocalIP r) 0 ;; ret r) s.

(** [millis()]: the clock as an [unsigned long], it wraps at [2^32]. *)
Definition millis : M Z := fun s =>
  let r := clock s mod ULONG_MOD in
  (invoke (EvMillis r) 0 ;; ret r) s.

Definition delay (ms : Z) : M unit := invoke (EvDelay ms) ms.

(** ** The methods of [WiFiEnterpriseClass] *)

(** Printing to [Serial] takes no time in this model. *)
Definition debugPrint (message : string) : M unit :=
  d <- get_debugEnabled ;;
  if d then Serial_println message else ret tt.

(** The overload [debugPrint(message, value)]; [message] is a string literal
    at every call, [value] a buffer of the caller. *)
Definition debugPrint2 (message value : string) : M unit :=
  d <- get_debugEnabled ;;
  if d then (Serial_print message ;; Serial_println (c_str value)) else ret tt.

Definition timeout : Z := 20000.

Definition newline : string := String (ascii_of_nat 10) EmptyString.

(** The [while] loop of [begin]; [fuel] bounds the number of times its
    condition is evaluated. *)
Fixpoint poll (fuel : nat) (startTime : Z) : M unit :=
  match fuel with
  | O => out_of_fuel
  | S fuel' =>
      st <- WiFi_status ;;
      if negb (wl_status_eqb st WL_CONNECTED) then
        m <- millis ;;
        if ulong_sub m startTime <? timeout then
          delay 500 ;;
          d <- get_debugEnabled ;;
          (if d then Serial_print "." else ret tt) ;;
          poll fuel' startTime
        else ret tt
      else ret tt
  end.

Definition begin (fuel : nat) (ssid username password : string)
    (enableDebug : bool) : M bool :=
  set_debugEnabled enableDebug ;;
  debugPrint "WiFiEnterprise: Starting connection to WPA2-Enterprise network" ;;
  debugPrint2 "SSID: " ssid ;;
  debugPrint2 "Username: " username ;;
  WiFi_disconnect true ;;
  delay 1000 ;;
  WiFi_mode WIFI_STA ;;
  debugPrint "WiFiEnterprise: Configuring WPA2-Enterprise settings" ;;
  esp_wifi_sta_wpa2_ent_set_identity username (strlen username) ;;
  esp_wifi_sta_wpa2_ent_set_username username (strlen username) ;;
  esp_wifi_sta_wpa2_ent_set_password password (strlen password) ;;
  esp_wifi_sta_wpa2_ent_enable ;;
  debugPrint "WiFiEnterprise: Attempting to connect..." ;;
  WiFi_begin ssid ;;
  startTime <- millis ;;
  poll fuel startTime ;;
  st <- WiFi_status ;;
  if wl_status_eqb st WL_CONNECTED then
    set_connected true ;;
    debugPrint (newline ++ "WiFiEnterprise: Connected successfully!") ;;
    ip <- WiFi_localIP ;;
    debugPrint2 "IP Address: " (IPAddress_toString ip) ;;
    ret true
  else
    set_connected false ;;
    debugPrint (newline ++ "WiFiEnterprise: Connection failed!") ;;
    st' <- WiFi_status ;;
    debugPrint2 "Status: " (String_of_int (wl_status_code st')) ;;
    esp_wifi_sta_wpa2_ent_disable ;;
    ret false.

(** The default argument [enableDebug = false] of the header. *)
Definition begin_default (fuel : nat) (ssid username password : string) : M bool :=
  begin fuel ssid username password false.

(** [end()]; [end] is a keyword of Rocq. *)
Definition end_ : M unit :=
  debugPrint "WiFiEnterprise: Disconnecting..." ;;
  esp_wifi_sta_wpa2_ent_disable ;;
  WiFi_disconnect true ;;
  set_connected false ;;
  debugPrint "WiFiEnterprise: Disconnected".

Definition isConnected : M bool :=
  st <- WiFi_status ;;
  ret (wl_status_eqb st WL_CONNECTED).

Definition status : M wl_status_t := WiFi_status.

Definition localIP : M IPAddress := WiFi_localIP.

Definition setDebug (enable : bool) : M unit := set_debugEnabled enable.

End Wrapper.

(** ** The driver's configuration, read off the trace *)

(** Modelled from the spec: the configuration the driver stack holds after a
    sequence of calls: whether enterprise authentication is enabled, the
    network it was told to associate with ([None] after a force-disconnect),
    the radio mode (off after a force-disconnect-and-reset) and the EAP
    credentials last programmed.  The driver's C sources are not part of the
    repository.  Here every setter stores what it is handed;
    [driver_config_within] below is the configuration of a driver that
    refuses credentials outside its length limits. *)
Record DriverConfig : Type := {
  cfg_enterprise : bool;
  cfg_ssid : option string;
  cfg_mode : wifi_mode_t;
  cfg_identity : string;
  cfg_username : string;
  cfg_password : string
}.

Definition apply_event (c : DriverConfig) (e : Event) : DriverConfig :=
  match e with
  | EvDisconnect wifioff =>
      {| cfg_enterprise := cfg_enterprise c; cfg_ssid := None;
         cfg_mode := if wifioff then WIFI_OFF else cfg_mode c;
         cfg_identity := cfg_identity c; cfg_username := cfg_username c;
         cfg_password := cfg_password c |}
  | EvMode m =>
      {| cfg_enterprise := cfg_enterprise c; cfg_ssid := cfg_ssid c;
         cfg_mode := m;
         cfg_identity := cfg_identity c; cfg_username := cfg_username c;
         cfg_password := cfg_password c |}
  | EvSetIdentity buf len =>
      {| cfg_enterprise := cfg_enterprise c; cfg_ssid := cfg_ssid c;
         cfg_mode := cfg_mode c;
         cfg_identity := bytes_of buf len; cfg_username := cfg_username c;
         cfg_password := cfg_password c |}
  | EvSetUsername buf len =>
      {| cfg_enterprise := cfg_enterprise c; cfg_ssid := cfg_ssid c;
         cfg_mode := cfg_mode c;
         cfg_identity := cfg_identity c; cfg_username := bytes_of buf len;
         cfg_password := cfg_password c |}
  | EvSetPassword buf len =>
      {| cfg_enterprise := cfg_enterprise c; cfg_ssid := cfg_ssid c;
         cfg_mode := cfg_mode c;
         cfg_identity := cfg_identity c; cfg_username := cfg_username c;
         cfg_password := bytes_of buf len |}
  | EvEntEnable =>
      {| cfg_enterprise := true; cfg_ssid := cfg_ssid c;
         cfg_mode := cfg_mode c;
         cfg_identity := cfg_identity c; cfg_username := cfg_username c;
         cfg_password := cfg_password c |}
  | EvEntDisable =>
      {| cfg_enterprise := false; cfg_ssid := cfg_ssid c;
         cfg_mode := cfg_mode c;
         cfg_identity := cfg_identity c; cfg_username := cfg_username c;
         cfg_password := cfg_password c |}
  | EvBegin ssid =>
      {| cfg_enterprise := cfg_enterprise c; cfg_ssid := Some ssid;
         cfg_mode := cfg_mode c;
         cfg_identity := cfg_identity c; cfg_username := cfg_username c;
         cfg_password := cfg_password c |}
  | EvStatus _ | EvLocalIP _ | EvMillis _ | EvDelay _
  | EvRSSI _ | EvMacAddress _ => c
  end.

Definition initial_config : DriverConfig :=
  {| cfg_enterprise := false; cfg_ssid := None; cfg_mode := WIFI_OFF;
     cfg_identity := ""; cfg_username := ""; cfg_password := "" |}.

Definition driver_config (tr : list Event) : DriverConfig :=
  fold_left apply_event tr initial_config.

(** Modelled from the spec: "the underlying driver enforces its own limits
    and fails silently or with a platform error if exceeded".  The limits are
    the driver's and the repository does not state them: the lengths each
    credential setter accepts. *)
Record Limits : Type := {
  identity_ok : nat -> bool;
  username_ok : nat -> bool;
  password_ok : nat -> bool
}.

(** Modelled from the spec: a setter called with a length the driver refuses
    leaves the configuration as it was; the wrapper ignores what the setters
    return, so the failure is silent either way. *)
Definition apply_event_within (lim : Limits) (c : DriverConfig) (e : Event)
    : DriverConfig :=
  match e with
  | EvSetIdentity _ len => if identity_ok lim len then apply_event c e else c
  | EvSetUsername _ len => if username_ok lim len then apply_event c e else c
  | EvSetPassword _ len => if password_ok lim len then apply_event c e else c
  | _ => apply_event c e
  end.

Definition driver_config_within (lim : Limits) (tr : list Event) : DriverConfig :=
  fold_left (apply_event_within lim) tr initial_config.

(** A driver that accepts every length. *)
Definition no_limits : Limits :=
  {| identity_ok := fun _ => true; username_ok := fun _ => true;
     password_ok := fun _ => true |}.

(** ** The shape of the trace of [begin] *)

(** Calls on the driver, as opposed to calls on the clock. *)
Definition is_driver_op (e : Event) : bool :=
  match e with
  | EvMillis _ | EvDelay _ => false
  | _ => true
  end.

(** The driver's queries; every other driver call is a command. *)
Definition is_query (e : Event) : bool :=
  match e with
  | EvStatus _ | EvLocalIP _ | EvRSSI _ | EvMacAddress _ => true
  | _ => false
  end.

Definition is_command (e : Event) : bool := is_driver_op e && negb (is_query e).

Definition is_ent_disable (e : Event) : bool :=
  match e with
  | EvEntDisable => true
  | _ => false
  end.

Definition is_delay (e : Event) : bool :=
  match e with
  | EvDelay _ => true
  | _ => false
  end.

(** The calls before the loop, up to and including the association. *)
Definition setup_events (ssid username password : string) : list Event :=
  [ EvDisconnect true; EvDelay 1000; EvMode WIFI_STA;
    EvSetIdentity username (strlen username);
    EvSetUsername username (strlen username);
    EvSetPassword password (strlen password);
    EvEntEnable; EvBegin ssid ].

(** The five configuration steps of [begin], as commands of the driver. *)
Definition setup_commands (ssid username password : string) : list Event :=
  [ EvDisconnect true; EvMode WIFI_STA;
    EvSetIdentity username (strlen username);
    EvSetUsername username (strlen username);
    EvSetPassword password (strlen password);
    EvEntEnable; EvBegin ssid ].

(** One turn of the loop that ran its body: the status read, the clock read,
    the sleep. *)
Definition poll_events (polls : list (wl_status_t * Z)) : list Event :=
  flat_map (fun p => [EvStatus (fst p); EvMillis (snd p); EvDelay 500]) polls.

(** How the loop ended: the register read connected, or the clock read said
    the timeout had passed. *)
Inductive LoopExit : Type :=
| ExitConnected
| ExitTimeout (st : wl_status_t) (m : Z).

Definition exit_events (x : LoopExit) : list Event :=
  match x with
  | ExitConnected => [EvStatus WL_CONNECTED]
  | ExitTimeout st m => [EvStatus st; EvMillis m]
  end.

Definition exit_ok (startTime : Z) (x : LoopExit) : Prop :=
  match x with
  | ExitConnected => True
  | ExitTimeout st m => st <> WL_CONNECTED /\ timeout <= ulong_sub m startTime
  end.

Definition poll_ok (startTime : Z) (p : wl_status_t * Z) : Prop :=
  fst p <> WL_CONNECTED /\ ulong_sub (snd p) startTime < timeout.

(** One run of [begin], as the platform saw it. *)
Record Run : Type := {
  run_start : Z;
  run_polls : list (wl_status_t * Z);
  run_exit : LoopExit;
  run_decide : wl_status_t;
  run_ip : IPAddress;
  run_report : wl_status_t
}.

Definition run_result (r : Run) : bool := wl_status_eqb (run_decide r) WL_CONNECTED.

Definition loop_events (r : Run) : list Event :=
  poll_events (run_polls r) ++ exit_events (run_exit r).

Definition tail_events (r : Run) : list Event :=
  if run_result r
  then [EvStatus (run_decide r); EvLocalIP (run_ip r)]
  else [EvStatus (run_decide r); EvStatus (run_report r); EvEntDisable].

Definition begin_events (ssid username password : string) (r : Run) : list Event :=
  setup_events ssid username password ++ [EvMillis (run_start r)] ++
  loop_events r ++ tail_events r.

Definition run_ok (r : Run) : Prop :=
  Forall (poll_ok (run_start r)) (run_polls r) /\ exit_ok (run_start r) (run_exit r).

(** What [begin] prints before the loop when debugging is enabled. *)
Definition setup_serial (ssid username : string) : list SerialOp :=
  [ SerialPrintln "WiFiEnterprise: Starting connection to WPA2-Enterprise network";
    SerialPrint "SSID: "; SerialPrintln (c_str ssid);
    SerialPrint "Username: "; SerialPrintln (c_str username);
    SerialPrintln "WiFiEnterprise: Configuring WPA2-Enterprise settings";
    SerialPrintln "WiFiEnterprise: Attempting to connect..." ].

(** What [begin] writes to [Serial] on a run when debugging is enabled. *)
Definition begin_serial (ssid username : string) (r : Run) : list SerialOp :=
  setup_serial ssid username ++
  repeat (SerialPrint ".") (List.length (run_polls r)) ++
  (if run_result r
   then [ SerialPrintln (newline ++ "WiFiEnterprise: Connected successfully!");
          SerialPrint "IP Address: ";
          SerialPrintln (c_str (IPAddress_toString (run_ip r))) ]
   else [ SerialPrintln (newline ++ "WiFiEnterprise: Connection failed!");
          SerialPrint "Status: ";
          SerialPrintln (c_str (String_of_int (wl_status_code (run_report r)))) ]).

(** ** Timing assumption on the platform *)

(** The longest a single platform call may take: three calls and one poll
    interval on top of the timeout still fit in one period of the
    [unsigned long] counter ([3 * max_latency + 20500 = 2^32], about sixteen
    days per call).  A call that blocked for a whole period of the counter
    would hide the elapsed time from the loop. *)
Definition max_latency : Z := 1431648932.

Definition well_timed (drv : Driver) : Prop :=
  forall tr t e, Z.of_N (drv_latency drv tr t e) <= max_latency.

(** Fuel that is enough for the loop: [20000 / 500] turns and the last test. *)
Definition poll_fuel : nat := 41.

(** ** Scripted drivers, for running the model *)

(** Number of status reads in a trace. *)
Definition status_reads (tr : list Event) : nat :=
  List.length (filter (fun e => match e with EvStatus _ => true | _ => false end) tr).

(** A driver with no latency that answers the [n]-th status read (counted
    over the whole trace) from a script, and [dflt] once the script is
    exhausted. *)
Definition scripted (script : list wl_status_t) (dflt : wl_status_t)
    (ip : IPAddress) : Driver :=
  {| drv_status := fun tr _ => nth (status_reads tr) script dflt;
     drv_localIP := fun _ _ => ip;
     drv_latency := fun _ _ _ => 0%N |}.

(** A driver that reports connected from [t_up] milliseconds on, each call
    taking [lat] milliseconds. *)
Definition timed (t_up : Z) (lat : N) (ip : IPAddress) : Driver :=
  {| drv_status := fun _ t => if t_up <=? t then WL_CONNECTED else WL_DISCONNECTED;
     drv_localIP := fun _ t => if t_up <=? t then ip else mkIP 0 0 0 0;
     drv_latency := fun _ _ _ => lat |}.

Definition boot (t : Z) : State :=
  {| this := WiFiEnterprise; clock := t; trace := []; serial := [] |}.

Definition test_ip : IPAddress := mkIP 10 0 0 42.

(** ** States reached while running [begin] *)

(** The state after [this->field = b]. *)
Definition with_debugEnabled (b : bool) (s : State) : State :=
  {| this := {| _debugEnabled := b; _connected := _connected (this s) |};
     clock := clock s; trace := trace s; serial := serial s |}.

Definition with_connected (b : bool) (s : State) : State :=
  {| this := {| _debugEnabled := _debugEnabled (this s); _connected := b |};
     clock := clock s; trace := trace s; serial := serial s |}.

(** The state after a group of [debugPrint] calls. *)
Definition logged (ops : list SerialOp) (s : State) : State :=
  if _debugEnabled (this s)
  then {| this := this s; clock := clock s; trace := trace s;
          serial := serial s ++ ops |}
  else s.

Section Reached.

Variable drv : Driver.

(** The state in which [begin] reads [startTime]. *)
Definition before_loop (ssid username password : string) (enableDebug : bool)
    (s : State) : State :=
  let s := with_debugEnabled enableDebug s in
  let s := logged
      [ SerialPrintln "WiFiEnterprise: Starting connection to WPA2-Enterprise network" ] s in
  let s := logged [ SerialPrint "SSID: "; SerialPrintln (c_str ssid) ] s in
  let s := logged [ SerialPrint "Username: "; SerialPrintln (c_str username) ] s in
  let s := performed drv (EvDisconnect true) 0 s in
  let s := performed drv (EvDelay 1000) 1000 s in
  let s := performed drv (EvMode WIFI_STA) 0 s in
  let s := logged
      [ SerialPrintln "WiFiEnterprise: Configuring WPA2-Enterprise settings" ] s in
  let s := performed drv (EvSetIdentity username (strlen username)) 0 s in
  let s := performed drv (EvSetUsername username (strlen username)) 0 s in
  let s := performed drv (EvSetPassword password (strlen password)) 0 s in
  let s := performed drv EvEntEnable 0 s in
  let s := logged [ SerialPrintln "WiFiEnterprise: Attempting to connect..." ] s in
  performed drv (EvBegin ssid) 0 s.

(** What [begin] does once the loop has ended in state [s]. *)
Definition after_loop (s : State) : bool * State :=
  let st := drv_status drv (trace s) (clock s) in
  let s := performed drv (EvStatus st) 0 s in
  if wl_status_eqb st WL_CONNECTED then
    let s := with_connected true s in
    let s := logged
        [ SerialPrintln (newline ++ "WiFiEnterprise: Connected successfully!") ] s in
    let ip := drv_localIP drv (trace s) (clock s) in
    let s := performed drv (EvLocalIP ip) 0 s in
    (true, logged [ SerialPrint "IP Address: ";
                    SerialPrintln (c_str (IPAddress_toString ip)) ] s)
  else
    let s := with_connected false s in
    let s := logged
        [ SerialPrintln (newline ++ "WiFiEnterprise: Connection failed!") ] s in
    let st' := drv_status drv (trace s) (clock s) in
    let s := performed drv (EvStatus st') 0 s in
    let s := logged [ SerialPrint "Status: ";
                      SerialPrintln (c_str (String_of_int (wl_status_code st'))) ] s in
    (false, performed drv EvEntDisable 0 s).

End Reached.

(** The state [end()] leaves. *)
Definition ended (drv : Driver) (s : State) : State :=
  let s := logged [ SerialPrintln "WiFiEnterprise: Disconnecting..." ] s in
  let s := performed drv EvEntDisable 0 s in
  let s := performed drv (EvDisconnect true) 0 s in
  let s := with_connected false s in
  logged [ SerialPrintln "WiFiEnterprise: Disconnected" ] s.

(** ** The claim about the result of [begin], in the spec's words *)

(** "The status register reports connected before the timeout elapses": one
    of the status reads of the polling loop returned connected. *)
Definition reported_connected (r : Run) : bool :=
  existsb (fun e => match e with
                    | EvStatus st => wl_status_eqb st WL_CONNECTED
                    | _ => false
                    end) (loop_events r).

(** The status the loop read last. *)
Definition last_status (x : LoopExit) : wl_status_t :=
  match x with
  | ExitConnected => WL_CONNECTED
  | ExitTimeout st _ => st
  end.

(** Calls that program the EAP identity. *)
Definition is_set_identity (e : Event) : bool :=
  match e with
  | EvSetIdentity _ _ => true
  | _ => false
  end.

(** ** Drivers and states used as examples *)

(** The scenario of the spec: "disconnected" for three polls, then
    "connected". *)
Definition demo : Driver :=
  scripted [WL_DISCONNECTED; WL_DISCONNECTED; WL_DISCONNECTED] WL_CONNECTED test_ip.

(** A driver that reads connected once and not connected ever after. *)
Definition flapping : Driver := scripted [WL_CONNECTED] WL_DISCONNECTED test_ip.

(** A driver that never connects. *)
Definition deaf : Driver := scripted [] WL_DISCONNECTED test_ip.

(** A driver that reads connected only once the loop has timed out: 41 reads
    of "disconnected" first. *)
Definition late : Driver := scripted (repeat WL_DISCONNECTED 41) WL_CONNECTED test_ip.

(** A wrapper on which debugging was switched on, with some output and some
    platform history behind it. *)
Definition used : State :=
  {| this := {| _debugEnabled := true; _connected := true |};
     clock := 4294967000;
     trace := [EvStatus WL_IDLE_STATUS];
     serial := [SerialPrintln "boot"] |}.

(** The claim as the spec words it: the result of [begin], and the
    [_connected] field with it, is whether the status register reported
    connected before the timeout elapsed. *)
Definition claimed_result (drv : Driver) (fuel : nat)
    (ssid username password : string) (dbg : bool) (s : State) : Prop :=
  forall (r : Run) (s' : State),
    begin drv fuel ssid username password dbg s = Some (run_result r, s') ->
    trace s' = trace s ++ begin_events ssid username password r ->
    run_result r = reported_connected r
    /\ _connected (this s') = reported_connected r.

(** The run of [begin] on [flapping] from [boot 0]. *)
Definition flapping_run : Run :=
  {| run_start := 1000; run_polls := []; run_exit := ExitConnected;
     run_decide := WL_DISCONNECTED; run_ip := test_ip;
     run_report := WL_DISCONNECTED |}.

(** The run of [begin] on [late] from [boot 0]: forty turns, a timeout. *)
Definition late_run : Run :=
  {| run_start := 1000;
     run_polls := map (fun k => (WL_DISCONNECTED, 1000 + 500 * Z.of_nat k)) (seq 0 40);
     run_exit := ExitTimeout WL_DISCONNECTED 21000;
     run_decide := WL_CONNECTED; run_ip := test_ip;
     run_report := WL_DISCONNECTED |}.

(** The final state of a call, [boot 0] if it ran out of fuel. *)
Definition final_state {A : Type} (out : option (A * State)) : State :=
  match out with
  | Some (_, s) => s
  | None => boot 0
  end.

(** A state that differs from [boot 0] in the debug flag and in [Serial]. *)
Definition chatty : State :=
  printed (SerialPrintln "boot") (with_debugEnabled true (boot 0)).

(** What the platform can see of the state. *)
Definition core (s : State) : Z * list Event := (clock s, trace s).

(** ** Durations *)

(** The call that led from [s] to [s'] lasted between [lo] and [hi]
    milliseconds. *)
Definition within (lo hi : Z) (s s' : State) : Prop :=
  clock s + lo <= clock s' <= clock s + hi.

(** A platform on which no call takes longer than [l] milliseconds. *)
Definition latency_at_most (drv : Driver) (l : Z) : Prop :=
  forall tr t e, Z.of_N (drv_latency drv tr t e) <= l.

(** The number of turns of the loop in a run. *)
Definition turns (r : Run) : Z := Z.of_nat (List.length (run_polls r)).

(** * The sketch [examples/AdvancedConnection/AdvancedConnection.ino] *)

(** Modelled from the spec: what the signal-strength and MAC-address queries
    of the platform answer; they are consumed only by example code.  Like
    every platform call they are recorded in the trace and take the time the
    driver says. *)
Record Radio : Type := {
  radio_RSSI : list Event -> Z -> Z;
  radio_macAddress : string
}.

(** The globals of the sketch, and the level of [LED_PIN]: the pin is an
    output, [digitalRead] returns the level last written. *)
Record Advanced : Type := {
  lastCheck : Z;
  reconnectAttempts : Z;
  wasConnected : bool;
  LED : bool
}.

Definition CHECK_INTERVAL : Z := 5000.
Definition MAX_RECONNECT_ATTEMPTS : Z := 3.

(** The globals as the sketch initialises them. *)
Definition Advanced_init : Advanced :=
  {| lastCheck := 0; reconnectAttempts := 0; wasConnected := false; LED := false |}.

Section AdvancedConnection.

Variable drv : Driver.
Variable radio : Radio.

(** The credentials of the sketch and the fuel for the loop of [begin]. *)
Variables ssid username password : string.
Variable fuel : nat.

Definition WiFi_RSSI : M Z := fun s =>
  let r := radio_RSSI radio (trace s) (clock s) in
  (invoke drv (EvRSSI r) 0 ;; ret r) s.

Definition WiFi_macAddress : M string := fun s =>
  let r := radio_macAddress radio in
  (invoke drv (EvMacAddress r) 0 ;; ret r) s.

(** [Serial.printf] writes the formatted text, [%d] in decimal. *)
Definition printConnectionInfo : M unit :=
  Serial_println "📊 Connection Information:" ;;
  ip <- localIP drv ;;
  Serial_print ("   IP Address: " ++ c_str (IPAddress_toString ip) ++ newline) ;;
  st <- status drv ;;
  Serial_print ("   Status: " ++ String_of_int (wl_status_code st) ++ newline) ;;
  rssi <- WiFi_RSSI ;;
  Serial_print ("   RSSI: " ++ String_of_int rssi ++ " dBm" ++ newline) ;;
  mac <- WiFi_macAddress ;;
  Serial_print ("   MAC Address: " ++ c_str mac ++ newline) ;;
  Serial_println "".

Definition printErrorInfo : M unit :=
  Serial_println "❌ Connection Error Information:" ;;
  st <- status drv ;;
  Serial_print ("   Status Code: " ++ String_of_int (wl_status_code st) ++ newline) ;;
  st' <- status drv ;;
  Serial_println
    match st' with
    | WL_NO_SSID_AVAIL => "   Error: SSID not found"
    | WL_CONNECT_FAILED => "   Error: Connection failed (check credentials)"
    | WL_CONNECTION_LOST => "   Error: Connection lost"
    | WL_DISCONNECTED => "   Error: Disconnected"
    | _ => "   Error: Unknown error"
    end ;;
  Serial_println "💡 Troubleshooting tips:" ;;
  Serial_println "   - Verify SSID, username, and password" ;;
  Serial_println "   - Check if the network supports EAP-PEAP" ;;
  Serial_println "   - Ensure ESP32 is within range of the access point" ;;
  Serial_println "".

Definition connectToNetwork : M bool :=
  Serial_println "🔗 Connecting to WPA2-Enterprise network..." ;;
  Serial_print ("SSID: " ++ c_str ssid ++ newline) ;;
  Serial_print ("Username: " ++ c_str username ++ newline) ;;
  Serial_println "" ;;
  setDebug true ;;
  success <- begin drv fuel ssid username password true ;;
  (if success
   then Serial_println "" ;; printConnectionInfo
   else Serial_println "" ;; printErrorInfo) ;;
  setDebug false ;;
  ret success.

(** [setup()]; [Serial.begin] and [pinMode] leave no mark on the model. *)
Definition setup_ : M Advanced :=
  delay drv 1000 ;;
  Serial_println "WiFiEnterprise Advanced Connection Example" ;;
  Serial_println "=========================================" ;;
  Serial_println "" ;;
  connectToNetwork ;;
  ret {| lastCheck := lastCheck Advanced_init;
         reconnectAttempts := reconnectAttempts Advanced_init;
         wasConnected := wasConnected Advanced_init;
         LED := false |}.

(** The periodic check of [loop()], the body of its first [if]. *)
Definition check_connection (currentTime : Z) (g : Advanced) : M Advanced :=
  let g := {| lastCheck := currentTime; reconnectAttempts := reconnectAttempts g;
              wasConnected := wasConnected g; LED := LED g |} in
  currentlyConnected <- isConnected drv ;;
  if currentlyConnected then
    let g := {| lastCheck := lastCheck g; reconnectAttempts := reconnectAttempts g;
                wasConnected := wasConnected g; LED := true |} in
    g <- (if negb (wasConnected g) then
            Serial_println "✅ Connection established!" ;;
            printConnectionInfo ;;
            ret {| lastCheck := lastCheck g; reconnectAttempts := 0;
                   wasConnected := wasConnected g; LED := LED g |}
          else ret g) ;;
    ret {| lastCheck := lastCheck g; reconnectAttempts := reconnectAttempts g;
           wasConnected := true; LED := LED g |}
  else
    let g := {| lastCheck := lastCheck g; reconnectAttempts := reconnectAttempts g;
                wasConnected := wasConnected g; LED := false |} in
    g <- (if wasConnected g then
            Serial_println "❌ Connection lost!" ;;
            ret {| lastCheck := lastCheck g; reconnectAttempts := reconnectAttempts g;
                   wasConnected := false; LED := LED g |}
          else ret g) ;;
    if reconnectAttempts g <? MAX_RECONNECT_ATTEMPTS then
      Serial_print ("🔄 Reconnection attempt " ++
                    String_of_int (reconnectAttempts g + 1) ++ "/" ++
                    String_of_int MAX_RECONNECT_ATTEMPTS ++ "..." ++ newline) ;;
      ok <- connectToNetwork ;;
      if ok then
        Serial_println "✅ Reconnected successfully!" ;;
        ret {| lastCheck := lastCheck g; reconnectAttempts := 0;
               wasConnected := wasConnected g; LED := LED g |}
      else
        let g := {| lastCheck := lastCheck g;
                    reconnectAttempts := reconnectAttempts g + 1;
                    wasConnected := wasConnected g; LED := LED g |} in
        (if MAX_RECONNECT_ATTEMPTS <=? reconnectAttempts g then
           Serial_println "❌ Maximum reconnection attempts reached!" ;;
           Serial_println
             "💡 Please check your network settings and restart the device."
         else ret tt) ;;
        ret g
    else ret g.

(** [loop()]. *)
Definition loop_ (g : Advanced) : M Advanced :=
  currentTime <- millis drv ;;
  g <- (if CHECK_INTERVAL <=? ulong_sub currentTime (lastCheck g)
        then check_connection currentTime g
        else ret g) ;;
  connected <- isConnected drv ;;
  if negb connected then
    let g := {| lastCheck := lastCheck g; reconnectAttempts := reconnectAttempts g;
                wasConnected := wasConnected g; LED := negb (LED g) |} in
    delay drv 200 ;;
    ret g
  else
    delay drv 100 ;;
    ret g.

End AdvancedConnection.

(** The trace from [s] to [s'] holds the driver commands [cmds], in order,
    among queries and clock calls. *)
Definition issued (s s' : State) (cmds : list Event) : Prop :=
  exists new, trace s' = trace s ++ new /\ filter is_command new = cmds.

(** The queries [connectToNetwork] makes once [begin] has returned [b]:
    those of [printConnectionInfo] after a success, those of [printErrorInfo]
    after a failure. *)
Definition report_queries (b : bool) (ip : IPAddress) (st st' : wl_status_t)
    (rssi : Z) (mac : string) : list Event :=
  if b then [EvLocalIP ip; EvStatus st; EvRSSI rssi; EvMacAddress mac]
  else [EvStatus st; EvStatus st'].

(** A radio for running the model. *)
Definition test_radio : Radio :=
  {| radio_RSSI := fun _ _ => -57; radio_macAddress := "24:6F:28:AA:BB:CC" |}.

(** * The reconnection handler of the sensor-monitoring sketch *)

(** The function-local static [lastReconnectAttempt] of [handleDisconnection]
    and the level of [LED_PIN]. *)
Record Handler : Type := {
  lastReconnectAttempt : Z;
  LED_PIN : bool
}.

(** [handleDisconnection()], called by [loop()] while [isConnected()] is
    false. *)
Definition handleDisconnection (drv : Driver) (ssid username password : string)
    (fuel : nat) (h : Handler) : M Handler :=
  let h := {| lastReconnectAttempt := lastReconnectAttempt h;
              LED_PIN := negb (LED_PIN h) |} in
  delay drv 100 ;;
  now <- millis drv ;;
  if 30000 <=? ulong_sub now (lastReconnectAttempt h) then
    Serial_println "🔄 WiFi disconnected, attempting to reconnect..." ;;
    ok <- begin_default drv fuel ssid username password ;;
    if ok then
      Serial_println "✅ Reconnected successfully!" ;;
      ret h
    else
      t <- millis drv ;;
      ret {| lastReconnectAttempt := t; LED_PIN := LED_PIN h |}
  else ret h.

(** * Time formatting in the sketches *)

(** [formatUptime(ms)] of the SimplePing, SimpleSensor and SimpleTime
    sketches (the three copies are identical). *)
Definition formatUptime (ms : Z) : string :=
  let seconds := ms / 1000 in
  let minutes := seconds / 60 in
  let hours := minutes / 60 in
  let days := hours / 24 in
  let seconds := seconds mod 60 in
  let minutes := minutes mod 60 in
  let hours := hours mod 24 in
  let uptime := ""%string in
  let uptime := if 0 <? days
                then (uptime ++ (String_of_int days ++ "d "))%string else uptime in
  let uptime := if 0 <? hours
                then (uptime ++ (String_of_int hours ++ "h "))%string else uptime in
  let uptime := if 0 <? minutes
                then (uptime ++ (String_of_int minutes ++ "m "))%string else uptime in
  (uptime ++ (String_of_int seconds ++ "s"))%string.

(** [getCurrentTime()] of the NetworkScanner sketch: the uptime as
    [H:MM:SS]. *)
Definition getCurrentTime (drv : Driver) : M string :=
  now <- millis drv ;;
  let uptime := now / 1000 in
  let hours := uptime / 3600 in
  let minutes := (uptime mod 3600) / 60 in
  let seconds := uptime mod 60 in
  ret (String_of_int hours ++ ":" ++
       (if (minutes <? 10)%Z then "0" else "") ++ String_of_int minutes ++ ":" ++
       (if (seconds <? 10)%Z then "0" else "") ++ String_of_int seconds)%string.

(** Reading such texts back, to show what they determine: decimal digits
    accumulate in [n]; any other character is handed to [unit], which
    updates the total. *)
Definition digit_of (c : ascii) : option Z :=
  let k := Z.of_nat (nat_of_ascii c) in
  if (48 <=? k) && (k <=? 57) then Some (k - 48) else None.

Fixpoint read_time (unit : ascii -> Z -> Z -> Z * Z) (text : string)
    (total n : Z) : Z :=
  match text with
  | EmptyString => total + n
  | String c rest =>
      match digit_of c with
      | Some d => read_time unit rest total (10 * n + d)
      | None => let (total', n') := unit c total n in read_time unit rest total' n'
      end
  end.

(** The accumulator after reading the digits of [d] from [n]. *)
Fixpoint read_uint (d : Decimal.uint) (n : Z) : Z :=
  match d with
  | Decimal.Nil => n
  | Decimal.D0 l => read_uint l (10 * n + 0)
  | Decimal.D1 l => read_uint l (10 * n + 1)
  | Decimal.D2 l => read_uint l (10 * n + 2)
  | Decimal.D3 l => read_uint l (10 * n + 3)
  | Decimal.D4 l => read_uint l (10 * n + 4)
  | Decimal.D5 l => read_uint l (10 * n + 5)
  | Decimal.D6 l => read_uint l (10 * n + 6)
  | Decimal.D7 l => read_uint l (10 * n + 7)
  | Decimal.D8 l => read_uint l (10 * n + 8)
  | Decimal.D9 l => read_uint l (10 * n + 9)
  end.

(** The units of [formatUptime]. *)
Definition uptime_unit (c : ascii) (total n : Z) : Z * Z :=
  if Ascii.eqb c "d" then (total + n * 86400, 0)
  else if Ascii.eqb c "h" then (total + n * 3600, 0)
  else if Ascii.eqb c "m" then (total + n * 60, 0)
  else if Ascii.eqb c "s" then (total + n, 0)
  else (total, n).

(** The separator of [getCurrentTime]. *)
Definition clock_unit (c : ascii) (total n : Z) : Z * Z :=
  if Ascii.eqb c ":" then ((total + n) * 60, 0) else (total, n).

(** * The sketch [examples/NetworkScanner/NetworkScanner.ino] *)

(** The platform's authentication modes: the enumerators the sketch names,
    and the others, which its [switch] sends to [default]. *)
Inductive wifi_auth_mode_t : Type :=
| WIFI_AUTH_OPEN
| WIFI_AUTH_WEP
| WIFI_AUTH_WPA_PSK
| WIFI_AUTH_WPA2_PSK
| WIFI_AUTH_WPA_WPA2_PSK
| WIFI_AUTH_WPA2_ENTERPRISE
| WIFI_AUTH_WPA3_PSK
| WIFI_AUTH_WPA2_WPA3_PSK
| WIFI_AUTH_WAPI_PSK
| WIFI_AUTH_other (code : Z).

Record NetworkInfo : Type := {
  net_ssid : string;
  net_bssid : string;
  net_rssi : Z;
  net_channel : Z;
  net_authMode : wifi_auth_mode_t;
  net_isHidden : bool;
  net_isEnterprise : bool;
  net_securityType : string;
  net_qualityRating : string;
  net_frequency : Z
}.

Definition getSecurityType (authMode : wifi_auth_mode_t) : string :=
  match authMode with
  | WIFI_AUTH_OPEN => "Open"
  | WIFI_AUTH_WEP => "WEP"
  | WIFI_AUTH_WPA_PSK => "WPA-PSK"
  | WIFI_AUTH_WPA2_PSK => "WPA2-PSK"
  | WIFI_AUTH_WPA_WPA2_PSK => "WPA/WPA2-PSK"
  | WIFI_AUTH_WPA2_ENTERPRISE => "WPA2-Enterprise"
  | WIFI_AUTH_WPA3_PSK => "WPA3-PSK"
  | WIFI_AUTH_WPA2_WPA3_PSK => "WPA2/WPA3-PSK"
  | WIFI_AUTH_WAPI_PSK => "WAPI-PSK"
  | WIFI_AUTH_other _ => "Unknown"
  end.

Definition isEnterpriseNetwork (authMode : wifi_auth_mode_t) : bool :=
  match authMode with
  | WIFI_AUTH_WPA2_ENTERPRISE => true
  | _ => false
  end.

Definition getSignalQuality (rssi : Z) : string :=
  if -30 <=? rssi then "Excellent"
  else if -50 <=? rssi then "Very Good"
  else if -60 <=? rssi then "Good"
  else if -70 <=? rssi then "Fair"
  else if -80 <=? rssi then "Weak"
  else "Very Weak".

(** [channel] is a [uint8_t]. *)
Definition getFrequency (channel : Z) : Z :=
  if (1 <=? channel) && (channel <=? 14) then 2412 + (channel - 1) * 5
  else if 36 <=? channel then 5000 + channel * 5
  else 0.

(** The body of the [for] loop of [performNetworkScan]: the entry built from
    what the platform reports for one network.  The field [channel] is a
    [uint8_t]: it keeps the low eight bits of the reported channel, and the
    frequency is computed from the field. *)
Definition scan_entry (ssid bssid : string) (rssi channel : Z)
    (authMode : wifi_auth_mode_t) : NetworkInfo :=
  {| net_ssid := ssid;
     net_bssid := bssid;
     net_rssi := rssi;
     net_channel := channel mod 256;
     net_authMode := authMode;
     net_isHidden := (String.length ssid =? 0)%nat;
     net_isEnterprise := isEnterpriseNetwork authMode;
     net_securityType := getSecurityType authMode;
     net_qualityRating := getSignalQuality rssi;
     net_frequency := getFrequency (channel mod 256) |}.

(** The counting loops over the global [networks]. *)
Definition count24GHz (networks : list NetworkInfo) : Z :=
  fold_left (fun count net =>
               if (1 <=? net_channel net) && (net_channel net <=? 14)
               then count + 1 else count) networks 0.

Definition count5GHz (networks : list NetworkInfo) : Z :=
  fold_left (fun count net =>
               if 36 <=? net_channel net then count + 1 else count) networks 0.

Definition countEnterpriseNetworks (networks : list NetworkInfo) : Z :=
  fold_left (fun count net =>
               if net_isEnterprise net then count + 1 else count) networks 0.

(** [a[i]++] on an array held as a list. *)
Fixpoint bump (i : nat) (a : list Z) : list Z :=
  match a, i with
  | [], _ => []
  | x :: r, O => (x + 1) :: r
  | x :: r, S j => x :: bump j r
  end.

(** The first loop of [showChannelDistribution]: [channelCount[15]]. *)
Definition channel_counts (networks : list NetworkInfo) : list Z :=
  fold_left (fun channelCount net =>
               if (1 <=? net_channel net) && (net_channel net <=? 14)
               then bump (Z.to_nat (net_channel net)) channelCount
               else bump 0 channelCount)
            networks (repeat 0 15).

(** Its last loop, over the channels [1..11]: the least count and the text
    listing the channels that have it. *)
Definition least_step (channelCount : list Z) (acc : Z * string) (i : Z)
    : Z * string :=
  let (minCount, bestChannels) := acc in
  let c := nth (Z.to_nat i) channelCount 0 in
  if c <? minCount then (c, String_of_int i)
  else if c =? minCount then (minCount, (bestChannels ++ (", " ++ String_of_int i))%string)
  else (minCount, bestChannels).

Definition least_congested (channelCount : list Z) : Z * string :=
  fold_left (least_step channelCount) (map Z.of_nat (seq 1 11)) (999, ""%string).

(** [%2d]. *)
Definition pad2 (i : Z) : string :=
  if i <? 10 then (" " ++ String_of_int i)%string else String_of_int i.

Definition bar (n : Z) : string := String.concat "" (repeat "█"%string (Z.to_nat n)).

Definition showChannelDistribution (networks : list NetworkInfo) : M unit :=
  let channelCount := channel_counts networks in
  Serial_println "📊 2.4GHz Channel Usage:" ;;
  fold_left
    (fun (m : M unit) (i : Z) =>
       m ;;
       let c := nth (Z.to_nat i) channelCount 0 in
       if 0 <? c then
         Serial_print ("   Ch " ++ pad2 i ++ ": " ++ bar c ++ " (" ++
                       String_of_int c ++ " networks)" ++ newline)
       else ret tt)
    (map Z.of_nat (seq 1 14)) (ret tt) ;;
  (if 0 <? nth 0 channelCount 0
   then Serial_println ("   5GHz: " ++ String_of_int (nth 0 channelCount 0) ++ " networks")
   else ret tt) ;;
  let (minCount, bestChannels) := least_congested channelCount in
  Serial_println (newline ++ "💡 Least congested channels: " ++ bestChannels ++
                  " (" ++ String_of_int minCount ++ " networks)") ;;
  Serial_println "".

(** Some scan results, for running the model. *)
Definition test_networks : list NetworkInfo :=
  [ scan_entry "Corp" "AA:BB:CC:00:00:01" (-48) 1 WIFI_AUTH_WPA2_ENTERPRISE;
    scan_entry "Guest" "AA:BB:CC:00:00:02" (-61) 6 WIFI_AUTH_OPEN;
    scan_entry "" "AA:BB:CC:00:00:03" (-70) 6 WIFI_AUTH_WPA2_PSK;
    scan_entry "Lab" "AA:BB:CC:00:00:04" (-82) 36 (WIFI_AUTH_other 10);
    scan_entry "Odd" "AA:BB:CC:00:00:05" (-90) 20 WIFI_AUTH_WEP ].

(** The number of networks that satisfy [p]. *)
Definition how_many (p : NetworkInfo -> bool) (networks : list NetworkInfo) : Z :=
  Z.of_nat (List.length (filter p networks)).

(** The number of networks on channel [c]. *)
Definition on_channel (networks : list NetworkInfo) (c : Z) : Z :=
  how_many (fun net => net_channel net =? c) networks.

(** An entry as [performNetworkScan] builds it. *)
Definition scanned (net : NetworkInfo) : Prop :=
  net = scan_entry (net_ssid net) (net_bssid net) (net_rssi net) (net_channel net)
          (net_authMode net).

(** The slot of [channelCount] a network is counted in. *)
Definition slot (net : NetworkInfo) : nat :=
  if (1 <=? net_channel net) && (net_channel net <=? 14)
  then Z.to_nat (net_channel net) else 0%nat.

(** The channels [showChannelDistribution] recommends among. *)
Definition candidate_channels : list Z := map Z.of_nat (seq 1 11).

(** Limits for running the model: one to 127 bytes for each credential. *)
Definition test_limits : Limits :=
  {| identity_ok := fun len => Nat.leb 1 len && Nat.leb len 127;
     username_ok := fun len => Nat.leb 1 len && Nat.leb len 127;
     password_ok := fun len => Nat.leb 1 len && Nat.leb len 127 |}.

(** A wrapper that has joined another network before: the state a
    successful [begin] for the network "Lab" leaves. *)
Definition served_before : State :=
  final_state (begin demo poll_fuel "Lab" "bob@lab" "hunter2" false (boot 0)).

(** A driver on which the link is up at every read. *)
Definition steady : Driver := scripted [] WL_CONNECTED test_ip.

(** Inputs for running the sketches. *)
Definition given_up : Advanced :=
  {| lastCheck := 0; reconnectAttempts := 3; wasConnected := false; LED := false |}.

Definition failed_before : Handler :=
  {| lastReconnectAttempt := 4294960000; LED_PIN := false |}.

Definition never_failed : Handler :=
  {| lastReconnectAttempt := 0; LED_PIN := true |}.

(** * Proofs *)

(** ** Basic facts *)

Lemma wl_status_eqb_eq (a b : wl_status_t) : wl_status_eqb a b = true <-> a = b.
Proof.
  split.
  - destruct a, b; intro H; try reflexivity; discriminate H.
  - intros ->. apply Z.eqb_refl.
Qed.

Lemma wl_status_eqb_neq (a b : wl_status_t) : wl_status_eqb a b = false <-> a <> b.
Proof.
  rewrite <- wl_status_eqb_eq. destruct (wl_status_eqb a b); split; congruence.
Qed.

Lemma ulong_sub_elapsed (t0 t : Z) :
  0 <= t - t0 < ULONG_MOD ->
  ulong_sub (t mod ULONG_MOD) (t0 mod ULONG_MOD) = t - t0.
Proof.
  intros H. unfold ulong_sub.
  rewrite <- Zminus_mod. apply Z.mod_small. exact H.
Qed.

Lemma driver_config_app (tr1 tr2 : list Event) :
  driver_config (tr1 ++ tr2) = fold_left apply_event tr2 (driver_config tr1).
Proof.
  unfold driver_config. apply fold_left_app.
Qed.

(** ** The polling loop *)

Section Loop.

Variable drv : Driver.

(** One evaluation of the loop condition, and of the body if it holds. *)
Lemma poll_unfold (fuel : nat) (startTime : Z) (s : State) :
  poll drv (S fuel) startTime s =
  let st := drv_status drv (trace s) (clock s) in
  let s1 := performed drv (EvStatus st) 0 s in
  if wl_status_eqb st WL_CONNECTED then Some (tt, s1)
  else
    let m := clock s1 mod ULONG_MOD in
    let s2 := performed drv (EvMillis m) 0 s1 in
    if ulong_sub m startTime <? timeout then
      let s3 := performed drv (EvDelay 500) 500 s2 in
      poll drv fuel startTime
        (if _debugEnabled (this s) then printed (SerialPrint ".") s3 else s3)
    else Some (tt, s2).
Proof.
  cbn [poll]. unfold bind at 1.
  unfold WiFi_status, bind, invoke, ret. cbv zeta.
  destruct (wl_status_eqb _ WL_CONNECTED); cbn [negb]; [reflexivity|].
  unfold millis, bind, invoke, ret. cbv zeta.
  destruct (ulong_sub _ startTime <? timeout); [|reflexivity].
  unfold delay, get_debugEnabled, Serial_print, bind, invoke, ret.
  cbn [this performed].
  destruct (_debugEnabled (this s)); reflexivity.
Qed.

(** Whatever the fuel, a loop that returns has made a sequence of turns that
    all read "not connected" before the timeout, then one exit test; it does
    not touch the object and prints one dot per turn when debugging. *)
Lemma poll_run (startTime : Z) :
  forall (fuel : nat) (s s' : State),
    poll drv fuel startTime s = Some (tt, s') ->
    exists polls x,
      trace s' = trace s ++ poll_events polls ++ exit_events x
      /\ Forall (poll_ok startTime) polls
      /\ exit_ok startTime x
      /\ (List.length polls < fuel)%nat
      /\ this s' = this s
      /\ serial s' = serial s ++
           (if _debugEnabled (this s)
            then repeat (SerialPrint ".") (List.length polls) else []).
Proof.
  induction fuel as [|fuel IH]; intros s s' H.
  - discriminate H.
  - cbn [poll] in H. unfold bind at 1 in H.
    unfold WiFi_status, bind, invoke, ret in H. cbn in H.
    set (st := drv_status drv (trace s) (clock s)) in *.
    destruct (wl_status_eqb st WL_CONNECTED) eqn:Est; cbn in H.
    + injection H as <-.
      apply wl_status_eqb_eq in Est.
      exists [], ExitConnected. cbn. rewrite Est.
      repeat split; auto with arith.
      destruct (_debugEnabled (this s)); now rewrite app_nil_r.
    + apply wl_status_eqb_neq in Est.
      unfold millis, bind, invoke, ret in H. cbn in H.
      match type of H with
      | context [ulong_sub ?m startTime <? timeout] => set (mm := m) in *
      end.
      destruct (ulong_sub mm startTime <? timeout) eqn:Et.
      * apply Z.ltb_lt in Et.
        unfold delay, get_debugEnabled, bind, invoke, ret in H. cbn in H.
        destruct (_debugEnabled (this s)) eqn:Ed; cbn in H;
          apply IH in H;
          destruct H as (polls & x & Htr & Hok & Hx & Hlen & Hthis & Hser);
          cbn in Htr, Hthis, Hser;
          exists ((st, mm) :: polls), x; cbn;
          (repeat split;
           [ rewrite Htr; repeat rewrite <- app_assoc; reflexivity
           | constructor; [split; assumption | assumption]
           | assumption
           | auto with arith
           | assumption
           | rewrite Hser, Ed; rewrite <- ?app_assoc; reflexivity ]).
      * apply Z.ltb_ge in Et. injection H as <-.
        exists [], (ExitTimeout st mm). cbn.
        repeat split; auto with arith.
        -- now rewrite <- app_assoc.
        -- destruct (_debugEnabled (this s)); now rewrite app_nil_r.
Qed.

End Loop.

(** ** Termination of the loop on a well-timed platform *)

Section Timing.

Variable drv : Driver.
Hypothesis timed : well_timed drv.

Lemma ULONG_MOD_value : ULONG_MOD = 3 * max_latency + 20500.
Proof. reflexivity. Qed.

Lemma latency_bounds (tr : list Event) (t : Z) (e : Event) :
  0 <= Z.of_N (drv_latency drv tr t e) <= max_latency.
Proof. split; [apply N2Z.is_nonneg | apply timed]. Qed.

(** [t0] is the time at which [startTime] was read.  A loop entered at most
    [20499 + 2 * max_latency] after [t0], with no more than [500 * n]
    milliseconds left before the timeout, ends within [n] turns; its final
    state does not depend on the fuel left over. *)
Lemma poll_terminates (t0 : Z) :
  forall (n : nat) (s : State),
    timeout - 500 * Z.of_nat n <= clock s - t0 ->
    0 <= clock s - t0 <= 20499 + 2 * max_latency ->
    exists s', forall fuel, (n < fuel)%nat ->
      poll drv fuel (t0 mod ULONG_MOD) s = Some (tt, s').
Proof.
  induction n as [|n IH]; intros s Hlo Hb.
  all: set (st := drv_status drv (trace s) (clock s)).
  all: set (s1 := performed drv (EvStatus st) 0 s).
  all: set (s2 := performed drv (EvMillis (clock s1 mod ULONG_MOD)) 0 s1).
  all: set (s3 := performed drv (EvDelay 500) 500 s2).
  all: set (s4 := if _debugEnabled (this s) then printed (SerialPrint ".") s3 else s3).
  all: pose proof (latency_bounds (trace s) (clock s) (EvStatus st)) as Hl.
  all: assert (Hel : ulong_sub (clock s1 mod ULONG_MOD) (t0 mod ULONG_MOD)
                     = clock s1 - t0)
         by (apply ulong_sub_elapsed; rewrite ULONG_MOD_value;
             unfold s1; cbn [clock performed]; lia).
  all: destruct (wl_status_eqb st WL_CONNECTED) eqn:Est.
  all: try (exists s1; intros [|fuel] Hf; [lia|];
            rewrite poll_unfold; cbv zeta; fold st; rewrite Est; reflexivity).
  all: destruct (clock s1 - t0 <? timeout) eqn:Et.
  all: try (exists s2; intros [|fuel] Hf; [lia|];
            rewrite poll_unfold; cbv zeta; fold st; rewrite Est; fold s1;
            rewrite Hel, Et; reflexivity).
  - apply Z.ltb_lt in Et. unfold s1, timeout in *. cbn [clock performed] in Et. lia.
  - pose proof (proj1 (Z.ltb_lt _ _) Et) as Hlt.
    pose proof (latency_bounds (trace s1) (clock s1) (EvMillis (clock s1 mod ULONG_MOD))) as Hm.
    pose proof (latency_bounds (trace s2) (clock s2) (EvDelay 500)) as Hd.
    assert (Hc4 : clock s4 = clock s3)
      by (unfold s4; destruct (_debugEnabled (this s)); reflexivity).
    assert (Hc3 : clock s3 = clock s2 + 500 +
                  Z.of_N (drv_latency drv (trace s2) (clock s2) (EvDelay 500)))
      by reflexivity.
    assert (Hc2 : clock s2 = clock s1 + 0 +
                  Z.of_N (drv_latency drv (trace s1) (clock s1)
                            (EvMillis (clock s1 mod ULONG_MOD))))
      by reflexivity.
    assert (Hc1 : clock s1 = clock s + 0 +
                  Z.of_N (drv_latency drv (trace s) (clock s) (EvStatus st)))
      by reflexivity.
    destruct (IH s4) as [s' Hs'].
    + unfold timeout in *. lia.
    + unfold timeout in *. lia.
    + exists s'. intros [|fuel] Hf; [lia|].
      rewrite <- (Hs' fuel) by lia.
      rewrite poll_unfold; cbv zeta; fold st; rewrite Est; fold s1.
      rewrite Hel, Et. reflexivity.
Qed.

End Timing.

(** ** Symbolic execution of [begin] *)

Section Symbolic.

Variable drv : Driver.

(** Each primitive run in front of a continuation. *)
Lemma bind_invoke {B : Type} (e : Event) (dur : Z) (k : unit -> M B) (s : State) :
  bind (invoke drv e dur) k s = k tt (performed drv e dur s).
Proof. reflexivity. Qed.

Lemma bind_set_debugEnabled {B : Type} (b : bool) (k : unit -> M B) (s : State) :
  bind (set_debugEnabled b) k s = k tt (with_debugEnabled b s).
Proof. reflexivity. Qed.

Lemma bind_set_connected {B : Type} (b : bool) (k : unit -> M B) (s : State) :
  bind (set_connected b) k s = k tt (with_connected b s).
Proof. reflexivity. Qed.

Lemma bind_debugPrint {B : Type} (msg : string) (k : unit -> M B) (s : State) :
  bind (debugPrint msg) k s = k tt (logged [SerialPrintln msg] s).
Proof.
  unfold debugPrint, logged, get_debugEnabled, bind.
  destruct (_debugEnabled (this s)); reflexivity.
Qed.

Lemma bind_debugPrint2 {B : Type} (msg value : string) (k : unit -> M B) (s : State) :
  bind (debugPrint2 msg value) k s =
  k tt (logged [SerialPrint msg; SerialPrintln (c_str value)] s).
Proof.
  unfold debugPrint2, logged, get_debugEnabled, Serial_print, Serial_println, printed, bind.
  destruct (_debugEnabled (this s)); [|reflexivity].
  cbn [serial this clock trace]. now rewrite <- app_assoc.
Qed.

Lemma bind_WiFi_status {B : Type} (k : wl_status_t -> M B) (s : State) :
  bind (WiFi_status drv) k s =
  k (drv_status drv (trace s) (clock s))
    (performed drv (EvStatus (drv_status drv (trace s) (clock s))) 0 s).
Proof. reflexivity. Qed.

Lemma bind_WiFi_localIP {B : Type} (k : IPAddress -> M B) (s : State) :
  bind (WiFi_localIP drv) k s =
  k (drv_localIP drv (trace s) (clock s))
    (performed drv (EvLocalIP (drv_localIP drv (trace s) (clock s))) 0 s).
Proof. reflexivity. Qed.

Lemma bind_millis {B : Type} (k : Z -> M B) (s : State) :
  bind (millis drv) k s =
  k (clock s mod ULONG_MOD) (performed drv (EvMillis (clock s mod ULONG_MOD)) 0 s).
Proof. reflexivity. Qed.

Lemma bind_ret {A : Type} (a : A) (s : State) : ret a s = Some (a, s).
Proof. reflexivity. Qed.

End Symbolic.

Ltac run_step :=
  first
    [ rewrite bind_invoke | rewrite bind_set_debugEnabled
    | rewrite bind_set_connected | rewrite bind_debugPrint2
    | rewrite bind_debugPrint | rewrite bind_WiFi_status
    | rewrite bind_WiFi_localIP | rewrite bind_millis ];
  cbv beta.

Ltac run_prims :=
  unfold WiFi_disconnect, WiFi_mode, esp_wifi_sta_wpa2_ent_set_identity,
    esp_wifi_sta_wpa2_ent_set_username, esp_wifi_sta_wpa2_ent_set_password,
    esp_wifi_sta_wpa2_ent_enable, esp_wifi_sta_wpa2_ent_disable, WiFi_begin,
    delay;
  repeat run_step.

Section SymbolicBegin.

Variable drv : Driver.

Lemma begin_unfold (fuel : nat) (ssid username password : string)
    (enableDebug : bool) (s : State) :
  begin drv fuel ssid username password enableDebug s =
  let s0 := before_loop drv ssid username password enableDebug s in
  let startTime := clock s0 mod ULONG_MOD in
  match poll drv fuel startTime (performed drv (EvMillis startTime) 0 s0) with
  | Some (_, s1) => Some (after_loop drv s1)
  | None => None
  end.
Proof.
  unfold begin, before_loop, after_loop. cbv zeta.
  run_prims.
  unfold bind at 1.
  destruct (poll drv fuel _ _) as [[[] s1]|]; [|reflexivity].
  run_prims.
  destruct (wl_status_eqb _ WL_CONNECTED); run_prims; reflexivity.
Qed.

End SymbolicBegin.

(** ** Projections of the intermediate states *)

Section Projections.

Variable drv : Driver.

Lemma trace_performed (e : Event) (dur : Z) (s : State) :
  trace (performed drv e dur s) = trace s ++ [e].
Proof. reflexivity. Qed.

Lemma this_performed (e : Event) (dur : Z) (s : State) :
  this (performed drv e dur s) = this s.
Proof. reflexivity. Qed.

Lemma serial_performed (e : Event) (dur : Z) (s : State) :
  serial (performed drv e dur s) = serial s.
Proof. reflexivity. Qed.

Lemma clock_performed (e : Event) (dur : Z) (s : State) :
  clock (performed drv e dur s) =
  clock s + dur + Z.of_N (drv_latency drv (trace s) (clock s) e).
Proof. reflexivity. Qed.

Lemma trace_logged (ops : list SerialOp) (s : State) : trace (logged ops s) = trace s.
Proof. unfold logged. now destruct (_debugEnabled (this s)). Qed.

Lemma clock_logged (ops : list SerialOp) (s : State) : clock (logged ops s) = clock s.
Proof. unfold logged. now destruct (_debugEnabled (this s)). Qed.

Lemma this_logged (ops : list SerialOp) (s : State) : this (logged ops s) = this s.
Proof. unfold logged. now destruct (_debugEnabled (this s)). Qed.

Lemma serial_logged (ops : list SerialOp) (s : State) :
  serial (logged ops s) = serial s ++ (if _debugEnabled (this s) then ops else []).
Proof.
  unfold logged. destruct (_debugEnabled (this s)); [reflexivity|].
  now rewrite app_nil_r.
Qed.

Lemma trace_with_debugEnabled (b : bool) (s : State) :
  trace (with_debugEnabled b s) = trace s.
Proof. reflexivity. Qed.

Lemma clock_with_debugEnabled (b : bool) (s : State) :
  clock (with_debugEnabled b s) = clock s.
Proof. reflexivity. Qed.

Lemma serial_with_debugEnabled (b : bool) (s : State) :
  serial (with_debugEnabled b s) = serial s.
Proof. reflexivity. Qed.

Lemma this_with_debugEnabled (b : bool) (s : State) :
  this (with_debugEnabled b s) = {| _debugEnabled := b; _connected := _connected (this s) |}.
Proof. reflexivity. Qed.

Lemma trace_with_connected (b : bool) (s : State) :
  trace (with_connected b s) = trace s.
Proof. reflexivity. Qed.

Lemma clock_with_connected (b : bool) (s : State) :
  clock (with_connected b s) = clock s.
Proof. reflexivity. Qed.

Lemma serial_with_connected (b : bool) (s : State) :
  serial (with_connected b s) = serial s.
Proof. reflexivity. Qed.

Lemma this_with_connected (b : bool) (s : State) :
  this (with_connected b s) = {| _debugEnabled := _debugEnabled (this s); _connected := b |}.
Proof. reflexivity. Qed.

End Projections.

Create Rewrite HintDb state.

#[local] Hint Rewrite trace_performed this_performed serial_performed
  trace_logged clock_logged this_logged serial_logged
  trace_with_debugEnabled clock_with_debugEnabled serial_with_debugEnabled
  this_with_debugEnabled trace_with_connected clock_with_connected
  serial_with_connected this_with_connected : state.

Section BeginFacts.

Variable drv : Driver.

Lemma trace_before_loop (ssid username password : string) (dbg : bool) (s : State) :
  trace (before_loop drv ssid username password dbg s) =
  trace s ++ setup_events ssid username password.
Proof.
  unfold before_loop. cbv zeta. autorewrite with state.
  repeat rewrite <- app_assoc. reflexivity.
Qed.

Lemma this_before_loop (ssid username password : string) (dbg : bool) (s : State) :
  this (before_loop drv ssid username password dbg s) =
  {| _debugEnabled := dbg; _connected := _connected (this s) |}.
Proof.
  unfold before_loop. cbv zeta. autorewrite with state. reflexivity.
Qed.

Lemma serial_before_loop (ssid username password : string) (dbg : bool) (s : State) :
  serial (before_loop drv ssid username password dbg s) =
  serial s ++ (if dbg then setup_serial ssid username else []).
Proof.
  unfold before_loop. cbv zeta. autorewrite with state.
  cbn [_debugEnabled]. destruct dbg.
  - repeat rewrite <- app_assoc. reflexivity.
  - now repeat rewrite app_nil_r.
Qed.

(** The end of [begin]: the status read that decides the result, then the
    address read on success, or a second status read and the disable call on
    failure. *)
Lemma after_loop_run (s : State) :
  exists (decide report : wl_status_t) (ip : IPAddress),
    decide = drv_status drv (trace s) (clock s)
    /\ fst (after_loop drv s) = wl_status_eqb decide WL_CONNECTED
    /\ trace (snd (after_loop drv s)) = trace s ++
         (if wl_status_eqb decide WL_CONNECTED
          then [EvStatus decide; EvLocalIP ip]
          else [EvStatus decide; EvStatus report; EvEntDisable])
    /\ this (snd (after_loop drv s)) =
         {| _debugEnabled := _debugEnabled (this s);
            _connected := wl_status_eqb decide WL_CONNECTED |}
    /\ serial (snd (after_loop drv s)) = serial s ++
         (if _debugEnabled (this s)
          then if wl_status_eqb decide WL_CONNECTED
               then [ SerialPrintln (newline ++ "WiFiEnterprise: Connected successfully!");
                      SerialPrint "IP Address: ";
                      SerialPrintln (c_str (IPAddress_toString ip)) ]
               else [ SerialPrintln (newline ++ "WiFiEnterprise: Connection failed!");
                      SerialPrint "Status: ";
                      SerialPrintln (c_str (String_of_int (wl_status_code report))) ]
          else []).
Proof.
  unfold after_loop. cbv zeta.
  set (decide := drv_status drv (trace s) (clock s)).
  destruct (wl_status_eqb decide WL_CONNECTED) eqn:E.
  - eexists decide, decide, _. rewrite E. cbn [fst snd].
    autorewrite with state. cbn [_debugEnabled].
    repeat split.
    + now rewrite <- app_assoc.
    + destruct (_debugEnabled (this s)).
      * rewrite <- app_assoc. reflexivity.
      * now repeat rewrite app_nil_r.
  - eexists decide, _, (mkIP 0 0 0 0). rewrite E. cbn [fst snd].
    autorewrite with state. cbn [_debugEnabled].
    repeat split.
    + repeat rewrite <- app_assoc. reflexivity.
    + destruct (_debugEnabled (this s)).
      * rewrite <- app_assoc. reflexivity.
      * now repeat rewrite app_nil_r.
Qed.

End BeginFacts.

(** ** Every run of [begin] *)

Section BeginRuns.

Variable drv : Driver.

(** Whatever the fuel, a call of [begin] that returns has produced a trace of
    the shape [begin_events], its result is the one the status read after the
    loop decides, and it wrote [begin_serial] exactly when debugging was
    requested. *)
Lemma begin_returns (fuel : nat) (ssid username password : string) (dbg : bool)
    (s s' : State) (b : bool) :
  begin drv fuel ssid username password dbg s = Some (b, s') ->
  exists r : Run,
    b = run_result r
    /\ trace s' = trace s ++ begin_events ssid username password r
    /\ run_ok r
    /\ (List.length (run_polls r) < fuel)%nat
    /\ this s' = {| _debugEnabled := dbg; _connected := run_result r |}
    /\ serial s' = serial s ++ (if dbg then begin_serial ssid username r else []).
Proof.
  intros H. rewrite begin_unfold in H. cbv zeta in H.
  set (s0 := before_loop drv ssid username password dbg s) in *.
  set (startTime := clock s0 mod ULONG_MOD) in *.
  destruct (poll drv fuel startTime _) as [[[] s1]|] eqn:Hp; [|discriminate H].
  injection H as H.
  apply poll_run in Hp.
  destruct Hp as (polls & x & Htr & Hok & Hx & Hlen & Hthis & Hser).
  rewrite trace_performed in Htr. rewrite this_performed in Hthis, Hser.
  rewrite serial_performed in Hser.
  unfold s0 in Htr, Hthis, Hser.
  rewrite trace_before_loop in Htr.
  rewrite this_before_loop in Hthis, Hser.
  rewrite serial_before_loop in Hser. cbn [_debugEnabled] in Hser.
  destruct (after_loop_run drv s1) as (decide & report & ip & _ & Hr & Htl & Hth & Hsr).
  rewrite H in Hr, Htl, Hth, Hsr. cbn [fst snd] in Hr, Htl, Hth, Hsr.
  rewrite Hthis in Hth, Hsr. cbn [_debugEnabled] in Hth, Hsr.
  exists {| run_start := startTime; run_polls := polls; run_exit := x;
            run_decide := decide; run_ip := ip; run_report := report |}.
  unfold run_ok, begin_events, begin_serial, loop_events, tail_events, run_result.
  cbn [run_start run_polls run_exit run_decide run_ip run_report].
  repeat split; try assumption.
  - rewrite Htl, Htr. repeat rewrite <- app_assoc. reflexivity.
  - rewrite Hsr, Hser. destruct dbg.
    + repeat rewrite <- app_assoc. reflexivity.
    + now repeat rewrite app_nil_r.
Qed.

Hypothesis timed : well_timed drv.

(** On a well-timed platform [poll_fuel] is enough fuel, and more fuel does
    not change the outcome. *)
Lemma begin_total (fuel : nat) (ssid username password : string) (dbg : bool)
    (s : State) :
  (poll_fuel <= fuel)%nat ->
  exists (b : bool) (s' : State),
    begin drv fuel ssid username password dbg s = Some (b, s')
    /\ begin drv poll_fuel ssid username password dbg s = Some (b, s').
Proof.
  intros Hf. rewrite !begin_unfold. cbv zeta.
  set (s0 := before_loop drv ssid username password dbg s).
  set (startTime := clock s0 mod ULONG_MOD).
  pose proof (latency_bounds drv timed (trace s0) (clock s0) (EvMillis startTime)) as Hl.
  destruct (poll_terminates drv timed (clock s0) 40
              (performed drv (EvMillis startTime) 0 s0)) as [s1 Hs1].
  - rewrite clock_performed. unfold timeout. lia.
  - rewrite clock_performed. lia.
  - fold startTime in Hs1.
    rewrite (Hs1 fuel) by (unfold poll_fuel in Hf; lia).
    rewrite (Hs1 poll_fuel) by (unfold poll_fuel; lia).
    destruct (after_loop drv s1) as [b s']. now exists b, s'.
Qed.

(** Both together: every call of [begin] on a well-timed platform. *)
Lemma begin_run (fuel : nat) (ssid username password : string) (dbg : bool)
    (s : State) :
  (poll_fuel <= fuel)%nat ->
  exists (r : Run) (s' : State),
    begin drv fuel ssid username password dbg s = Some (run_result r, s')
    /\ trace s' = trace s ++ begin_events ssid username password r
    /\ run_ok r
    /\ (List.length (run_polls r) <= 40)%nat
    /\ this s' = {| _debugEnabled := dbg; _connected := run_result r |}
    /\ serial s' = serial s ++ (if dbg then begin_serial ssid username r else []).
Proof.
  intros Hf.
  destruct (begin_total fuel ssid username password dbg s Hf) as (b & s' & H & H41).
  destruct (begin_returns _ _ _ _ _ _ _ _ H41) as (r & -> & Htr & Hok & Hlen & Hth & Hser).
  exists r, s'. unfold poll_fuel in Hlen.
  repeat split; try assumption; try apply Hok. lia.
Qed.

End BeginRuns.

(** ** Commands in the trace of [begin] *)

Lemma filter_poll_events (f : Event -> bool) (polls : list (wl_status_t * Z)) :
  (forall st, f (EvStatus st) = false) ->
  (forall m, f (EvMillis m) = false) ->
  f (EvDelay 500) = false ->
  filter f (poll_events polls) = [].
Proof.
  intros Hs Hm Hd. induction polls as [|p polls IH]; [reflexivity|].
  change (poll_events (p :: polls))
    with ([EvStatus (fst p); EvMillis (snd p); EvDelay 500] ++ poll_events polls).
  rewrite filter_app, IH. cbn. now rewrite Hs, Hm, Hd.
Qed.

Lemma filter_exit_events (f : Event -> bool) (x : LoopExit) :
  (forall st, f (EvStatus st) = false) ->
  (forall m, f (EvMillis m) = false) ->
  filter f (exit_events x) = [].
Proof.
  intros Hs Hm. destruct x; cbn; now rewrite ?Hs, ?Hm.
Qed.

Lemma filter_loop_events (f : Event -> bool) (r : Run) :
  (forall st, f (EvStatus st) = false) ->
  (forall m, f (EvMillis m) = false) ->
  f (EvDelay 500) = false ->
  filter f (loop_events r) = [].
Proof.
  intros Hs Hm Hd. unfold loop_events.
  rewrite filter_app, filter_poll_events, filter_exit_events by assumption.
  reflexivity.
Qed.

(** On a run of the code, the register reported connected before the timeout
    exactly when the loop ended on a read of connected. *)
Lemma reported_connected_exit (r : Run) :
  run_ok r ->
  reported_connected r =
  match run_exit r with
  | ExitConnected => true
  | ExitTimeout _ _ => false
  end.
Proof.
  intros [Hp Hx]. unfold reported_connected, loop_events.
  rewrite existsb_app.
  assert (E : existsb (fun e => match e with
                                | EvStatus st => wl_status_eqb st WL_CONNECTED
                                | _ => false
                                end) (poll_events (run_polls r)) = false).
  { induction Hp as [|p polls Hp0 _ IH]; [reflexivity|].
    change (poll_events (p :: polls))
      with ([EvStatus (fst p); EvMillis (snd p); EvDelay 500] ++ poll_events polls).
    rewrite existsb_app, IH. cbn.
    destruct Hp0 as [Hn _]. apply wl_status_eqb_neq in Hn. now rewrite Hn. }
  rewrite E. destruct (run_exit r) as [|st m]; [reflexivity|].
  cbn. destruct Hx as [Hn _]. apply wl_status_eqb_neq in Hn. now rewrite Hn.
Qed.

(** The commands [begin] sends to the driver, in order. *)
Lemma commands_begin_events (ssid username password : string) (r : Run) :
  filter is_command (begin_events ssid username password r) =
  setup_commands ssid username password ++
  (if run_result r then [] else [EvEntDisable]).
Proof.
  unfold begin_events. rewrite !filter_app.
  rewrite filter_loop_events by reflexivity.
  unfold tail_events. destruct (run_result r); reflexivity.
Qed.

Lemma disables_begin_events (ssid username password : string) (r : Run) :
  filter is_ent_disable (begin_events ssid username password r) =
  if run_result r then [] else [EvEntDisable].
Proof.
  unfold begin_events. rewrite !filter_app.
  rewrite filter_loop_events by reflexivity.
  unfold tail_events. destruct (run_result r); reflexivity.
Qed.



(** Queries and clock calls leave the driver's configuration alone. *)
Lemma apply_event_passive (c : DriverConfig) (e : Event) :
  is_command e = false -> apply_event c e = c.
Proof.
  destruct e; cbn; intros H; try discriminate H; reflexivity.
Qed.

Lemma fold_commands (tr : list Event) :
  forall c, fold_left apply_event tr c = fold_left apply_event (filter is_command tr) c.
Proof.
  induction tr as [|e tr IH]; intros c; [reflexivity|].
  cbn [filter fold_left]. destruct (is_command e) eqn:E.
  - cbn [fold_left]. apply IH.
  - rewrite apply_event_passive by exact E. apply IH.
Qed.

Lemma driver_config_begin (tr : list Event) (ssid username password : string) (r : Run) :
  driver_config (tr ++ begin_events ssid username password r) =
  fold_left apply_event
    (setup_commands ssid username password ++
     (if run_result r then [] else [EvEntDisable]))
    (driver_config tr).
Proof.
  rewrite driver_config_app, fold_commands, commands_begin_events. reflexivity.
Qed.

(** ** The debug flag and [Serial] do not reach the platform *)

Section Core.

Variable drv : Driver.

Lemma core_eq (s1 s2 : State) :
  core s1 = core s2 <-> clock s1 = clock s2 /\ trace s1 = trace s2.
Proof.
  unfold core. split.
  - intros H. now injection H.
  - intros [-> ->]. reflexivity.
Qed.

Lemma core_performed (e : Event) (dur : Z) (s1 s2 : State) :
  core s1 = core s2 -> core (performed drv e dur s1) = core (performed drv e dur s2).
Proof.
  intros H. apply core_eq in H. destruct H as [Hc Ht].
  unfold core, performed. cbn [clock trace]. now rewrite Hc, Ht.
Qed.

Lemma core_logged (ops : list SerialOp) (s : State) : core (logged ops s) = core s.
Proof. unfold core. now rewrite clock_logged, trace_logged. Qed.

Lemma core_printed (o : SerialOp) (s : State) : core (printed o s) = core s.
Proof. reflexivity. Qed.

Lemma core_with_debugEnabled (b : bool) (s : State) : core (with_debugEnabled b s) = core s.
Proof. reflexivity. Qed.

Lemma core_with_connected (b : bool) (s : State) : core (with_connected b s) = core s.
Proof. reflexivity. Qed.

Lemma core_before_loop (ssid username password : string) (d1 d2 : bool) (s1 s2 : State) :
  core s1 = core s2 ->
  core (before_loop drv ssid username password d1 s1) =
  core (before_loop drv ssid username password d2 s2).
Proof.
  intros H. unfold before_loop. cbv zeta.
  repeat (first [ apply core_performed
                | rewrite !core_logged
                | rewrite !core_with_debugEnabled ]).
  exact H.
Qed.

Lemma core_after_loop (s1 s2 : State) :
  core s1 = core s2 ->
  fst (after_loop drv s1) = fst (after_loop drv s2)
  /\ core (snd (after_loop drv s1)) = core (snd (after_loop drv s2)).
Proof.
  intros H. pose proof H as H'. apply core_eq in H'. destruct H' as [Hc Ht].
  unfold after_loop. cbv zeta. rewrite Hc, Ht.
  destruct (wl_status_eqb _ WL_CONNECTED); cbn [fst snd]; split; try reflexivity.
  - rewrite !core_logged.
    assert (E : core (logged [SerialPrintln (newline ++ "WiFiEnterprise: Connected successfully!")]
                        (with_connected true
                           (performed drv (EvStatus (drv_status drv (trace s2) (clock s2))) 0 s1)))
                = core (logged [SerialPrintln (newline ++ "WiFiEnterprise: Connected successfully!")]
                        (with_connected true
                           (performed drv (EvStatus (drv_status drv (trace s2) (clock s2))) 0 s2))))
      by (rewrite !core_logged, !core_with_connected; now apply core_performed).
    pose proof E as E'. apply core_eq in E'. destruct E' as [Ec Et].
    rewrite Ec, Et. now apply core_performed.
  - apply core_performed. rewrite !core_logged.
    assert (E : core (logged [SerialPrintln (newline ++ "WiFiEnterprise: Connection failed!")]
                        (with_connected false
                           (performed drv (EvStatus (drv_status drv (trace s2) (clock s2))) 0 s1)))
                = core (logged [SerialPrintln (newline ++ "WiFiEnterprise: Connection failed!")]
                        (with_connected false
                           (performed drv (EvStatus (drv_status drv (trace s2) (clock s2))) 0 s2))))
      by (rewrite !core_logged, !core_with_connected; now apply core_performed).
    pose proof E as E'. apply core_eq in E'. destruct E' as [Ec Et].
    rewrite Ec, Et. now apply core_performed.
Qed.

(** Two loops started on the same platform state stay in step, whatever the
    debug flag of either. *)
Lemma core_poll (startTime : Z) :
  forall (fuel : nat) (s1 s2 : State),
    core s1 = core s2 ->
    match poll drv fuel startTime s1, poll drv fuel startTime s2 with
    | Some (_, s1'), Some (_, s2') => core s1' = core s2'
    | None, None => True
    | _, _ => False
    end.
Proof.
  induction fuel as [|fuel IH]; intros s1 s2 H; [exact I|].
  rewrite !poll_unfold. cbv zeta.
  pose proof H as H'. apply core_eq in H'. destruct H' as [Hc Ht].
  rewrite Hc, Ht.
  set (st := drv_status drv (trace s2) (clock s2)).
  assert (H1 : core (performed drv (EvStatus st) 0 s1) = core (performed drv (EvStatus st) 0 s2))
    by now apply core_performed.
  destruct (wl_status_eqb st WL_CONNECTED); [exact H1|].
  pose proof H1 as H1'. apply core_eq in H1'. destruct H1' as [Hc1 Ht1].
  rewrite Hc1.
  set (m := clock (performed drv (EvStatus st) 0 s2) mod ULONG_MOD).
  assert (H2 : core (performed drv (EvMillis m) 0 (performed drv (EvStatus st) 0 s1))
             = core (performed drv (EvMillis m) 0 (performed drv (EvStatus st) 0 s2)))
    by now apply core_performed.
  destruct (ulong_sub m startTime <? timeout); [|exact H2].
  apply IH.
  destruct (_debugEnabled (this s1)), (_debugEnabled (this s2));
    rewrite ?core_printed; now apply core_performed.
Qed.

End Core.

(** * Properties of the wrapper *)

(** ** [begin] *)

Section BeginProperties.

Variable drv : Driver.
Hypothesis timed : well_timed drv.

(** C2: every call of [begin] sends the driver the same commands in the same
    order, each once: force-disconnect, station mode, EAP identity, username
    and password, enterprise enable, association with the SSID; a failed call
    adds the enterprise disable after them, nothing is skipped or reordered. *)
Theorem begin_command_order (fuel : nat) (ssid username password : string)
    (dbg : bool) (s : State) :
  (poll_fuel <= fuel)%nat ->
  exists (b : bool) (s' : State) (new : list Event),
    begin drv fuel ssid username password dbg s = Some (b, s')
    /\ trace s' = trace s ++ new
    /\ filter is_command new =
       [ EvDisconnect true; EvMode WIFI_STA;
         EvSetIdentity username (strlen username);
         EvSetUsername username (strlen username);
         EvSetPassword password (strlen password);
         EvEntEnable; EvBegin ssid ] ++ (if b then [] else [EvEntDisable]).
Proof.
  intros Hf.
  destruct (begin_run drv timed fuel ssid username password dbg s Hf)
    as (r & s' & H & Htr & _).
  exists (run_result r), s', (begin_events ssid username password r).
  repeat split; try assumption.
  apply commands_begin_events.
Qed.


(** C1, amended: [begin] returns [true] and sets [_connected] exactly when the
    status read it makes after the loop has ended reports connected;
    otherwise it returns [false] and clears [_connected]; the enterprise
    disable is called once on the failure path and not on the other.  When
    that read repeats what the loop read last, the result is whether the
    register reported connected before the timeout. *)
Theorem begin_result (fuel : nat) (ssid username password : string)
    (dbg : bool) (s : State) :
  (poll_fuel <= fuel)%nat ->
  exists (r : Run) (s' : State),
    begin drv fuel ssid username password dbg s = Some (run_result r, s')
    /\ trace s' = trace s ++ begin_events ssid username password r
    /\ (run_result r = true <-> run_decide r = WL_CONNECTED)
    /\ _connected (this s') = run_result r
    /\ filter is_ent_disable (begin_events ssid username password r) =
       (if run_result r then [] else [EvEntDisable])
    /\ (run_decide r = last_status (run_exit r) ->
        run_result r = reported_connected r).
Proof.
  intros Hf.
  destruct (begin_run drv timed fuel ssid username password dbg s Hf)
    as (r & s' & H & Htr & Hok & _ & Hth & _).
  exists r, s'. repeat split; try assumption.
  - apply wl_status_eqb_eq.
  - apply wl_status_eqb_eq.
  - now rewrite Hth.
  - apply disables_begin_events.
  - intros Hd. rewrite (reported_connected_exit r Hok).
    unfold run_result. rewrite Hd.
    destruct Hok as [_ Hx]. destruct (run_exit r) as [|st m]; [reflexivity|].
    apply wl_status_eqb_neq. apply Hx.
Qed.

(** C8: in every call of [begin] the identity setter and the username setter
    receive the same buffer and the same length, those of the [username]
    argument, the identity is programmed once, and the driver ends up with an
    identity equal to its username. *)
Theorem identity_is_username (fuel : nat) (ssid username password : string)
    (dbg : bool) (s : State) :
  (poll_fuel <= fuel)%nat ->
  exists (b : bool) (s' : State) (rest : list Event),
    begin drv fuel ssid username password dbg s = Some (b, s')
    /\ trace s' = trace s ++
         [ EvDisconnect true; EvDelay 1000; EvMode WIFI_STA;
           EvSetIdentity username (strlen username);
           EvSetUsername username (strlen username) ] ++ rest
    /\ filter is_set_identity rest = []
    /\ cfg_identity (driver_config (trace s')) = bytes_of username (strlen username)
    /\ cfg_username (driver_config (trace s')) = bytes_of username (strlen username).
Proof.
  intros Hf.
  destruct (begin_run drv timed fuel ssid username password dbg s Hf)
    as (r & s' & H & Htr & _).
  exists (run_result r), s',
    ([ EvSetPassword password (strlen password); EvEntEnable; EvBegin ssid;
       EvMillis (run_start r) ] ++ loop_events r ++ tail_events r).
  repeat split.
  - exact H.
  - rewrite Htr. reflexivity.
  - rewrite !filter_app, filter_loop_events by reflexivity.
    unfold tail_events. destruct (run_result r); reflexivity.
  - rewrite Htr, driver_config_begin. destruct (run_result r); reflexivity.
  - rewrite Htr, driver_config_begin. destruct (run_result r); reflexivity.
Qed.

(** C9: [begin] stores its [enableDebug] argument in the debug flag before it
    prints anything: the flag a prior [setDebug] stored has no effect on what
    the call writes, which is [begin_serial] if the argument is [true] and
    nothing otherwise; after [setDebug(true)], a call that leaves the
    argument to its default writes nothing and leaves the flag [false]. *)
Theorem begin_overrides_setDebug (fuel : nat) (ssid username password : string)
    (prior dbg : bool) (s : State) :
  (poll_fuel <= fuel)%nat ->
  (exists (r : Run) (s' : State),
      (setDebug prior ;; begin drv fuel ssid username password dbg) s
        = Some (run_result r, s')
      /\ _debugEnabled (this s') = dbg
      /\ serial s' = serial s ++ (if dbg then begin_serial ssid username r else []))
  /\ (exists (b : bool) (s' : State),
      (setDebug true ;; begin_default drv fuel ssid username password) s
        = Some (b, s')
      /\ _debugEnabled (this s') = false
      /\ serial s' = serial s).
Proof.
  intros Hf. unfold setDebug, begin_default. rewrite !bind_set_debugEnabled.
  split.
  - destruct (begin_run drv timed fuel ssid username password dbg
                (with_debugEnabled prior s) Hf)
      as (r & s' & H & _ & _ & _ & Hth & Hser).
    exists r, s'. repeat split; try assumption. now rewrite Hth.
  - destruct (begin_run drv timed fuel ssid username password false
                (with_debugEnabled true s) Hf)
      as (r & s' & H & _ & _ & _ & Hth & Hser).
    exists (run_result r), s'. repeat split; try assumption.
    + now rewrite Hth.
    + rewrite Hser. cbn. apply app_nil_r.
Qed.

End BeginProperties.

(** ** [end], the accessors and [setDebug] *)

Section OtherMethods.

Variable drv : Driver.

Lemma debugPrint_run (msg : string) (s : State) :
  debugPrint msg s = Some (tt, logged [SerialPrintln msg] s).
Proof.
  unfold debugPrint, logged, get_debugEnabled, bind.
  destruct (_debugEnabled (this s)); reflexivity.
Qed.

Lemma end_run (s : State) : end_ drv s = Some (tt, ended drv s).
Proof.
  unfold end_, ended. cbv zeta. run_prims. apply debugPrint_run.
Qed.

Lemma trace_ended (s : State) :
  trace (ended drv s) = trace s ++ [EvEntDisable; EvDisconnect true].
Proof.
  unfold ended. cbv zeta. autorewrite with state.
  now rewrite <- app_assoc.
Qed.

Lemma this_ended (s : State) :
  this (ended drv s) =
  {| _debugEnabled := _debugEnabled (this s); _connected := false |}.
Proof.
  unfold ended. cbv zeta. autorewrite with state. reflexivity.
Qed.

Lemma core_ended (s1 s2 : State) :
  core s1 = core s2 -> core (ended drv s1) = core (ended drv s2).
Proof.
  intros H. unfold ended. cbv zeta.
  rewrite !core_logged, !core_with_connected.
  do 2 apply core_performed. now rewrite !core_logged.
Qed.

Lemma isConnected_run (s : State) :
  isConnected drv s =
  Some (wl_status_eqb (drv_status drv (trace s) (clock s)) WL_CONNECTED,
        performed drv (EvStatus (drv_status drv (trace s) (clock s))) 0 s).
Proof. reflexivity. Qed.

Lemma status_run (s : State) :
  status drv s =
  Some (drv_status drv (trace s) (clock s),
        performed drv (EvStatus (drv_status drv (trace s) (clock s))) 0 s).
Proof. reflexivity. Qed.

Lemma localIP_run (s : State) :
  localIP drv s =
  Some (drv_localIP drv (trace s) (clock s),
        performed drv (EvLocalIP (drv_localIP drv (trace s) (clock s))) 0 s).
Proof. reflexivity. Qed.

Lemma driver_config_query (e : Event) (dur : Z) (s : State) :
  is_command e = false ->
  driver_config (trace (performed drv e dur s)) = driver_config (trace s).
Proof.
  intros H. rewrite trace_performed, driver_config_app. cbn.
  now apply apply_event_passive.
Qed.

(** C4: [isConnected] returns whether the platform's status read equals
    connected, whatever the cached [_connected] field holds; the call is the
    single status read, the object is left as it was, and replacing the
    cached field by any value changes neither the result nor the rest of the
    final state. *)
Theorem isConnected_live (s : State) :
  exists s' : State,
    isConnected drv s =
      Some (wl_status_eqb (drv_status drv (trace s) (clock s)) WL_CONNECTED, s')
    /\ this s' = this s
    /\ trace s' = trace s ++ [EvStatus (drv_status drv (trace s) (clock s))]
    /\ forall cached : bool,
         isConnected drv (with_connected cached s) =
           Some (wl_status_eqb (drv_status drv (trace s) (clock s)) WL_CONNECTED,
                 with_connected cached s').
Proof.
  eexists. rewrite isConnected_run. repeat split.
Qed.

(** C6: [end] never fails, and a second [end] right after the first leaves
    the object and the driver's configuration as the first left them:
    enterprise mode disabled, no association, [_connected] false. *)
Theorem end_idempotent (s : State) :
  exists s1 s2 : State,
    end_ drv s = Some (tt, s1)
    /\ end_ drv s1 = Some (tt, s2)
    /\ this s2 = this s1
    /\ driver_config (trace s2) = driver_config (trace s1)
    /\ cfg_enterprise (driver_config (trace s1)) = false
    /\ cfg_ssid (driver_config (trace s1)) = None
    /\ _connected (this s1) = false.
Proof.
  exists (ended drv s), (ended drv (ended drv s)).
  rewrite !end_run, !this_ended, !trace_ended, !driver_config_app.
  repeat split.
Qed.

(** C7: [status] and [localIP] return what the driver's query reports,
    unmodified, for every value it can report; each makes that one query and
    nothing else: the object, [Serial] and the driver's configuration are as
    before. *)
Theorem accessors_passthrough (s : State) :
  (exists s' : State,
      status drv s = Some (drv_status drv (trace s) (clock s), s')
      /\ trace s' = trace s ++ [EvStatus (drv_status drv (trace s) (clock s))]
      /\ this s' = this s /\ serial s' = serial s
      /\ driver_config (trace s') = driver_config (trace s))
  /\ (exists s' : State,
      localIP drv s = Some (drv_localIP drv (trace s) (clock s), s')
      /\ trace s' = trace s ++ [EvLocalIP (drv_localIP drv (trace s) (clock s))]
      /\ this s' = this s /\ serial s' = serial s
      /\ driver_config (trace s') = driver_config (trace s))
  /\ (forall (v : wl_status_t) (ip : IPAddress),
      option_map fst (status (scripted [] v ip) s) = Some v
      /\ option_map fst (localIP (scripted [] v ip) s) = Some ip).
Proof.
  split; [|split].
  - eexists. rewrite status_run. repeat split.
    now apply driver_config_query.
  - eexists. rewrite localIP_run. repeat split.
    now apply driver_config_query.
  - intros v ip. split; [|reflexivity].
    unfold status, WiFi_status, bind, invoke, ret. cbn.
    now destruct (status_reads (trace s)).
Qed.

(** Two calls of [begin] on the same platform state stay in step whatever the
    debug settings, also when the fuel runs out. *)
Lemma begin_core (fuel : nat) (ssid username password : string) (d1 d2 : bool)
    (s1 s2 : State) :
  core s1 = core s2 ->
  match begin drv fuel ssid username password d1 s1,
        begin drv fuel ssid username password d2 s2 with
  | Some (b1, s1'), Some (b2, s2') => b1 = b2 /\ core s1' = core s2'
  | None, None => True
  | _, _ => False
  end.
Proof.
  intros H. rewrite !begin_unfold. cbv zeta.
  pose proof (core_before_loop drv ssid username password d1 d2 s1 s2 H) as H0.
  set (a1 := before_loop drv ssid username password d1 s1) in *.
  set (a2 := before_loop drv ssid username password d2 s2) in *.
  pose proof H0 as H0'. apply core_eq in H0'. destruct H0' as [Hc Ht].
  rewrite Hc.
  pose proof (core_poll drv (clock a2 mod ULONG_MOD) fuel
                (performed drv (EvMillis (clock a2 mod ULONG_MOD)) 0 a1)
                (performed drv (EvMillis (clock a2 mod ULONG_MOD)) 0 a2)
                (core_performed drv _ _ _ _ H0)) as Hp.
  destruct (poll drv fuel _ (performed drv _ 0 a1)) as [[[] b1]|];
    destruct (poll drv fuel _ (performed drv _ 0 a2)) as [[[] b2]|];
    try contradiction; try exact Hp.
  destruct (core_after_loop drv b1 b2 Hp) as [Hr Hs].
  destruct (after_loop drv b1), (after_loop drv b2). now split.
Qed.

End OtherMethods.

(** C5: two runs of [begin], or of [end], that start from the same platform
    state and differ in the [enableDebug] argument, in the flag [setDebug]
    stored and in what [Serial] holds, return the same value, leave the same
    [_connected] field and make the same platform calls with the same
    results. *)
Theorem debug_noninterference (drv : Driver) (fuel : nat)
    (ssid username password : string) (d1 d2 : bool) (s1 s2 : State) :
  well_timed drv ->
  (poll_fuel <= fuel)%nat ->
  clock s1 = clock s2 ->
  trace s1 = trace s2 ->
  (exists (b : bool) (s1' s2' : State),
      begin drv fuel ssid username password d1 s1 = Some (b, s1')
      /\ begin drv fuel ssid username password d2 s2 = Some (b, s2')
      /\ _connected (this s1') = _connected (this s2')
      /\ trace s1' = trace s2')
  /\ (exists s1' s2' : State,
      end_ drv s1 = Some (tt, s1')
      /\ end_ drv s2 = Some (tt, s2')
      /\ _connected (this s1') = _connected (this s2')
      /\ trace s1' = trace s2').
Proof.
  intros timed Hf Hc Ht.
  assert (H : core s1 = core s2) by (apply core_eq; now split).
  split.
  - destruct (begin_run drv timed fuel ssid username password d1 s1 Hf)
      as (r1 & s1' & H1 & _ & _ & _ & Hth1 & _).
    destruct (begin_run drv timed fuel ssid username password d2 s2 Hf)
      as (r2 & s2' & H2 & _ & _ & _ & Hth2 & _).
    pose proof (begin_core drv fuel ssid username password d1 d2 s1 s2 H) as Hb.
    rewrite H1, H2 in Hb. destruct Hb as [Hr Hcore].
    apply core_eq in Hcore.
    exists (run_result r1), s1', s2'. rewrite Hr at 2.
    repeat split; try assumption.
    + now rewrite Hth1, Hth2.
    + apply Hcore.
  - exists (ended drv s1), (ended drv s2). rewrite !end_run, !this_ended.
    repeat split.
    apply (core_ended drv) in H. apply core_eq in H. apply H.
Qed.

(** C10: a successful [begin] makes no enterprise disable call and leaves
    enterprise authentication enabled on the driver; a failed [begin] and
    [end] leave it disabled; [isConnected], [status], [localIP] and
    [setDebug] do not change the driver's configuration. *)
Theorem success_keeps_enterprise (drv : Driver) (fuel : nat)
    (ssid username password : string) (dbg : bool) (s : State) :
  well_timed drv ->
  (poll_fuel <= fuel)%nat ->
  (exists (b : bool) (s' : State) (new : list Event),
      begin drv fuel ssid username password dbg s = Some (b, s')
      /\ trace s' = trace s ++ new
      /\ filter is_ent_disable new = (if b then [] else [EvEntDisable])
      /\ cfg_enterprise (driver_config (trace s')) = b)
  /\ (exists s' : State,
      end_ drv s = Some (tt, s')
      /\ cfg_enterprise (driver_config (trace s')) = false)
  /\ (exists (b : bool) (s' : State),
      isConnected drv s = Some (b, s')
      /\ driver_config (trace s') = driver_config (trace s))
  /\ (exists (v : wl_status_t) (s' : State),
      status drv s = Some (v, s')
      /\ driver_config (trace s') = driver_config (trace s))
  /\ (exists (ip : IPAddress) (s' : State),
      localIP drv s = Some (ip, s')
      /\ driver_config (trace s') = driver_config (trace s))
  /\ (forall enable : bool, exists s' : State,
      setDebug enable s = Some (tt, s')
      /\ driver_config (trace s') = driver_config (trace s)).
Proof.
  intros timed Hf. repeat apply conj.
  - destruct (begin_run drv timed fuel ssid username password dbg s Hf)
      as (r & s' & H & Htr & _).
    exists (run_result r), s', (begin_events ssid username password r).
    repeat split; try assumption.
    + apply disables_begin_events.
    + rewrite Htr, driver_config_begin. destruct (run_result r); reflexivity.
  - exists (ended drv s). rewrite end_run, trace_ended, driver_config_app.
    split; reflexivity.
  - eexists _, _. rewrite isConnected_run. split; [reflexivity|].
    now apply driver_config_query.
  - eexists _, _. rewrite status_run. split; [reflexivity|].
    now apply driver_config_query.
  - eexists _, _. rewrite localIP_run. split; [reflexivity|].
    now apply driver_config_query.
  - intros enable. eexists. split; reflexivity.
Qed.

(** * The model at concrete inputs *)

Example strlen_stops_at_NUL :
  strlen (String "a" (String "b" (String Ascii.zero "cd"))) = 2%nat.
Proof. reflexivity. Qed.

(** The scenario of the spec: three polls read "disconnected", the fourth
    reads "connected". *)
Example demo_connects :
  option_map (fun out => (fst out, this (snd out), clock (snd out), trace (snd out)))
    (begin demo poll_fuel "Corp" "alice" "secret" false (boot 0)) =
  Some (true, {| _debugEnabled := false; _connected := true |}, 2500,
        [ EvDisconnect true; EvDelay 1000; EvMode WIFI_STA;
          EvSetIdentity "alice" 5; EvSetUsername "alice" 5;
          EvSetPassword "secret" 6; EvEntEnable; EvBegin "Corp"; EvMillis 1000;
          EvStatus WL_DISCONNECTED; EvMillis 1000; EvDelay 500;
          EvStatus WL_DISCONNECTED; EvMillis 1500; EvDelay 500;
          EvStatus WL_DISCONNECTED; EvMillis 2000; EvDelay 500;
          EvStatus WL_CONNECTED; EvStatus WL_CONNECTED; EvLocalIP test_ip ]).
Proof. vm_compute. reflexivity. Qed.

(** A driver that never connects: forty turns, 20000 ms in the loop, the
    disable at the end; the same across the rollover of [millis]. *)
Example deaf_times_out :
  option_map (fun out => (fst out, _connected (this (snd out)), clock (snd out),
                          List.length (filter is_delay (trace (snd out))),
                          last (trace (snd out)) EvEntEnable))
    (begin deaf poll_fuel "Corp" "alice" "secret" false (boot 0)) =
  Some (false, false, 21000, 41%nat, EvEntDisable).
Proof. vm_compute. reflexivity. Qed.

Example deaf_times_out_across_rollover :
  option_map (fun out => (fst out, clock (snd out) - 4294967000,
                          List.length (filter is_delay (trace (snd out)))))
    (begin deaf poll_fuel "Corp" "alice" "secret" false (boot 4294967000)) =
  Some (false, 21000, 41%nat).
Proof. vm_compute. reflexivity. Qed.

(** [poll_fuel] is the least fuel that is always enough. *)
Example deaf_needs_poll_fuel :
  begin deaf 40 "Corp" "alice" "secret" false (boot 0) = None.
Proof. vm_compute. reflexivity. Qed.

(** With debugging on, the text of a successful run. *)
Example demo_serial :
  option_map (fun out => serial (snd out))
    (begin demo poll_fuel "Corp" "alice" "secret" true (boot 0)) =
  Some [ SerialPrintln "WiFiEnterprise: Starting connection to WPA2-Enterprise network";
         SerialPrint "SSID: "; SerialPrintln "Corp";
         SerialPrint "Username: "; SerialPrintln "alice";
         SerialPrintln "WiFiEnterprise: Configuring WPA2-Enterprise settings";
         SerialPrintln "WiFiEnterprise: Attempting to connect...";
         SerialPrint "."; SerialPrint "."; SerialPrint ".";
         SerialPrintln (newline ++ "WiFiEnterprise: Connected successfully!");
         SerialPrint "IP Address: "; SerialPrintln "10.0.0.42" ].
Proof. vm_compute. reflexivity. Qed.

(** C1 as stated fails on the code.  On [flapping] the register reads
    connected on the first poll, well before the timeout, and [begin] returns
    [false]: the read after the loop decides, and it says disconnected.  On
    [late] no read before the timeout says connected, and [begin] returns
    [true]. *)
Lemma claimed_result_fails :
  ~ claimed_result flapping poll_fuel "Corp" "alice" "secret" false (boot 0)
  /\ ~ claimed_result late poll_fuel "Corp" "alice" "secret" false (boot 0).
Proof.
  split; intros H.
  - destruct (H flapping_run
                (final_state (begin flapping poll_fuel "Corp" "alice" "secret" false (boot 0))))
      as [H1 _].
    + vm_compute. reflexivity.
    + vm_compute. reflexivity.
    + vm_compute in H1. discriminate H1.
  - destruct (H late_run
                (final_state (begin late poll_fuel "Corp" "alice" "secret" false (boot 0))))
      as [H1 _].
    + vm_compute. reflexivity.
    + vm_compute. reflexivity.
    + vm_compute in H1. discriminate H1.
Qed.

Lemma begin_result_witness :
  well_timed flapping /\ (poll_fuel <= 50)%nat /\
  exists (r : Run) (s' : State),
    begin flapping 50 "Corp" "alice" "secret" true used = Some (run_result r, s')
    /\ trace s' = trace used ++ begin_events "Corp" "alice" "secret" r
    /\ (run_result r = true <-> run_decide r = WL_CONNECTED)
    /\ _connected (this s') = run_result r
    /\ filter is_ent_disable (begin_events "Corp" "alice" "secret" r) =
       (if run_result r then [] else [EvEntDisable])
    /\ (run_decide r = last_status (run_exit r) ->
        run_result r = reported_connected r).
Proof.
  assert (T : well_timed flapping) by (intros tr t e; vm_compute; discriminate).
  assert (F : (poll_fuel <= 50)%nat) by (unfold poll_fuel; lia).
  exact (conj T (conj F (begin_result flapping T 50 "Corp" "alice" "secret" true used F))).
Defined.

Lemma begin_command_order_witness :
  well_timed demo /\ (poll_fuel <= poll_fuel)%nat /\
  exists (b : bool) (s' : State) (new : list Event),
    begin demo poll_fuel "Corp" "alice" "secret" false (boot 0) = Some (b, s')
    /\ trace s' = trace (boot 0) ++ new
    /\ filter is_command new =
       [ EvDisconnect true; EvMode WIFI_STA;
         EvSetIdentity "alice" (strlen "alice");
         EvSetUsername "alice" (strlen "alice");
         EvSetPassword "secret" (strlen "secret");
         EvEntEnable; EvBegin "Corp" ] ++ (if b then [] else [EvEntDisable]).
Proof.
  assert (T : well_timed demo) by (intros tr t e; vm_compute; discriminate).
  assert (F : (poll_fuel <= poll_fuel)%nat) by lia.
  exact (conj T (conj F
    (begin_command_order demo T poll_fuel "Corp" "alice" "secret" false (boot 0) F))).
Defined.


Lemma identity_is_username_witness :
  well_timed demo /\ (poll_fuel <= poll_fuel)%nat /\
  exists (b : bool) (s' : State) (rest : list Event),
    begin demo poll_fuel "Corp" "alice" "secret" false used = Some (b, s')
    /\ trace s' = trace used ++
         [ EvDisconnect true; EvDelay 1000; EvMode WIFI_STA;
           EvSetIdentity "alice" (strlen "alice");
           EvSetUsername "alice" (strlen "alice") ] ++ rest
    /\ filter is_set_identity rest = []
    /\ cfg_identity (driver_config (trace s')) = bytes_of "alice" (strlen "alice")
    /\ cfg_username (driver_config (trace s')) = bytes_of "alice" (strlen "alice").
Proof.
  assert (T : well_timed demo) by (intros tr t e; vm_compute; discriminate).
  assert (F : (poll_fuel <= poll_fuel)%nat) by lia.
  exact (conj T (conj F
    (identity_is_username demo T poll_fuel "Corp" "alice" "secret" false used F))).
Defined.

Lemma begin_overrides_setDebug_witness :
  well_timed demo /\ (poll_fuel <= poll_fuel)%nat /\
  (exists (r : Run) (s' : State),
      (setDebug false ;; begin demo poll_fuel "Corp" "alice" "secret" true) (boot 0)
        = Some (run_result r, s')
      /\ _debugEnabled (this s') = true
      /\ serial s' = serial (boot 0) ++
           (if true then begin_serial "Corp" "alice" r else []))
  /\ (exists (b : bool) (s' : State),
      (setDebug true ;; begin_default demo poll_fuel "Corp" "alice" "secret") (boot 0)
        = Some (b, s')
      /\ _debugEnabled (this s') = false
      /\ serial s' = serial (boot 0)).
Proof.
  assert (T : well_timed demo) by (intros tr t e; vm_compute; discriminate).
  assert (F : (poll_fuel <= poll_fuel)%nat) by lia.
  exact (conj T (conj F
    (begin_overrides_setDebug demo T poll_fuel "Corp" "alice" "secret" false true
       (boot 0) F))).
Defined.

Lemma debug_noninterference_witness :
  well_timed late /\ (poll_fuel <= poll_fuel)%nat /\
  clock (boot 0) = clock chatty /\ trace (boot 0) = trace chatty /\
  (exists (b : bool) (s1' s2' : State),
      begin late poll_fuel "Corp" "alice" "secret" false (boot 0) = Some (b, s1')
      /\ begin late poll_fuel "Corp" "alice" "secret" true chatty = Some (b, s2')
      /\ _connected (this s1') = _connected (this s2')
      /\ trace s1' = trace s2')
  /\ (exists s1' s2' : State,
      end_ late (boot 0) = Some (tt, s1')
      /\ end_ late chatty = Some (tt, s2')
      /\ _connected (this s1') = _connected (this s2')
      /\ trace s1' = trace s2').
Proof.
  assert (T : well_timed late) by (intros tr t e; vm_compute; discriminate).
  assert (F : (poll_fuel <= poll_fuel)%nat) by lia.
  exact (conj T (conj F (conj eq_refl (conj eq_refl
    (debug_noninterference late poll_fuel "Corp" "alice" "secret" false true
       (boot 0) chatty T F eq_refl eq_refl))))).
Defined.

Lemma success_keeps_enterprise_witness :
  well_timed demo /\ (poll_fuel <= poll_fuel)%nat /\
  (exists (b : bool) (s' : State) (new : list Event),
      begin demo poll_fuel "Corp" "alice" "secret" false (boot 0) = Some (b, s')
      /\ trace s' = trace (boot 0) ++ new
      /\ filter is_ent_disable new = (if b then [] else [EvEntDisable])
      /\ cfg_enterprise (driver_config (trace s')) = b)
  /\ (exists s' : State,
      end_ demo (boot 0) = Some (tt, s')
      /\ cfg_enterprise (driver_config (trace s')) = false)
  /\ (exists (b : bool) (s' : State),
      isConnected demo (boot 0) = Some (b, s')
      /\ driver_config (trace s') = driver_config (trace (boot 0)))
  /\ (exists (v : wl_status_t) (s' : State),
      status demo (boot 0) = Some (v, s')
      /\ driver_config (trace s') = driver_config (trace (boot 0)))
  /\ (exists (ip : IPAddress) (s' : State),
      localIP demo (boot 0) = Some (ip, s')
      /\ driver_config (trace s') = driver_config (trace (boot 0)))
  /\ (forall enable : bool, exists s' : State,
      setDebug enable (boot 0) = Some (tt, s')
      /\ driver_config (trace s') = driver_config (trace (boot 0))).
Proof.
  assert (T : well_timed demo) by (intros tr t e; vm_compute; discriminate).
  assert (F : (poll_fuel <= poll_fuel)%nat) by lia.
  exact (conj T (conj F
    (success_keeps_enterprise demo poll_fuel "Corp" "alice" "secret" false (boot 0) T F))).
Defined.

(** * Further properties of the wrapper *)

(** ** How long [begin] blocks *)

Section Duration.

Variable drv : Driver.
Variable l : Z.
Hypothesis bounded : latency_at_most drv l.

Lemma within_refl (s : State) : within 0 0 s s.
Proof. unfold within. lia. Qed.

Lemma within_trans (lo1 hi1 lo2 hi2 : Z) (s1 s2 s3 : State) :
  within lo1 hi1 s1 s2 -> within lo2 hi2 s2 s3 ->
  within (lo1 + lo2) (hi1 + hi2) s1 s3.
Proof. unfold within. lia. Qed.

Lemma within_performed (e : Event) (dur : Z) (s : State) :
  within dur (dur + l) s (performed drv e dur s).
Proof.
  unfold within. rewrite clock_performed.
  pose proof (bounded (trace s) (clock s) e).
  pose proof (N2Z.is_nonneg (drv_latency drv (trace s) (clock s) e)). lia.
Qed.

Lemma within_same_clock (lo hi : Z) (s1 s2 s2' : State) :
  clock s2' = clock s2 -> within lo hi s1 s2 -> within lo hi s1 s2'.
Proof. unfold within. intros ->. exact (fun H => H). Qed.

Lemma within_from_same_clock (lo hi : Z) (s1 s1' s2 : State) :
  clock s1' = clock s1 -> within lo hi s1 s2 -> within lo hi s1' s2.
Proof. unfold within. intros ->. exact (fun H => H). Qed.

Lemma within_then_performed (lo hi : Z) (e : Event) (dur : Z) (s x : State) :
  within lo hi s x -> within (lo + dur) (hi + (dur + l)) s (performed drv e dur x).
Proof. intros H. exact (within_trans _ _ _ _ _ _ _ H (within_performed e dur x)). Qed.

Lemma within_then_logged (lo hi : Z) (ops : list SerialOp) (s x : State) :
  within lo hi s x -> within lo hi s (logged ops x).
Proof. apply within_same_clock, clock_logged. Qed.

Lemma within_then_debugEnabled (lo hi : Z) (b : bool) (s x : State) :
  within lo hi s x -> within lo hi s (with_debugEnabled b x).
Proof. apply within_same_clock. reflexivity. Qed.

Lemma within_then_connected (lo hi : Z) (b : bool) (s x : State) :
  within lo hi s x -> within lo hi s (with_connected b x).
Proof. apply within_same_clock. reflexivity. Qed.

Lemma within_eq (lo hi lo' hi' : Z) (s s' : State) :
  within lo hi s s' -> lo = lo' -> hi = hi' -> within lo' hi' s s'.
Proof. now intros H <- <-. Qed.

Lemma within_before_loop (ssid username password : string) (dbg : bool) (s : State) :
  within 1000 (1000 + 8 * l) s (before_loop drv ssid username password dbg s).
Proof.
  unfold before_loop. cbv zeta.
  eapply within_eq.
  - repeat first [ eapply within_then_performed | eapply within_then_logged
                 | eapply within_then_debugEnabled ].
    apply within_refl.
  - ring.
  - ring.
Qed.

Lemma within_after_loop (s : State) :
  within 0 (l * (if fst (after_loop drv s) then 2 else 3)) s (snd (after_loop drv s)).
Proof.
  unfold after_loop. cbv zeta.
  destruct (wl_status_eqb _ WL_CONNECTED); cbn [fst snd].
  all: eapply within_eq;
    [ repeat first [ eapply within_then_performed | eapply within_then_logged
                   | eapply within_then_connected ];
      apply within_refl
    | ring | ring ].
Qed.

(** The loop: one sleep of 500 ms and three platform calls per turn; if it
    ends on the timeout, at least 20000 ms have passed since [startTime] was
    read at [t0]. *)
Lemma poll_run_clock (t0 : Z) :
  forall (fuel : nat) (s s' : State),
    t0 <= clock s ->
    poll drv fuel (t0 mod ULONG_MOD) s = Some (tt, s') ->
    exists polls x,
      trace s' = trace s ++ poll_events polls ++ exit_events x
      /\ Forall (poll_ok (t0 mod ULONG_MOD)) polls
      /\ exit_ok (t0 mod ULONG_MOD) x
      /\ (List.length polls < fuel)%nat
      /\ this s' = this s
      /\ within (500 * Z.of_nat (List.length polls))
           (500 * Z.of_nat (List.length polls) +
            l * Z.of_nat (List.length (poll_events polls ++ exit_events x))) s s'
      /\ (x <> ExitConnected -> t0 + timeout <= clock s').
Proof.
  induction fuel as [|fuel IH]; intros s s' Ht0 H; [discriminate H|].
  rewrite poll_unfold in H. cbv zeta in H.
  set (st := drv_status drv (trace s) (clock s)) in *.
  set (s1 := performed drv (EvStatus st) 0 s) in *.
  pose proof (within_performed (EvStatus st) 0 s) as W1. fold s1 in W1.
  destruct (wl_status_eqb st WL_CONNECTED) eqn:Est.
  - injection H as <-. apply wl_status_eqb_eq in Est.
    exists [], ExitConnected. cbn [poll_events flat_map exit_events app List.length].
    unfold s1 at 1 2. rewrite trace_performed, this_performed, Est.
    repeat split; auto with arith; try (unfold within in *; lia).
    intros C. now contradiction C.
  - apply wl_status_eqb_neq in Est.
    set (m := clock s1 mod ULONG_MOD) in *.
    set (s2 := performed drv (EvMillis m) 0 s1) in *.
    pose proof (within_performed (EvMillis m) 0 s1) as W2. fold s2 in W2.
    destruct (ulong_sub m (t0 mod ULONG_MOD) <? timeout) eqn:Et.
    + apply Z.ltb_lt in Et.
      set (s3 := performed drv (EvDelay 500) 500 s2) in *.
      pose proof (within_performed (EvDelay 500) 500 s2) as W3. fold s3 in W3.
      set (s4 := if _debugEnabled (this s) then printed (SerialPrint ".") s3 else s3) in *.
      assert (C4 : clock s4 = clock s3)
        by (unfold s4; destruct (_debugEnabled (this s)); reflexivity).
      assert (T4 : trace s4 = trace s3)
        by (unfold s4; destruct (_debugEnabled (this s)); reflexivity).
      assert (H4 : this s4 = this s3)
        by (unfold s4; destruct (_debugEnabled (this s)); reflexivity).
      apply IH in H; [|unfold within in *; lia].
      destruct H as (polls & x & Htr & Hok & Hx & Hlen & Hthis & Hw & Hto).
      exists ((st, m) :: polls), x.
      change (poll_events ((st, m) :: polls))
        with ([EvStatus st; EvMillis m; EvDelay 500] ++ poll_events polls).
      repeat split.
      * rewrite Htr, T4. unfold s3, s2, s1. rewrite !trace_performed.
        repeat rewrite <- app_assoc. reflexivity.
      * constructor; [split; assumption | assumption].
      * assumption.
      * cbn [List.length]. auto with arith.
      * rewrite Hthis, H4. reflexivity.
      * unfold within in *. rewrite C4 in Hw. cbn [List.length].
        rewrite Nat2Z.inj_succ. lia.
      * unfold within in *. rewrite C4 in Hw. cbn [List.length].
        rewrite <- app_assoc, (length_app [EvStatus st; EvMillis m; EvDelay 500]).
        cbn [List.length]. rewrite Nat2Z.inj_succ, Nat2Z.inj_add.
        change (Z.of_nat 3) with 3. lia.
      * exact Hto.
    + apply Z.ltb_ge in Et. injection H as <-.
      exists [], (ExitTimeout st m).
      cbn [poll_events flat_map exit_events app List.length].
      unfold s2 at 1 2, s1 at 1 2. rewrite !trace_performed, !this_performed.
      repeat split; auto with arith; try (unfold within in *; lia).
      * now rewrite <- app_assoc.
      * intros _. unfold ulong_sub, m in Et. rewrite <- Zminus_mod in Et.
        assert (0 <= clock s1 - t0) by (unfold within in *; lia).
        pose proof (Z.mod_le (clock s1 - t0) ULONG_MOD).
        assert (0 < ULONG_MOD) by reflexivity.
        unfold within in *. lia.
Qed.

Lemma length_poll_events (polls : list (wl_status_t * Z)) :
  List.length (poll_events polls) = (3 * List.length polls)%nat.
Proof.
  induction polls as [|p polls IH]; [reflexivity|].
  change (poll_events (p :: polls))
    with ([EvStatus (fst p); EvMillis (snd p); EvDelay 500] ++ poll_events polls).
  rewrite length_app, IH. cbn [List.length]. lia.
Qed.

Lemma length_begin_events (ssid username password : string) (r : Run) :
  List.length (begin_events ssid username password r) =
  (9 + List.length (loop_events r) + (if run_result r then 2 else 3))%nat.
Proof.
  unfold begin_events, tail_events. rewrite !length_app.
  destruct (run_result r); cbn [List.length setup_events]; lia.
Qed.

(** Whatever the fuel, a call of [begin] that returns lasted the 1000 ms of
    the settle delay and 500 ms per turn, plus what its platform calls took;
    if no read of the loop said connected, it lasted 21000 ms or more. *)
Lemma begin_returns_timed (fuel : nat) (ssid username password : string) (dbg : bool)
    (s s' : State) (b : bool) :
  begin drv fuel ssid username password dbg s = Some (b, s') ->
  exists r : Run,
    b = run_result r
    /\ trace s' = trace s ++ begin_events ssid username password r
    /\ run_ok r
    /\ (List.length (run_polls r) < fuel)%nat
    /\ this s' = {| _debugEnabled := dbg; _connected := run_result r |}
    /\ within (1000 + 500 * turns r)
         (1000 + 500 * turns r +
          l * Z.of_nat (List.length (begin_events ssid username password r))) s s'
    /\ (reported_connected r = false -> clock s + 21000 <= clock s').
Proof.
  intros H. rewrite begin_unfold in H. cbv zeta in H.
  set (s0 := before_loop drv ssid username password dbg s) in *.
  pose proof (within_before_loop ssid username password dbg s) as W0. fold s0 in W0.
  set (startTime := clock s0 mod ULONG_MOD) in *.
  pose proof (within_performed (EvMillis startTime) 0 s0) as Wm.
  destruct (poll drv fuel startTime _) as [[[] s1]|] eqn:Hp; [|discriminate H].
  injection H as H.
  apply (poll_run_clock (clock s0)) in Hp; [|unfold within in Wm; lia].
  destruct Hp as (polls & x & Htr & Hok & Hx & Hlen & Hthis & Hw & Hto).
  fold startTime in Hok, Hx.
  rewrite trace_performed in Htr. rewrite this_performed in Hthis.
  unfold s0 in Htr, Hthis.
  rewrite trace_before_loop in Htr. rewrite this_before_loop in Hthis.
  pose proof (within_after_loop s1) as Wa.
  destruct (after_loop_run drv s1) as (decide & report & ip & _ & Hr & Htl & Hth & _).
  rewrite H in Hr, Htl, Hth, Wa. cbn [fst snd] in Hr, Htl, Hth, Wa.
  rewrite Hthis in Hth. cbn [_debugEnabled] in Hth.
  set (r := {| run_start := startTime; run_polls := polls; run_exit := x;
               run_decide := decide; run_ip := ip; run_report := report |}).
  assert (Hrok : run_ok r) by (split; assumption).
  assert (Hres : b = run_result r) by exact Hr.
  exists r. repeat apply conj; try assumption.
  - rewrite Htl, Htr. unfold begin_events, loop_events, tail_events.
    cbn [run_start run_polls run_exit run_decide run_ip run_report r].
    unfold run_result. cbn [run_decide].
    repeat rewrite <- app_assoc. reflexivity.
  - unfold turns. cbn [run_polls r]. unfold within in *. lia.
  - rewrite length_begin_events. fold (run_result r). rewrite <- Hres.
    unfold loop_events, turns. cbn [run_polls run_exit r].
    unfold within in *.
    rewrite !Nat2Z.inj_add. change (Z.of_nat 9) with 9.
    destruct b; [change (Z.of_nat 2) with 2 | change (Z.of_nat 3) with 3]; lia.
  - intros Hrc. rewrite (reported_connected_exit r Hrok) in Hrc.
    cbn [run_exit r] in Hrc.
    assert (Hne : x <> ExitConnected) by (intros ->; discriminate Hrc).
    specialize (Hto Hne). unfold within, timeout in *. lia.
Qed.

End Duration.

Lemma length_loop_events (r : Run) :
  (List.length (loop_events r) <= 3 * List.length (run_polls r) + 2)%nat.
Proof.
  unfold loop_events. rewrite length_app, length_poll_events.
  destruct (run_exit r); cbn [exit_events List.length]; lia.
Qed.

(** X1: a call of [begin] lasts the 1000 ms settle delay plus 500 ms for each
    turn of the loop plus the time of its platform calls: with calls of at
    most [l] ms it never returns before [1000 + 500 * turns] ms and always
    within [21000 + 134 * l] ms. *)
Theorem begin_duration (drv : Driver) (l : Z) (fuel : nat)
    (ssid username password : string) (dbg : bool) (s : State) :
  latency_at_most drv l ->
  l <= max_latency ->
  (poll_fuel <= fuel)%nat ->
  exists (r : Run) (s' : State),
    begin drv fuel ssid username password dbg s = Some (run_result r, s')
    /\ trace s' = trace s ++ begin_events ssid username password r
    /\ 1000 + 500 * turns r <= clock s' - clock s
    /\ clock s' - clock s <=
       1000 + 500 * turns r +
       l * Z.of_nat (List.length (begin_events ssid username password r))
    /\ turns r <= 40
    /\ clock s' - clock s <= 21000 + 134 * l.
Proof.
  intros Hl Hmax Hf.
  assert (timed : well_timed drv) by (intros tr t e; specialize (Hl tr t e); lia).
  assert (Hl0 : 0 <= l)
    by (pose proof (Hl [] 0 EvEntEnable);
        pose proof (N2Z.is_nonneg (drv_latency drv [] 0 EvEntEnable)); lia).
  destruct (begin_total drv timed fuel ssid username password dbg s Hf)
    as (b & s' & H & H41).
  destruct (begin_returns_timed drv l Hl _ _ _ _ _ _ _ _ H41)
    as (r & -> & Htr & _ & Hlen & _ & Hw & _).
  exists r, s'.
  assert (Ht : turns r <= 40) by (unfold turns, poll_fuel in *; lia).
  pose proof (length_begin_events ssid username password r) as Hn.
  pose proof (length_loop_events r) as Hn'.
  assert (Hev : Z.of_nat (List.length (begin_events ssid username password r)) <= 134)
    by (unfold turns in Ht; destruct (run_result r); lia).
  unfold within in Hw. repeat split; try assumption; try lia.
  nia.
Qed.

(** X2: when no status read of the loop says connected, [begin] does not
    return before 21000 ms have passed, whatever the read after the loop
    says. *)
Theorem begin_timeout_duration (drv : Driver) (fuel : nat)
    (ssid username password : string) (dbg : bool) (s : State) :
  well_timed drv ->
  (poll_fuel <= fuel)%nat ->
  exists (r : Run) (s' : State),
    begin drv fuel ssid username password dbg s = Some (run_result r, s')
    /\ trace s' = trace s ++ begin_events ssid username password r
    /\ (reported_connected r = false -> 21000 <= clock s' - clock s).
Proof.
  intros timed Hf.
  destruct (begin_total drv timed fuel ssid username password dbg s Hf)
    as (b & s' & H & _).
  destruct (begin_returns_timed drv max_latency timed _ _ _ _ _ _ _ _ H)
    as (r & -> & Htr & _ & _ & _ & _ & Hto).
  exists r, s'. repeat split; try assumption.
  intros Hrc. specialize (Hto Hrc). lia.
Qed.

(** X3: on a platform whose calls take no time, [begin] lasts exactly
    [1000 + 500 * turns] ms; a call whose loop never reads connected makes
    exactly 40 turns and returns after exactly 21000 ms. *)
Theorem begin_instant_timeout (drv : Driver) (fuel : nat)
    (ssid username password : string) (dbg : bool) (s : State) :
  latency_at_most drv 0 ->
  (poll_fuel <= fuel)%nat ->
  exists (r : Run) (s' : State),
    begin drv fuel ssid username password dbg s = Some (run_result r, s')
    /\ trace s' = trace s ++ begin_events ssid username password r
    /\ clock s' - clock s = 1000 + 500 * turns r
    /\ (reported_connected r = false ->
        turns r = 40 /\ clock s' - clock s = 21000).
Proof.
  intros Hl Hf.
  assert (timed : well_timed drv)
    by (intros tr t e; specialize (Hl tr t e); unfold max_latency; lia).
  destruct (begin_total drv timed fuel ssid username password dbg s Hf)
    as (b & s' & H & H41).
  destruct (begin_returns_timed drv 0 Hl _ _ _ _ _ _ _ _ H41)
    as (r & -> & Htr & _ & Hlen & _ & Hw & Hto).
  exists r, s'.
  assert (Ht : turns r <= 40) by (unfold turns, poll_fuel in *; lia).
  unfold within in Hw. repeat split; try assumption; try lia.
  all: intros; match goal with Hrc : reported_connected _ = false |- _ =>
                 specialize (Hto Hrc) end; lia.
Qed.


Lemma apply_event_within_passive (lim : Limits) (c : DriverConfig) (e : Event) :
  is_command e = false -> apply_event_within lim c e = c.
Proof.
  destruct e; cbn; intros H; try discriminate H; reflexivity.
Qed.

Lemma fold_commands_within (lim : Limits) (tr : list Event) :
  forall c,
    fold_left (apply_event_within lim) tr c =
    fold_left (apply_event_within lim) (filter is_command tr) c.
Proof.
  induction tr as [|e tr IH]; intros c; [reflexivity|].
  cbn [filter fold_left]. destruct (is_command e) eqn:E.
  - cbn [fold_left]. apply IH.
  - rewrite apply_event_within_passive by exact E. apply IH.
Qed.

(** Without limits the two readings of the trace agree. *)
Lemma driver_config_no_limits (tr : list Event) :
  driver_config_within no_limits tr = driver_config tr.
Proof.
  unfold driver_config_within, driver_config. generalize initial_config.
  induction tr as [|e tr IH]; intros c; [reflexivity|].
  cbn [fold_left]. rewrite IH. f_equal. destruct e; reflexivity.
Qed.

(** X4: [begin] programs the driver anew, whatever calls were made before:
    after the call the driver is in station mode, told to associate with
    [ssid], and has enterprise mode enabled exactly if the call succeeded.
    Each credential it holds is the one of this call if the driver accepts
    its length; if the driver refuses it, the credential programmed earlier
    stays in place, and [begin] goes on to enable enterprise mode and to
    associate all the same. *)
Theorem begin_resets_config (drv : Driver) (lim : Limits) (fuel : nat)
    (ssid username password : string) (dbg : bool) (s : State) :
  well_timed drv ->
  (poll_fuel <= fuel)%nat ->
  exists (b : bool) (s' : State),
    begin drv fuel ssid username password dbg s = Some (b, s')
    /\ driver_config_within lim (trace s') =
       {| cfg_enterprise := b; cfg_ssid := Some ssid; cfg_mode := WIFI_STA;
          cfg_identity :=
            if identity_ok lim (strlen username)
            then bytes_of username (strlen username)
            else cfg_identity (driver_config_within lim (trace s));
          cfg_username :=
            if username_ok lim (strlen username)
            then bytes_of username (strlen username)
            else cfg_username (driver_config_within lim (trace s));
          cfg_password :=
            if password_ok lim (strlen password)
            then bytes_of password (strlen password)
            else cfg_password (driver_config_within lim (trace s)) |}.
Proof.
  intros timed Hf.
  destruct (begin_run drv timed fuel ssid username password dbg s Hf)
    as (r & s' & H & Htr & _).
  exists (run_result r), s'. split; [exact H|].
  rewrite Htr. unfold driver_config_within at 1.
  rewrite fold_left_app, fold_commands_within, commands_begin_events.
  fold (driver_config_within lim (trace s)).
  rewrite fold_left_app. unfold setup_commands.
  cbn [fold_left apply_event_within apply_event].
  destruct (identity_ok lim (strlen username)),
    (username_ok lim (strlen username)),
    (password_ok lim (strlen password)), (run_result r); reflexivity.
Qed.


(** * The sketch AdvancedConnection *)

(** ** Running sketch code *)

Lemma bind_Some {A B : Type} (m : M A) (k : A -> M B) (s s1 : State) (a : A) :
  m s = Some (a, s1) -> bind m k s = k a s1.
Proof. unfold bind. now intros ->. Qed.

Lemma bind_Serial_print {B : Type} (text : string) (k : unit -> M B) (s : State) :
  bind (Serial_print text) k s = k tt (printed (SerialPrint text) s).
Proof. reflexivity. Qed.

Lemma bind_Serial_println {B : Type} (text : string) (k : unit -> M B) (s : State) :
  bind (Serial_println text) k s = k tt (printed (SerialPrintln text) s).
Proof. reflexivity. Qed.

Lemma bind_isConnected {B : Type} (drv : Driver) (k : bool -> M B) (s : State) :
  bind (isConnected drv) k s =
  k (wl_status_eqb (drv_status drv (trace s) (clock s)) WL_CONNECTED)
    (performed drv (EvStatus (drv_status drv (trace s) (clock s))) 0 s).
Proof. reflexivity. Qed.

Lemma bind_WiFi_RSSI {B : Type} (drv : Driver) (radio : Radio) (k : Z -> M B)
    (s : State) :
  bind (WiFi_RSSI drv radio) k s =
  k (radio_RSSI radio (trace s) (clock s))
    (performed drv (EvRSSI (radio_RSSI radio (trace s) (clock s))) 0 s).
Proof. reflexivity. Qed.

Lemma bind_WiFi_macAddress {B : Type} (drv : Driver) (radio : Radio)
    (k : string -> M B) (s : State) :
  bind (WiFi_macAddress drv radio) k s =
  k (radio_macAddress radio)
    (performed drv (EvMacAddress (radio_macAddress radio)) 0 s).
Proof. reflexivity. Qed.

Lemma bind_assoc {A B C : Type} (m : M A) (f : A -> M B) (k : B -> M C) (s : State) :
  bind (bind m f) k s = bind m (fun a => bind (f a) k) s.
Proof. unfold bind. destruct (m s) as [[a s1]|]; reflexivity. Qed.

Lemma bind_ret_left {A B : Type} (a : A) (k : A -> M B) (s : State) :
  bind (ret a) k s = k a s.
Proof. reflexivity. Qed.

Ltac sketch_step :=
  first
    [ rewrite bind_assoc | rewrite bind_ret_left
    | rewrite bind_Serial_print | rewrite bind_Serial_println
    | rewrite bind_isConnected | rewrite bind_WiFi_RSSI
    | rewrite bind_WiFi_macAddress | rewrite bind_invoke
    | rewrite bind_set_debugEnabled | rewrite bind_WiFi_status
    | rewrite bind_WiFi_localIP | rewrite bind_millis ];
  cbv beta.

Ltac sketch_run :=
  unfold status, localIP, setDebug, delay;
  repeat sketch_step.

(** ** Commands issued between two states *)

Lemma issued_refl (s : State) : issued s s [].
Proof. exists []. now rewrite app_nil_r. Qed.

Lemma issued_trans (s1 s2 s3 : State) (c1 c2 : list Event) :
  issued s1 s2 c1 -> issued s2 s3 c2 -> issued s1 s3 (c1 ++ c2).
Proof.
  intros (n1 & H1 & F1) (n2 & H2 & F2). exists (n1 ++ n2).
  now rewrite H2, H1, app_assoc, filter_app, F1, F2.
Qed.

Lemma issued_same_trace (s x x' : State) (c : list Event) :
  trace x' = trace x -> issued s x c -> issued s x' c.
Proof. intros E (n & H & F). exists n. now rewrite E. Qed.

Lemma issued_performed (drv : Driver) (e : Event) (dur : Z) (s x : State)
    (c : list Event) :
  is_command e = false -> issued s x c -> issued s (performed drv e dur x) c.
Proof.
  intros He (n & H & F). exists (n ++ [e]).
  rewrite trace_performed, H, app_assoc, filter_app, F. cbn. rewrite He.
  now rewrite app_nil_r.
Qed.

Lemma issued_printed (o : SerialOp) (s x : State) (c : list Event) :
  issued s x c -> issued s (printed o x) c.
Proof. now apply issued_same_trace. Qed.

Lemma issued_with_debugEnabled (b : bool) (s x : State) (c : list Event) :
  issued s x c -> issued s (with_debugEnabled b x) c.
Proof. now apply issued_same_trace. Qed.

Lemma issued_config (s s' : State) (c : list Event) :
  issued s s' c ->
  driver_config (trace s') = fold_left apply_event c (driver_config (trace s)).
Proof.
  intros (n & H & F). now rewrite H, driver_config_app, fold_commands, F.
Qed.

Ltac issued_steps :=
  repeat first
    [ apply issued_printed | apply issued_with_debugEnabled
    | apply issued_performed; [reflexivity|] ].

Section AdvancedProofs.

Variable drv : Driver.
Variable radio : Radio.
Variables ssid username password : string.
Variable fuel : nat.

Lemma printConnectionInfo_run (s : State) :
  exists s' : State,
    printConnectionInfo drv radio s = Some (tt, s')
    /\ issued s s' [] /\ this s' = this s.
Proof.
  unfold printConnectionInfo. sketch_run.
  eexists. split; [reflexivity|]. split; [|reflexivity].
  issued_steps. apply issued_refl.
Qed.

Lemma printErrorInfo_run (s : State) :
  exists s' : State,
    printErrorInfo drv s = Some (tt, s')
    /\ issued s s' [] /\ this s' = this s.
Proof.
  unfold printErrorInfo. sketch_run.
  eexists. split; [reflexivity|]. split; [|reflexivity].
  issued_steps. apply issued_refl.
Qed.

(** The platform calls of the two reports, in order. *)
Lemma printConnectionInfo_trace (s : State) :
  exists (ip : IPAddress) (st : wl_status_t) (rssi : Z) (s' : State),
    printConnectionInfo drv radio s = Some (tt, s')
    /\ trace s' = trace s ++
         [EvLocalIP ip; EvStatus st; EvRSSI rssi; EvMacAddress (radio_macAddress radio)]
    /\ this s' = this s.
Proof.
  unfold printConnectionInfo. sketch_run.
  eexists _, _, _, _. split; [reflexivity|]. split; [|reflexivity].
  cbn [trace printed performed]. rewrite <- !app_assoc. reflexivity.
Qed.

Lemma printErrorInfo_trace (s : State) :
  exists (st st' : wl_status_t) (s' : State),
    printErrorInfo drv s = Some (tt, s')
    /\ trace s' = trace s ++ [EvStatus st; EvStatus st']
    /\ this s' = this s.
Proof.
  unfold printErrorInfo. sketch_run.
  eexists _, _, _. split; [reflexivity|]. split; [|reflexivity].
  cbn [trace printed performed]. rewrite <- !app_assoc. reflexivity.
Qed.

Lemma issued_begin (x s1 : State) (r : Run) :
  trace s1 = trace x ++ begin_events ssid username password r ->
  issued x s1 (setup_commands ssid username password ++
               (if run_result r then [] else [EvEntDisable])).
Proof.
  intros H. exists (begin_events ssid username password r).
  split; [exact H | apply commands_begin_events].
Qed.

Hypothesis timed : well_timed drv.
Hypothesis enough : (poll_fuel <= fuel)%nat.

(** One call of [connectToNetwork]: one call of [begin], its result handed
    on, reads of the driver around it, and the debug flag left off. *)
Lemma connectToNetwork_run (s : State) :
  exists (b : bool) (s' : State),
    connectToNetwork drv radio ssid username password fuel s = Some (b, s')
    /\ issued s s' (setup_commands ssid username password ++
                    (if b then [] else [EvEntDisable]))
    /\ this s' = {| _debugEnabled := false; _connected := b |}.
Proof.
  unfold connectToNetwork. sketch_run.
  match goal with
  | |- context [bind (begin drv fuel ssid username password true) ?k ?x] =>
      destruct (begin_run drv timed fuel ssid username password true x enough)
        as (r & s1 & H & Htr & _ & _ & Hth & _);
      rewrite (bind_Some _ k _ _ _ H); cbv beta;
      assert (Hi : issued s s1 (setup_commands ssid username password ++
                                (if run_result r then [] else [EvEntDisable])))
        by (apply (issued_trans s x s1 []);
            [issued_steps; apply issued_refl | now apply issued_begin])
  end.
  exists (run_result r).
  destruct (run_result r); sketch_run.
  - match goal with
    | |- context [bind (printConnectionInfo drv radio) ?k ?x] =>
        destruct (printConnectionInfo_run x) as (s2 & H2 & Hi2 & Ht2);
        rewrite (bind_Some _ k _ _ _ H2); cbv beta
    end.
    sketch_run. eexists. split; [reflexivity|]. split.
    + issued_steps.
      rewrite <- (app_nil_r (setup_commands ssid username password ++ [])).
      apply (issued_trans _ _ _ _ _ Hi).
      eapply issued_trans with (c1 := []); [|exact Hi2].
      issued_steps. apply issued_refl.
    + cbn [this with_debugEnabled _connected]. rewrite Ht2.
      cbn [this printed]. rewrite Hth. reflexivity.
  - match goal with
    | |- context [bind (printErrorInfo drv) ?k ?x] =>
        destruct (printErrorInfo_run x) as (s2 & H2 & Hi2 & Ht2);
        rewrite (bind_Some _ k _ _ _ H2); cbv beta
    end.
    sketch_run. eexists. split; [reflexivity|]. split.
    + issued_steps.
      rewrite <- (app_nil_r (setup_commands ssid username password ++ [EvEntDisable])).
      apply (issued_trans _ _ _ _ _ Hi).
      eapply issued_trans with (c1 := []); [|exact Hi2].
      issued_steps. apply issued_refl.
    + cbn [this with_debugEnabled _connected]. rewrite Ht2.
      cbn [this printed]. rewrite Hth. reflexivity.
Qed.

(** One call of [connectToNetwork], call by call: the calls of one [begin],
    then the queries of the report that fits its result. *)
Lemma connectToNetwork_trace (s : State) :
  exists (r : Run) (s' : State) (ip : IPAddress) (st st' : wl_status_t) (rssi : Z),
    connectToNetwork drv radio ssid username password fuel s = Some (run_result r, s')
    /\ trace s' = trace s ++ begin_events ssid username password r ++
         report_queries (run_result r) ip st st' rssi (radio_macAddress radio)
    /\ this s' = {| _debugEnabled := false; _connected := run_result r |}.
Proof.
  unfold connectToNetwork. sketch_run.
  match goal with
  | |- context [bind (begin drv fuel ssid username password true) ?k ?x] =>
      destruct (begin_run drv timed fuel ssid username password true x enough)
        as (r & s1 & H & Htr & _ & _ & Hth & _);
      rewrite (bind_Some _ k _ _ _ H); cbv beta
  end.
  cbn [trace printed with_debugEnabled] in Htr.
  exists r. unfold report_queries.
  destruct (run_result r); sketch_run.
  - match goal with
    | |- context [bind (printConnectionInfo drv radio) ?k ?x] =>
        destruct (printConnectionInfo_trace x) as (ip & st & rssi & s2 & H2 & Htr2 & Ht2);
        rewrite (bind_Some _ k _ _ _ H2); cbv beta
    end.
    sketch_run. eexists _, ip, st, st, rssi. split; [reflexivity|]. split.
    + cbn [trace with_debugEnabled]. rewrite Htr2. cbn [trace printed].
      rewrite Htr, <- !app_assoc. reflexivity.
    + cbn [this with_debugEnabled _connected]. rewrite Ht2.
      cbn [this printed]. rewrite Hth. reflexivity.
  - match goal with
    | |- context [bind (printErrorInfo drv) ?k ?x] =>
        destruct (printErrorInfo_trace x) as (st & st' & s2 & H2 & Htr2 & Ht2);
        rewrite (bind_Some _ k _ _ _ H2); cbv beta
    end.
    sketch_run. eexists _, test_ip, st, st', 0. split; [reflexivity|]. split.
    + cbn [trace with_debugEnabled]. rewrite Htr2. cbn [trace printed].
      rewrite Htr, <- !app_assoc. reflexivity.
    + cbn [this with_debugEnabled _connected]. rewrite Ht2.
      cbn [this printed]. rewrite Hth. reflexivity.
Qed.

Ltac use_printConnectionInfo :=
  match goal with
  | |- context [bind (printConnectionInfo ?d ?r) ?k ?x] =>
      let s2 := fresh "s2" in
      let H2 := fresh "H2" in
      let Hi2 := fresh "Hi2" in
      let Ht2 := fresh "Ht2" in
      destruct (printConnectionInfo_run x) as (s2 & H2 & Hi2 & Ht2);
      rewrite (bind_Some _ k _ _ _ H2); cbv beta
  end.

(** The periodic check once the attempts are used up: no command reaches the
    driver; the counter only goes back to zero when the link is found up
    again. *)
Lemma check_connection_exhausted (t : Z) (g : Advanced) (s : State) :
  MAX_RECONNECT_ATTEMPTS <= reconnectAttempts g ->
  exists (g' : Advanced) (s' : State),
    check_connection drv radio ssid username password fuel t g s = Some (g', s')
    /\ issued s s' []
    /\ this s' = this s
    /\ lastCheck g' = t
    /\ (reconnectAttempts g' = reconnectAttempts g
        \/ (reconnectAttempts g' = 0 /\ wasConnected g = false /\ wasConnected g' = true)).
Proof.
  intros Hmax. unfold check_connection. cbv zeta. sketch_run.
  cbn [lastCheck reconnectAttempts wasConnected LED].
  destruct (wl_status_eqb _ WL_CONNECTED).
  - destruct (wasConnected g) eqn:Ew; cbn [negb].
    + sketch_run. eexists _, _. split; [reflexivity|].
      cbn [lastCheck reconnectAttempts wasConnected LED].
      repeat split; [issued_steps; apply issued_refl | now left].
    + sketch_run. use_printConnectionInfo. sketch_run.
      eexists _, _. split; [reflexivity|].
      cbn [lastCheck reconnectAttempts wasConnected LED].
      repeat split.
      * eapply issued_trans with (c1 := []); [|exact Hi2].
        issued_steps. apply issued_refl.
      * rewrite Ht2. reflexivity.
      * right. repeat split.
  - assert (E : (reconnectAttempts g <? MAX_RECONNECT_ATTEMPTS) = false)
      by (apply Z.ltb_ge; exact Hmax).
    destruct (wasConnected g); sketch_run;
      cbn [lastCheck reconnectAttempts wasConnected LED]; rewrite E;
      eexists _, _; (split; [reflexivity|]);
      cbn [lastCheck reconnectAttempts wasConnected LED];
      (repeat split; [issued_steps; apply issued_refl | now left]).
Qed.

(** The periodic check once the attempts are used up, exactly: the status
    it reads decides what becomes of the counter. *)
Lemma check_connection_given_up (t : Z) (g : Advanced) (s : State) :
  MAX_RECONNECT_ATTEMPTS <= reconnectAttempts g ->
  exists (g' : Advanced) (s' : State) (st : wl_status_t) (rest : list Event),
    check_connection drv radio ssid username password fuel t g s = Some (g', s')
    /\ trace s' = trace s ++ EvStatus st :: rest
    /\ filter is_command rest = []
    /\ this s' = this s
    /\ lastCheck g' = t
    /\ wasConnected g' = wl_status_eqb st WL_CONNECTED
    /\ reconnectAttempts g' =
       (if wl_status_eqb st WL_CONNECTED && negb (wasConnected g)
        then 0 else reconnectAttempts g).
Proof.
  intros Hmax. unfold check_connection. cbv zeta. sketch_run.
  cbn [lastCheck reconnectAttempts wasConnected LED].
  set (st := drv_status drv (trace s) (clock s)).
  destruct (wl_status_eqb st WL_CONNECTED) eqn:Est.
  - destruct (wasConnected g) eqn:Ew; cbn [negb andb].
    + sketch_run. eexists _, _, st, []. split; [reflexivity|].
      rewrite Est. cbn [lastCheck reconnectAttempts wasConnected LED].
      repeat split.
    + sketch_run.
      match goal with
      | |- context [bind (printConnectionInfo drv radio) ?k ?x] =>
          destruct (printConnectionInfo_trace x) as (ip & st2 & rssi & s2 & H2 & Htr2 & Ht2);
          rewrite (bind_Some _ k _ _ _ H2); cbv beta
      end.
      sketch_run. eexists _, _, st, _. split; [reflexivity|].
      rewrite Est. cbn [lastCheck reconnectAttempts wasConnected LED].
      split; [|split; [|split; [|repeat split]]].
      * rewrite Htr2. cbn [trace printed performed].
        rewrite <- app_assoc. reflexivity.
      * reflexivity.
      * rewrite Ht2. reflexivity.
  - assert (E : (reconnectAttempts g <? MAX_RECONNECT_ATTEMPTS) = false)
      by (apply Z.ltb_ge; exact Hmax).
    cbn [andb].
    destruct (wasConnected g); sketch_run;
      cbn [lastCheck reconnectAttempts wasConnected LED]; rewrite E;
      eexists _, _, st, []; (split; [reflexivity|]); rewrite Est;
      cbn [lastCheck reconnectAttempts wasConnected LED]; repeat split.
Qed.

Ltac use_connectToNetwork :=
  match goal with
  | |- context [bind (connectToNetwork ?d ?r ?a ?b ?c ?f) ?k ?x] =>
      let ok := fresh "ok" in
      let s2 := fresh "s2" in
      let H2 := fresh "H2" in
      let Hi2 := fresh "Hi2" in
      let Ht2 := fresh "Ht2" in
      destruct (connectToNetwork_run x) as (ok & s2 & H2 & Hi2 & Ht2);
      rewrite (bind_Some _ k _ _ _ H2); cbv beta
  end.

(** The periodic check while attempts are left: either no command reaches
    the driver, or there is one call of [connectToNetwork]; the counter goes
    to zero on success and up by one on failure, and stays within bounds. *)
Lemma check_connection_run (t : Z) (g : Advanced) (s : State) :
  0 <= reconnectAttempts g <= MAX_RECONNECT_ATTEMPTS ->
  exists (g' : Advanced) (s' : State),
    check_connection drv radio ssid username password fuel t g s = Some (g', s')
    /\ lastCheck g' = t
    /\ 0 <= reconnectAttempts g' <= MAX_RECONNECT_ATTEMPTS
    /\ ((issued s s' [] /\ this s' = this s
         /\ (reconnectAttempts g' = reconnectAttempts g \/ reconnectAttempts g' = 0))
        \/ (reconnectAttempts g < MAX_RECONNECT_ATTEMPTS
            /\ exists ok : bool,
                 issued s s' (setup_commands ssid username password ++
                              (if ok then [] else [EvEntDisable]))
                 /\ this s' = {| _debugEnabled := false; _connected := ok |}
                 /\ reconnectAttempts g' =
                    (if ok then 0 else reconnectAttempts g + 1))).
Proof.
  intros Hinv.
  destruct (Z.ltb_spec (reconnectAttempts g) MAX_RECONNECT_ATTEMPTS) as [Hlt|Hge].
  2: { destruct (check_connection_exhausted t g s Hge)
         as (g' & s' & H & Hi & Ht & Hl & Hr).
       exists g', s'. repeat split; try assumption.
       - destruct Hr as [-> | (-> & _)]; [apply Hinv | reflexivity].
       - destruct Hr as [-> | (-> & _)]; [apply Hinv | unfold MAX_RECONNECT_ATTEMPTS; lia].
       - left. repeat split; try assumption.
         destruct Hr as [-> | (-> & _)]; [now left | now right]. }
  unfold check_connection. cbv zeta. sketch_run.
  cbn [lastCheck reconnectAttempts wasConnected LED].
  destruct (wl_status_eqb _ WL_CONNECTED).
  - destruct (wasConnected g) eqn:Ew; cbn [negb].
    + sketch_run. eexists _, _. split; [reflexivity|].
      cbn [lastCheck reconnectAttempts wasConnected LED].
      repeat split; try apply Hinv.
      left. repeat split; [issued_steps; apply issued_refl | now left].
    + sketch_run. use_printConnectionInfo. sketch_run.
      eexists _, _. split; [reflexivity|].
      cbn [lastCheck reconnectAttempts wasConnected LED].
      repeat split; try (unfold MAX_RECONNECT_ATTEMPTS; lia).
      left. repeat split.
      * eapply issued_trans with (c1 := []); [|exact Hi2].
        issued_steps. apply issued_refl.
      * rewrite Ht2. reflexivity.
      * now right.
  - assert (E : (reconnectAttempts g <? MAX_RECONNECT_ATTEMPTS) = true)
      by (apply Z.ltb_lt; exact Hlt).
    destruct (wasConnected g); sketch_run;
      cbn [lastCheck reconnectAttempts wasConnected LED]; rewrite E;
      sketch_run; use_connectToNetwork; destruct ok; sketch_run.
    all: cbn [lastCheck reconnectAttempts wasConnected LED].
    all: try destruct (MAX_RECONNECT_ATTEMPTS <=? reconnectAttempts g + 1); sketch_run.
    all: eexists _, _; (split; [reflexivity|]).
    all: cbn [lastCheck reconnectAttempts wasConnected LED].
    all: repeat split; try (unfold MAX_RECONNECT_ATTEMPTS in *; lia).
    all: right; split; [exact Hlt|].
    all: match goal with
         | Hi : issued _ _ (_ ++ []) |- _ => exists true
         | Hi : issued _ _ (_ ++ [EvEntDisable]) |- _ => exists false
         end; repeat split; try exact Ht2.
    all: issued_steps.
    all: match goal with
         | |- issued _ _ ?c =>
             change c with ([] ++ c); eapply issued_trans; [|exact Hi2]
         end.
    all: issued_steps; apply issued_refl.
Qed.

(** The end of [loop()]: one status read, the LED, a sleep. *)
Lemma loop_tail_run (g : Advanced) (s : State) :
  exists (g' : Advanced) (s' : State),
    (connected <- isConnected drv ;;
     if negb connected then
       delay drv 200 ;;
       ret {| lastCheck := lastCheck g; reconnectAttempts := reconnectAttempts g;
              wasConnected := wasConnected g; LED := negb (LED g) |}
     else delay drv 100 ;; ret g) s = Some (g', s')
    /\ issued s s' [] /\ this s' = this s /\ serial s' = serial s
    /\ lastCheck g' = lastCheck g
    /\ reconnectAttempts g' = reconnectAttempts g
    /\ wasConnected g' = wasConnected g.
Proof.
  sketch_run. destruct (wl_status_eqb _ WL_CONNECTED); cbn [negb]; sketch_run.
  all: eexists _, _; (split; [reflexivity|]).
  all: repeat split; issued_steps; apply issued_refl.
Qed.

End AdvancedProofs.

Lemma issued_around (s s1 s2 s3 : State) (c : list Event) :
  issued s s1 [] -> issued s1 s2 c -> issued s2 s3 [] -> issued s s3 c.
Proof.
  intros H1 H2 H3.
  pose proof (issued_trans _ _ _ _ _ (issued_trans _ _ _ _ _ H1 H2) H3) as H.
  cbn [app] in H. now rewrite app_nil_r in H.
Qed.


(** X6: [connectToNetwork] makes exactly one call of [begin] and returns
    its result.  The platform sees the calls of that one [begin] and after
    them only queries: the address, status, signal-strength and MAC-address
    reads of [printConnectionInfo] after a success, the two status reads of
    [printErrorInfo] after a failure.  So the only commands the driver
    receives are those of one [begin], and the wrapper is left with
    debugging off and [_connected] equal to the result. *)
Theorem connectToNetwork_attempt (drv : Driver) (radio : Radio)
    (ssid username password : string) (fuel : nat) (s : State) :
  well_timed drv ->
  (poll_fuel <= fuel)%nat ->
  exists (r : Run) (s' : State) (ip : IPAddress) (st st' : wl_status_t) (rssi : Z),
    connectToNetwork drv radio ssid username password fuel s = Some (run_result r, s')
    /\ trace s' = trace s ++ begin_events ssid username password r ++
         report_queries (run_result r) ip st st' rssi (radio_macAddress radio)
    /\ issued s s' (setup_commands ssid username password ++
                    (if run_result r then [] else [EvEntDisable]))
    /\ this s' = {| _debugEnabled := false; _connected := run_result r |}.
Proof.
  intros timed Hf.
  destruct (connectToNetwork_trace drv radio ssid username password fuel timed Hf s)
    as (r & s' & ip & st & st' & rssi & H & Htr & Ht).
  exists r, s', ip, st, st', rssi. repeat split; try assumption.
  eexists. split; [exact Htr|].
  rewrite filter_app, commands_begin_events.
  unfold report_queries. destruct (run_result r); cbn [filter]; now rewrite app_nil_r.
Qed.

(** X7: one pass of [loop()] keeps the attempt counter between 0 and
    [MAX_RECONNECT_ATTEMPTS] and makes at most one connection attempt: either
    no command reaches the driver and the counter is kept or reset to zero,
    or attempts were left, the driver receives the command sequence of one
    [begin], and the counter is zero after a success and one more after a
    failure. *)
Theorem loop_attempt (drv : Driver) (radio : Radio)
    (ssid username password : string) (fuel : nat) (g : Advanced) (s : State) :
  well_timed drv ->
  (poll_fuel <= fuel)%nat ->
  0 <= reconnectAttempts g <= MAX_RECONNECT_ATTEMPTS ->
  exists (g' : Advanced) (s' : State),
    loop_ drv radio ssid username password fuel g s = Some (g', s')
    /\ 0 <= reconnectAttempts g' <= MAX_RECONNECT_ATTEMPTS
    /\ ((issued s s' []
         /\ (reconnectAttempts g' = reconnectAttempts g \/ reconnectAttempts g' = 0))
        \/ (reconnectAttempts g < MAX_RECONNECT_ATTEMPTS
            /\ exists ok : bool,
                 issued s s' (setup_commands ssid username password ++
                              (if ok then [] else [EvEntDisable]))
                 /\ reconnectAttempts g' =
                    (if ok then 0 else reconnectAttempts g + 1))).
Proof.
  intros timed Hf Hinv. unfold loop_. sketch_run.
  set (t := clock s mod ULONG_MOD).
  set (s1 := performed drv (EvMillis t) 0 s).
  assert (Hi1 : issued s s1 []) by (unfold s1; issued_steps; apply issued_refl).
  destruct (CHECK_INTERVAL <=? ulong_sub t (lastCheck g)).
  - destruct (check_connection_run drv radio ssid username password fuel timed Hf
                t g s1 Hinv) as (g1 & s2 & H & _ & Hb & Hc).
    rewrite (bind_Some _ _ _ _ _ H). cbv beta.
    destruct (loop_tail_run drv g1 s2) as (g' & s' & Ht & Hi3 & _ & _ & _ & Hr & _).
    exists g', s'. split; [exact Ht|]. rewrite Hr. split; [exact Hb|].
    destruct Hc as [(Hi2 & _ & Hk) | (Hlt & ok & Hi2 & _ & Hk)].
    + left. split; [|exact Hk]. exact (issued_around _ _ _ _ _ Hi1 Hi2 Hi3).
    + right. split; [exact Hlt|]. exists ok. split; [|exact Hk].
      exact (issued_around _ _ _ _ _ Hi1 Hi2 Hi3).
  - rewrite bind_ret_left.
    destruct (loop_tail_run drv g s1) as (g' & s' & Ht & Hi3 & _ & _ & _ & Hr & _).
    exists g', s'. split; [exact Ht|]. rewrite Hr. split; [exact Hinv|].
    left. split; [|now left].
    exact (issued_around _ _ _ _ _ Hi1 (issued_refl s1) Hi3).
Qed.


(** X8: once the attempt counter has reached [MAX_RECONNECT_ATTEMPTS], a
    pass of [loop()] sends no command to the driver and does not touch the
    wrapper, whether the link is up or not.  If the check interval has not
    passed, the counters are unchanged.  If it has, the pass reads the clock
    and then the status, and that status read decides: [wasConnected] becomes
    whether it said connected, and the counter is reset to zero exactly if
    it said connected while [wasConnected] was false; otherwise the counter
    stays where it is. *)
Theorem loop_gives_up (drv : Driver) (radio : Radio)
    (ssid username password : string) (fuel : nat) (g : Advanced) (s : State) :
  MAX_RECONNECT_ATTEMPTS <= reconnectAttempts g ->
  exists (g' : Advanced) (s' : State) (new : list Event),
    loop_ drv radio ssid username password fuel g s = Some (g', s')
    /\ trace s' = trace s ++ new
    /\ filter is_command new = []
    /\ this s' = this s
    /\ (if CHECK_INTERVAL <=? ulong_sub (clock s mod ULONG_MOD) (lastCheck g)
        then exists (st : wl_status_t) (rest : list Event),
               new = EvMillis (clock s mod ULONG_MOD) :: EvStatus st :: rest
               /\ lastCheck g' = clock s mod ULONG_MOD
               /\ wasConnected g' = wl_status_eqb st WL_CONNECTED
               /\ reconnectAttempts g' =
                  (if wl_status_eqb st WL_CONNECTED && negb (wasConnected g)
                   then 0 else reconnectAttempts g)
        else lastCheck g' = lastCheck g
             /\ wasConnected g' = wasConnected g
             /\ reconnectAttempts g' = reconnectAttempts g).
Proof.
  intros Hmax. unfold loop_. sketch_run.
  set (t := clock s mod ULONG_MOD).
  set (s1 := performed drv (EvMillis t) 0 s).
  destruct (CHECK_INTERVAL <=? ulong_sub t (lastCheck g)).
  - destruct (check_connection_given_up drv radio ssid username password fuel
                t g s1 Hmax) as (g1 & s2 & st & rest & H & Htr & Hf & Hth & Hl & Hw & Hk).
    rewrite (bind_Some _ _ _ _ _ H). cbv beta.
    destruct (loop_tail_run drv g1 s2)
      as (g' & s' & Ht & (n3 & Hn3 & F3) & Hth3 & _ & Hl3 & Hr & Hw3).
    exists g', s', (EvMillis t :: EvStatus st :: rest ++ n3).
    split; [exact Ht|]. split; [|split; [|split]].
    + rewrite Hn3, Htr. unfold s1. cbn [trace performed].
      rewrite <- !app_assoc. reflexivity.
    + cbn [filter is_command is_driver_op is_query andb negb].
      rewrite filter_app, Hf, F3. reflexivity.
    + rewrite Hth3, Hth. reflexivity.
    + exists st, (rest ++ n3). rewrite Hl3, Hw3, Hr. repeat split; assumption.
  - rewrite bind_ret_left.
    destruct (loop_tail_run drv g s1)
      as (g' & s' & Ht & (n3 & Hn3 & F3) & Hth3 & _ & Hl3 & Hr & Hw3).
    exists g', s', (EvMillis t :: n3).
    split; [exact Ht|]. split; [|split; [|split]].
    + rewrite Hn3. unfold s1. cbn [trace performed].
      rewrite <- app_assoc. reflexivity.
    + cbn [filter is_command is_driver_op is_query andb negb]. exact F3.
    + rewrite Hth3. reflexivity.
    + repeat split; assumption.
Qed.

(** X9: a pass of [loop()] that starts less than [CHECK_INTERVAL] ms after
    the last check (in [unsigned long] arithmetic, so also across the
    rollover of [millis]) does not check the connection: no command reaches
    the driver, nothing is printed, the wrapper and the sketch's counters are
    unchanged. *)
Theorem loop_rate_limited (drv : Driver) (radio : Radio)
    (ssid username password : string) (fuel : nat) (g : Advanced) (s : State) :
  ulong_sub (clock s mod ULONG_MOD) (lastCheck g) < CHECK_INTERVAL ->
  exists (g' : Advanced) (s' : State),
    loop_ drv radio ssid username password fuel g s = Some (g', s')
    /\ issued s s' []
    /\ this s' = this s
    /\ serial s' = serial s
    /\ lastCheck g' = lastCheck g
    /\ reconnectAttempts g' = reconnectAttempts g
    /\ wasConnected g' = wasConnected g.
Proof.
  intros Hlt. unfold loop_. sketch_run.
  apply Z.leb_gt in Hlt. rewrite Hlt, bind_ret_left.
  set (s1 := performed drv (EvMillis (clock s mod ULONG_MOD)) 0 s).
  assert (Hi1 : issued s s1 []) by (unfold s1; issued_steps; apply issued_refl).
  destruct (loop_tail_run drv g s1) as (g' & s' & Ht & Hi3 & Hth & Hse & Hl & Hr & Hw).
  exists g', s'. repeat split; try assumption.
  exact (issued_around _ _ _ _ _ Hi1 (issued_refl s1) Hi3).
Qed.

(** * The reconnection handler *)

(** X10: [handleDisconnection] toggles the LED and sleeps 100 ms; when the
    clock read after the sleep is less than 30000 ms past the stored time of
    the last failed attempt (in [unsigned long] arithmetic), it makes no
    attempt: no command reaches the driver, nothing is printed, the wrapper
    and the stored time are unchanged. *)
Theorem handleDisconnection_waits (drv : Driver) (ssid username password : string)
    (fuel : nat) (h : Handler) (s : State) :
  ulong_sub (clock (performed drv (EvDelay 100) 100 s) mod ULONG_MOD)
    (lastReconnectAttempt h) < 30000 ->
  exists (h' : Handler) (s' : State),
    handleDisconnection drv ssid username password fuel h s = Some (h', s')
    /\ issued s s' []
    /\ this s' = this s
    /\ serial s' = serial s
    /\ lastReconnectAttempt h' = lastReconnectAttempt h
    /\ LED_PIN h' = negb (LED_PIN h)
    /\ clock s + 100 <= clock s'.
Proof.
  intros Hlt. unfold handleDisconnection. cbv zeta. sketch_run.
  cbn [lastReconnectAttempt LED_PIN].
  apply Z.leb_gt in Hlt. rewrite Hlt.
  eexists _, _. split; [reflexivity|].
  repeat split.
  - issued_steps. apply issued_refl.
  - rewrite !clock_performed.
    pose proof (N2Z.is_nonneg (drv_latency drv (trace s) (clock s) (EvDelay 100))).
    match goal with
    | |- context [Z.of_N (drv_latency drv ?tr ?t (EvMillis ?m))] =>
        pose proof (N2Z.is_nonneg (drv_latency drv tr t (EvMillis m)))
    end.
    lia.
Qed.

(** X11: when 30000 ms or more have passed, [handleDisconnection] makes one
    call of [begin] with debugging off: the driver receives the command
    sequence of one [begin]; after a success the stored time is kept, after a
    failure it is the value of the [millis()] call made last, once [begin]
    has returned. *)
Theorem handleDisconnection_attempt (drv : Driver) (ssid username password : string)
    (fuel : nat) (h : Handler) (s : State) :
  well_timed drv ->
  (poll_fuel <= fuel)%nat ->
  30000 <=
    ulong_sub (clock (performed drv (EvDelay 100) 100 s) mod ULONG_MOD)
      (lastReconnectAttempt h) ->
  exists (ok : bool) (h' : Handler) (s' : State),
    handleDisconnection drv ssid username password fuel h s = Some (h', s')
    /\ issued s s' (setup_commands ssid username password ++
                    (if ok then [] else [EvEntDisable]))
    /\ this s' = {| _debugEnabled := false; _connected := ok |}
    /\ LED_PIN h' = negb (LED_PIN h)
    /\ (if ok
        then lastReconnectAttempt h' = lastReconnectAttempt h
        else exists before, trace s' = before ++ [EvMillis (lastReconnectAttempt h')])
    /\ serial s' = serial s ++
         SerialPrintln "🔄 WiFi disconnected, attempting to reconnect..." ::
         (if ok then [SerialPrintln "✅ Reconnected successfully!"] else []).
Proof.
  intros timed Hf Hge. unfold handleDisconnection. cbv zeta. sketch_run.
  cbn [lastReconnectAttempt LED_PIN].
  apply Z.leb_le in Hge. rewrite Hge. sketch_run. unfold begin_default.
  match goal with
  | |- context [bind (begin drv fuel ssid username password false) ?k ?x] =>
      destruct (begin_run drv timed fuel ssid username password false x Hf)
        as (r & s1 & H & Htr & _ & _ & Hth & Hser);
      rewrite (bind_Some _ k _ _ _ H); cbv beta;
      assert (Hi : issued s s1 (setup_commands ssid username password ++
                                (if run_result r then [] else [EvEntDisable])))
        by (apply (issued_trans s x s1 []);
            [issued_steps; apply issued_refl
            | exists (begin_events ssid username password r);
              split; [exact Htr | apply commands_begin_events]])
  end.
  rewrite app_nil_r in Hser. cbn [serial printed performed] in Hser.
  exists (run_result r). destruct (run_result r); sketch_run.
  all: eexists _, _; (split; [reflexivity|]).
  all: cbn [lastReconnectAttempt LED_PIN this serial printed performed].
  all: (split; [issued_steps; exact Hi|]).
  all: (split; [exact Hth|]).
  all: (split; [reflexivity|]).
  all: split.
  - reflexivity.
  - rewrite Hser. now rewrite <- app_assoc.
  - eexists. rewrite trace_performed. reflexivity.
  - exact Hser.
Qed.

(** * Time formatting *)

Lemma string_app_assoc (a b c : string) :
  ((a ++ b) ++ c = a ++ (b ++ c))%string.
Proof. induction a as [|x a IH]; [reflexivity|]. cbn. now rewrite IH. Qed.

Lemma read_time_uint (unit : ascii -> Z -> Z -> Z * Z) (rest : string) (total : Z) :
  forall (d : Decimal.uint) (n : Z),
    read_time unit (NilEmpty.string_of_uint d ++ rest) total n =
    read_time unit rest total (read_uint d n).
Proof.
  induction d; intros n; cbn [NilEmpty.string_of_uint append read_uint];
    [reflexivity | ..]; cbn [read_time]; apply IHd.
Qed.

Lemma read_uint_acc (d : Decimal.uint) :
  forall acc : positive, read_uint d (Z.pos acc) = Z.pos (Pos.of_uint_acc d acc).
Proof.
  induction d; intros acc; cbn [read_uint Pos.of_uint_acc]; [reflexivity | ..].
  all: match goal with
       | |- read_uint _ ?z = Z.pos (Pos.of_uint_acc _ ?q) =>
           replace z with (Z.pos q) by lia
       end; apply IHd.
Qed.

Lemma read_uint_value (d : Decimal.uint) : read_uint d 0 = Z.of_N (Pos.of_uint d).
Proof.
  induction d; cbn [read_uint Pos.of_uint]; [reflexivity | exact IHd | ..].
  all: match goal with
       | |- read_uint _ ?z = Z.of_N (N.pos (Pos.of_uint_acc _ ?q)) =>
           change z with (Z.pos q)
       end; apply read_uint_acc.
Qed.

(** Reading the decimal text of [z] leaves [z] in the accumulator. *)
Lemma read_time_number (unit : ascii -> Z -> Z -> Z * Z) (z : Z) (rest : string)
    (total : Z) :
  0 <= z ->
  read_time unit (String_of_int z ++ rest) total 0 = read_time unit rest total z.
Proof.
  intros Hz. unfold String_of_int. destruct z as [|p|p]; [reflexivity| |lia].
  cbn [Z.to_int NilZero.string_of_int]. unfold NilZero.string_of_uint.
  assert (E : read_uint (Pos.to_uint p) 0 = Z.pos p)
    by (rewrite read_uint_value, DecimalPos.Unsigned.of_to; reflexivity).
  destruct (Pos.to_uint p) eqn:Ep; [discriminate E | ..];
    rewrite read_time_uint, E; reflexivity.
Qed.

Lemma read_uptime_d (rest : string) (total n : Z) :
  read_time uptime_unit ("d " ++ rest) total n =
  read_time uptime_unit rest (total + n * 86400) 0.
Proof. reflexivity. Qed.

Lemma read_uptime_h (rest : string) (total n : Z) :
  read_time uptime_unit ("h " ++ rest) total n =
  read_time uptime_unit rest (total + n * 3600) 0.
Proof. reflexivity. Qed.

Lemma read_uptime_m (rest : string) (total n : Z) :
  read_time uptime_unit ("m " ++ rest) total n =
  read_time uptime_unit rest (total + n * 60) 0.
Proof. reflexivity. Qed.

Lemma read_uptime_s (total n : Z) :
  read_time uptime_unit "s" total n = total + n + 0.
Proof. reflexivity. Qed.

(** Reading the text of [formatUptime] back gives the uptime in whole
    seconds. *)
Lemma read_formatUptime (ms : Z) :
  0 <= ms -> read_time uptime_unit (formatUptime ms) 0 0 = ms / 1000.
Proof.
  intros Hms. unfold formatUptime. cbv zeta.
  set (q := ms / 1000). set (mi := q / 60). set (hr := mi / 60).
  assert (Hq : 0 <= q) by (apply Z.div_pos; lia).
  assert (Hmi : 0 <= mi) by (apply Z.div_pos; lia).
  assert (Hhr : 0 <= hr) by (apply Z.div_pos; lia).
  assert (Hd : 0 <= hr / 24) by (apply Z.div_pos; lia).
  pose proof (Z.mod_pos_bound q 60 ltac:(lia)) as Hs.
  pose proof (Z.mod_pos_bound mi 60 ltac:(lia)) as Hm.
  pose proof (Z.mod_pos_bound hr 24 ltac:(lia)) as Hh.
  pose proof (Z.div_mod q 60 ltac:(lia)) as Eq. fold mi in Eq.
  pose proof (Z.div_mod mi 60 ltac:(lia)) as Emi. fold hr in Emi.
  pose proof (Z.div_mod hr 24 ltac:(lia)) as Ehr.
  destruct (Z.ltb_spec 0 (hr / 24)), (Z.ltb_spec 0 (hr mod 24)),
    (Z.ltb_spec 0 (mi mod 60)).
  all: cbn [append].
  all: repeat rewrite string_app_assoc.
  all: repeat first
         [ rewrite read_time_number by lia
         | rewrite read_uptime_d | rewrite read_uptime_h
         | rewrite read_uptime_m | rewrite read_uptime_s ].
  all: lia.
Qed.

(** X12: the text [formatUptime] builds determines the uptime in whole
    seconds: two uptimes with the same text differ by less than a second's
    worth of milliseconds within the same second. *)
Theorem formatUptime_seconds (a b : Z) :
  0 <= a -> 0 <= b ->
  formatUptime a = formatUptime b -> a / 1000 = b / 1000.
Proof.
  intros Ha Hb E.
  rewrite <- (read_formatUptime a Ha), <- (read_formatUptime b Hb), E.
  reflexivity.
Qed.

Lemma read_clock_colon (rest : string) (total n : Z) :
  read_time clock_unit (String ":" rest) total n =
  read_time clock_unit rest ((total + n) * 60) 0.
Proof. reflexivity. Qed.

Lemma read_time_zero (unit : ascii -> Z -> Z -> Z * Z) (rest : string) (total : Z) :
  read_time unit (String "0" rest) total 0 = read_time unit rest total 0.
Proof. reflexivity. Qed.

Lemma string_app_nil_r (a : string) : (a ++ "")%string = a.
Proof. induction a as [|x a IH]; [reflexivity|]. cbn. now rewrite IH. Qed.

Lemma read_time_end (unit : ascii -> Z -> Z -> Z * Z) (z total : Z) :
  0 <= z -> read_time unit (String_of_int z) total 0 = total + z.
Proof.
  intros Hz. rewrite <- (string_app_nil_r (String_of_int z)) at 1.
  now rewrite read_time_number.
Qed.

(** Reading the text of [getCurrentTime] back gives the value of [millis]
    in whole seconds. *)
Lemma read_getCurrentTime (drv : Driver) (s : State) :
  exists text : string,
    getCurrentTime drv s =
      Some (text, performed drv (EvMillis (clock s mod ULONG_MOD)) 0 s)
    /\ read_time clock_unit text 0 0 = (clock s mod ULONG_MOD) / 1000.
Proof.
  unfold getCurrentTime. rewrite bind_millis. cbv beta zeta.
  eexists. split; [reflexivity|].
  set (q := clock s mod ULONG_MOD / 1000).
  assert (Hq : 0 <= q)
    by (apply Z.div_pos; [apply Z.mod_pos_bound; reflexivity | lia]).
  assert (Hh : 0 <= q / 3600) by (apply Z.div_pos; lia).
  pose proof (Z.mod_pos_bound q 3600 ltac:(lia)) as Hr.
  assert (Hm : 0 <= q mod 3600 / 60) by (apply Z.div_pos; lia).
  pose proof (Z.mod_pos_bound q 60 ltac:(lia)) as Hs.
  assert (E : q = (q / 3600 * 60 + q mod 3600 / 60) * 60 + q mod 60)
    by (clear -Hq; Z.div_mod_to_equations; lia).
  rewrite read_time_number by lia.
  destruct (q mod 3600 / 60 <? 10); destruct (q mod 60 <? 10).
  all: cbn [append]; rewrite read_clock_colon, ?read_time_zero.
  all: rewrite read_time_number by lia.
  all: cbn [append]; rewrite read_clock_colon, ?read_time_zero.
  all: rewrite read_time_end by lia; lia.
Qed.

(** X13: [getCurrentTime] reads the clock once, and the [H:MM:SS] text it
    returns determines the value of [millis()] in whole seconds: two calls
    that return the same text were made in the same second of uptime. *)
Theorem getCurrentTime_seconds (drv : Driver) (s1 s2 : State) :
  exists text1 text2 : string,
    getCurrentTime drv s1 =
      Some (text1, performed drv (EvMillis (clock s1 mod ULONG_MOD)) 0 s1)
    /\ getCurrentTime drv s2 =
      Some (text2, performed drv (EvMillis (clock s2 mod ULONG_MOD)) 0 s2)
    /\ (text1 = text2 ->
        (clock s1 mod ULONG_MOD) / 1000 = (clock s2 mod ULONG_MOD) / 1000).
Proof.
  destruct (read_getCurrentTime drv s1) as (t1 & H1 & R1).
  destruct (read_getCurrentTime drv s2) as (t2 & H2 & R2).
  exists t1, t2. repeat split; try assumption.
  intros E. rewrite <- R1, <- R2, E. reflexivity.
Qed.

(** * The network scanner *)

(** X14: [getFrequency] gives 0 exactly for channel 0 and the channels 15
    to 35, a frequency from 2412 to 2477 MHz for the channels 1 to 14 and
    one of 5180 MHz or more from channel 36 on; two channels with the same
    frequency other than 0 are the same channel. *)
Theorem getFrequency_bands (a b : Z) :
  0 <= a <= 255 -> 0 <= b <= 255 ->
  (getFrequency a = 0 <-> a = 0 \/ 15 <= a <= 35)
  /\ (1 <= a <= 14 -> 2412 <= getFrequency a <= 2477)
  /\ (36 <= a -> 5180 <= getFrequency a <= 6275)
  /\ (getFrequency a = getFrequency b -> getFrequency a <> 0 -> a = b).
Proof.
  intros Ha Hb. unfold getFrequency.
  destruct (Z.leb_spec 1 a), (Z.leb_spec a 14), (Z.leb_spec 36 a),
    (Z.leb_spec 1 b), (Z.leb_spec b 14), (Z.leb_spec 36 b); cbn [andb]; lia.
Qed.

Lemma count_fold (p : NetworkInfo -> bool) (networks : list NetworkInfo) :
  forall count : Z,
    fold_left (fun count net => if p net then count + 1 else count) networks count =
    count + how_many p networks.
Proof.
  unfold how_many.
  induction networks as [|net networks IH]; intros count; cbn [fold_left filter].
  - cbn. lia.
  - rewrite IH. destruct (p net); cbn [List.length]; lia.
Qed.

Lemma how_many_split (p q : NetworkInfo -> bool) (networks : list NetworkInfo) :
  (forall net, p net && q net = false) ->
  how_many p networks + how_many q networks =
  how_many (fun net => p net || q net) networks.
Proof.
  intros Hd. unfold how_many. induction networks as [|net networks IH]; [reflexivity|].
  cbn [filter]. specialize (Hd net).
  destruct (p net), (q net); cbn [orb List.length] in *; try discriminate Hd; lia.
Qed.

Lemma how_many_ext (p q : NetworkInfo -> bool) (networks : list NetworkInfo) :
  Forall (fun net => p net = q net) networks ->
  how_many p networks = how_many q networks.
Proof.
  intros H. unfold how_many. induction H as [|net networks E _ IH]; [reflexivity|].
  cbn [filter]. rewrite E. destruct (q net); cbn [List.length]; lia.
Qed.

(** X15: a network is counted by [count24GHz] or by [count5GHz], never by
    both, and exactly when the frequency the scan stored for it is not 0:
    the two counts add up to the number of networks with a known frequency,
    at most [networks.size()]. *)
Theorem band_counts (networks : list NetworkInfo) :
  Forall scanned networks ->
  count24GHz networks + count5GHz networks =
    how_many (fun net => negb (net_frequency net =? 0)) networks
  /\ count24GHz networks + count5GHz networks <= Z.of_nat (List.length networks).
Proof.
  intros Hs. unfold count24GHz, count5GHz. rewrite !count_fold, !Z.add_0_l.
  rewrite how_many_split
    by (intros net; destruct (Z.leb_spec 1 (net_channel net)),
          (Z.leb_spec (net_channel net) 14), (Z.leb_spec 36 (net_channel net));
        cbn [andb]; trivial; lia).
  split.
  - apply how_many_ext. eapply Forall_impl; [|exact Hs].
    intros net E. unfold scanned in E.
    pose proof (f_equal net_channel E) as Hc. cbn [net_channel scan_entry] in Hc.
    rewrite E. cbn [net_channel net_frequency scan_entry]. rewrite <- Hc.
    unfold getFrequency.
    destruct (Z.leb_spec 1 (net_channel net)), (Z.leb_spec (net_channel net) 14),
      (Z.leb_spec 36 (net_channel net)); cbn [andb orb negb]; try lia.
    all: match goal with |- _ = negb (?x =? 0) => destruct (Z.eqb_spec x 0) end.
    all: cbn [negb]; trivial; lia.
  - unfold how_many. apply inj_le, filter_length_le.
Qed.

Lemma length_bump (i : nat) : forall a : list Z, List.length (bump i a) = List.length a.
Proof.
  induction i as [|i IH]; intros [|x a]; cbn [bump List.length]; auto.
Qed.

Lemma nth_bump (i j : nat) :
  forall a : list Z,
    (i < List.length a)%nat ->
    nth j (bump i a) 0 = if Nat.eqb i j then nth j a 0 + 1 else nth j a 0.
Proof.
  revert j. induction i as [|i IH]; intros j [|x a] Hi; cbn [List.length] in Hi; try lia.
  - destruct j; reflexivity.
  - destruct j; cbn [bump nth Nat.eqb]; [reflexivity|]. apply IH. lia.
Qed.

Lemma sum_bump (i : nat) :
  forall a : list Z,
    (i < List.length a)%nat ->
    fold_right Z.add 0 (bump i a) = fold_right Z.add 0 a + 1.
Proof.
  induction i as [|i IH]; intros [|x a] Hi; cbn [List.length] in Hi; try lia.
  - cbn [bump fold_right]. lia.
  - cbn [bump fold_right]. rewrite IH by lia. lia.
Qed.

Lemma slot_bound (net : NetworkInfo) : (slot net < 15)%nat.
Proof.
  unfold slot.
  destruct (Z.leb_spec 1 (net_channel net)), (Z.leb_spec (net_channel net) 14);
    cbn [andb]; lia.
Qed.

Lemma channel_counts_fold (networks : list NetworkInfo) :
  forall a : list Z,
    List.length a = 15%nat ->
    let a' := fold_left (fun channelCount net =>
                           if (1 <=? net_channel net) && (net_channel net <=? 14)
                           then bump (Z.to_nat (net_channel net)) channelCount
                           else bump 0 channelCount) networks a in
    List.length a' = 15%nat
    /\ (forall j, nth j a' 0 = nth j a 0 + how_many (fun net => Nat.eqb (slot net) j) networks)
    /\ fold_right Z.add 0 a' = fold_right Z.add 0 a + Z.of_nat (List.length networks).
Proof.
  induction networks as [|net networks IH]; intros a Ha; cbv zeta.
  - cbn [fold_left]. repeat split; [exact Ha | | cbn; lia].
    intros j. unfold how_many. cbn. lia.
  - cbn [fold_left].
    assert (E : (if (1 <=? net_channel net) && (net_channel net <=? 14)
                 then bump (Z.to_nat (net_channel net)) a else bump 0 a)
                = bump (slot net) a)
      by (unfold slot; destruct ((1 <=? net_channel net) && (net_channel net <=? 14));
          reflexivity).
    rewrite E. pose proof (slot_bound net) as Hs.
    destruct (IH (bump (slot net) a)) as (Hl & Hn & Hsum);
      [now rewrite length_bump|].
    repeat split.
    + exact Hl.
    + intros j. rewrite Hn, nth_bump by lia. unfold how_many. cbn [filter].
      destruct (Nat.eqb (slot net) j); cbn [List.length]; lia.
    + rewrite Hsum, sum_bump by lia. cbn [List.length]. lia.
Qed.

Lemma channel_counts_nth (networks : list NetworkInfo) (c : Z) :
  1 <= c <= 14 ->
  nth (Z.to_nat c) (channel_counts networks) 0 = on_channel networks c.
Proof.
  intros Hc.
  destruct (channel_counts_fold networks (repeat 0 15) eq_refl) as (_ & Hn & _).
  fold (channel_counts networks) in Hn. rewrite Hn.
  assert (E0 : nth (Z.to_nat c) (repeat 0 15) 0 = 0) by (apply nth_repeat).
  rewrite E0, Z.add_0_l. unfold on_channel. apply how_many_ext.
  apply Forall_forall. intros net _. unfold slot.
  destruct (Z.leb_spec 1 (net_channel net)), (Z.leb_spec (net_channel net) 14);
    cbn [andb].
  all: destruct (Z.eqb_spec (net_channel net) c);
    [ subst c; try lia; apply Nat.eqb_eq; reflexivity
    | apply Nat.eqb_neq; lia ].
Qed.

(** X16: the array [channelCount] that [showChannelDistribution] fills has
    in slot [c], for the channels 1 to 14, the number of networks on channel
    [c], and in slot 0 the number of all other networks; its entries add up
    to [networks.size()]. *)
Theorem channel_counts_histogram (networks : list NetworkInfo) :
  List.length (channel_counts networks) = 15%nat
  /\ (forall c, 1 <= c <= 14 ->
        nth (Z.to_nat c) (channel_counts networks) 0 = on_channel networks c)
  /\ nth 0 (channel_counts networks) 0 =
       how_many (fun net => negb ((1 <=? net_channel net) && (net_channel net <=? 14)))
         networks
  /\ fold_right Z.add 0 (channel_counts networks) = Z.of_nat (List.length networks).
Proof.
  destruct (channel_counts_fold networks (repeat 0 15) eq_refl) as (Hl & Hn & Hs).
  fold (channel_counts networks) in Hl, Hn, Hs.
  repeat split.
  - exact Hl.
  - intros c Hc. now apply channel_counts_nth.
  - rewrite Hn. cbn [nth repeat]. rewrite Z.add_0_l. apply how_many_ext.
    apply Forall_forall. intros net _. unfold slot.
    destruct (Z.leb_spec 1 (net_channel net)), (Z.leb_spec (net_channel net) 14);
      cbn [andb negb]; try reflexivity.
    apply Nat.eqb_neq. lia.
  - rewrite Hs. cbn. lia.
Qed.

Lemma concat_snoc (sep : string) (y : string) :
  forall xs : list string,
    xs <> [] ->
    String.concat sep (xs ++ [y]) = (String.concat sep xs ++ (sep ++ y))%string.
Proof.
  induction xs as [|x xs IH]; intros Hne; [now contradiction Hne|].
  destruct xs as [|x' xs].
  - reflexivity.
  - change (String.concat sep ((x :: x' :: xs) ++ [y]))
      with (x ++ sep ++ String.concat sep ((x' :: xs) ++ [y]))%string.
    rewrite IH by discriminate.
    change (String.concat sep (x :: x' :: xs))
      with (x ++ sep ++ String.concat sep (x' :: xs))%string.
    now rewrite !string_app_assoc.
Qed.

Section LeastCongested.

Variable channelCount : list Z.

Let cnt (i : Z) : Z := nth (Z.to_nat i) channelCount 0.

(** The loop over the channels still to visit, [l], once the channels [p]
    have been visited and at least one of them set the minimum. *)
Lemma least_fold :
  forall (l p : list Z) (m : Z) (b : string),
    (forall i, In i p -> m <= cnt i) ->
    (exists i, In i p /\ cnt i = m) ->
    b = String.concat ", " (map String_of_int (filter (fun i => cnt i =? m) p)) ->
    (forall i, In i (p ++ l) -> fst (fold_left (least_step channelCount) l (m, b)) <= cnt i)
    /\ (exists i, In i (p ++ l) /\ cnt i = fst (fold_left (least_step channelCount) l (m, b)))
    /\ snd (fold_left (least_step channelCount) l (m, b)) =
       String.concat ", "
         (map String_of_int
            (filter (fun i => cnt i =? fst (fold_left (least_step channelCount) l (m, b)))
               (p ++ l))).
Proof.
  induction l as [|i l IH]; intros p m b Hmin Hex Hb.
  - cbn [fold_left fst snd]. rewrite app_nil_r. repeat split; assumption.
  - cbn [fold_left]. unfold least_step at 2 4 6 8. fold (cnt i).
    replace (p ++ i :: l) with ((p ++ [i]) ++ l) by (now rewrite <- app_assoc).
    destruct (Z.ltb_spec (cnt i) m) as [Hlt|Hge].
    + apply IH.
      * intros j Hj. apply in_app_or in Hj. destruct Hj as [Hj|[<-|[]]]; [|lia].
        specialize (Hmin j Hj). lia.
      * exists i. split; [apply in_or_app; right; now left | reflexivity].
      * rewrite filter_app. cbn [filter]. rewrite Z.eqb_refl.
        assert (E : filter (fun j => cnt j =? cnt i) p = []).
        { clear -Hmin Hlt. induction p as [|j p IHp]; [reflexivity|]. cbn [filter].
          assert (Hj : (cnt j =? cnt i) = false)
            by (apply Z.eqb_neq; specialize (Hmin j (or_introl eq_refl)); lia).
          rewrite Hj. apply IHp. intros k Hk. apply Hmin. now right. }
        rewrite E. reflexivity.
    + destruct (Z.eqb_spec (cnt i) m) as [Heq|Hne].
      * apply IH.
        -- intros j Hj. apply in_app_or in Hj. destruct Hj as [Hj|[<-|[]]]; [|lia].
           now apply Hmin.
        -- destruct Hex as (k & Hk & Ek). exists k.
           split; [apply in_or_app; now left | exact Ek].
        -- rewrite filter_app. cbn [filter].
           rewrite (proj2 (Z.eqb_eq _ _) Heq), map_app. cbn [map].
           rewrite concat_snoc, <- Hb; [reflexivity|].
           destruct Hex as (k & Hk & Ek). intros Hnil.
           assert (Hin : In k (filter (fun j => cnt j =? m) p))
             by (apply filter_In; split; [exact Hk | now apply Z.eqb_eq]).
           apply (in_map String_of_int) in Hin. rewrite Hnil in Hin. exact Hin.
      * apply IH.
        -- intros j Hj. apply in_app_or in Hj. destruct Hj as [Hj|[<-|[]]]; [|lia].
           now apply Hmin.
        -- destruct Hex as (k & Hk & Ek). exists k.
           split; [apply in_or_app; now left | exact Ek].
        -- rewrite filter_app. cbn [filter].
           rewrite (proj2 (Z.eqb_neq _ _) Hne), app_nil_r. exact Hb.
Qed.

End LeastCongested.

(** X17: the channels [showChannelDistribution] recommends are exactly the
    channels among 1 to 11 with the fewest networks on them, in ascending
    order and separated by a comma and a space, and the count it prints with
    them is that least number; this needs fewer than 999 networks on
    channel 1, which the cap of 50 scan results ensures. *)
Theorem least_congested_channels (networks : list NetworkInfo) :
  on_channel networks 1 < 999 ->
  (forall c, In c candidate_channels ->
     fst (least_congested (channel_counts networks)) <= on_channel networks c)
  /\ (exists c, In c candidate_channels
        /\ on_channel networks c = fst (least_congested (channel_counts networks)))
  /\ snd (least_congested (channel_counts networks)) =
     String.concat ", "
       (map String_of_int
          (filter (fun c => on_channel networks c =?
                            fst (least_congested (channel_counts networks)))
             candidate_channels)).
Proof.
  intros H1.
  assert (Hc : forall c, In c candidate_channels ->
                 nth (Z.to_nat c) (channel_counts networks) 0 = on_channel networks c).
  { intros c Hin. apply channel_counts_nth.
    unfold candidate_channels in Hin. apply in_map_iff in Hin.
    destruct Hin as (k & <- & Hk). apply in_seq in Hk. lia. }
  assert (E : least_congested (channel_counts networks) =
              fold_left (least_step (channel_counts networks))
                (map Z.of_nat (seq 2 10))
                (on_channel networks 1, String_of_int 1)).
  { unfold least_congested. cbn [seq map fold_left]. f_equal.
    unfold least_step. change (Z.to_nat (Z.of_nat 1)) with (Z.to_nat 1).
    rewrite (Hc 1) by (now left).
    apply Z.ltb_lt in H1. rewrite H1. reflexivity. }
  destruct (least_fold (channel_counts networks) (map Z.of_nat (seq 2 10)) [1]
              (on_channel networks 1) (String_of_int 1)) as (Hmin & Hex & Hb).
  - intros i [<-|[]]. rewrite (Hc 1) by (now left). lia.
  - exists 1. split; [now left | apply (Hc 1); now left].
  - cbn [filter]. rewrite (Hc 1) by (now left). now rewrite Z.eqb_refl.
  - rewrite <- E in Hmin, Hex, Hb.
    change ([1] ++ map Z.of_nat (seq 2 10)) with candidate_channels in Hmin, Hex, Hb.
    split; [|split].
    + intros c Hin. rewrite <- (Hc c Hin). now apply Hmin.
    + destruct Hex as (c & Hin & Ec). exists c. split; [exact Hin|].
      now rewrite <- (Hc c Hin).
    + rewrite Hb. do 2 f_equal. apply filter_ext_in.
      intros c Hin. now rewrite (Hc c Hin).
Qed.

(** X18: for the entries [performNetworkScan] builds, the enterprise flag
    is set exactly when the security text is "WPA2-Enterprise", the hidden
    flag exactly when the SSID is empty, and [countEnterpriseNetworks]
    counts the entries whose mode is [WIFI_AUTH_WPA2_ENTERPRISE]; modes the
    sketch does not name count as "Unknown" and not as enterprise. *)
Theorem enterprise_detection (networks : list NetworkInfo) :
  Forall scanned networks ->
  Forall (fun net =>
            (net_isEnterprise net = true <-> net_securityType net = "WPA2-Enterprise"%string)
            /\ (net_isHidden net = true <-> net_ssid net = ""%string)
            /\ (forall code, net_authMode net = WIFI_AUTH_other code ->
                  net_isEnterprise net = false
                  /\ net_securityType net = "Unknown"%string)) networks
  /\ countEnterpriseNetworks networks =
     how_many (fun net => isEnterpriseNetwork (net_authMode net)) networks.
Proof.
  intros Hs. split.
  - eapply Forall_impl; [|exact Hs]. intros net E. unfold scanned in E. rewrite E.
    cbn [net_isEnterprise net_securityType net_isHidden net_ssid net_authMode scan_entry].
    repeat split.
    + destruct (net_authMode net); cbn; intros H; try discriminate H; reflexivity.
    + destruct (net_authMode net); cbn; intros H; try discriminate H; reflexivity.
    + destruct (net_ssid net); cbn; intros H; try discriminate H; reflexivity.
    + intros ->. reflexivity.
    + rewrite H. reflexivity.
    + rewrite H. reflexivity.
  - unfold countEnterpriseNetworks. rewrite count_fold, Z.add_0_l.
    apply how_many_ext. eapply Forall_impl; [|exact Hs].
    intros net E. unfold scanned in E. rewrite E at 1. reflexivity.
Qed.

(** * The further properties at concrete inputs *)

Lemma begin_duration_witness :
  latency_at_most (timed 2300 7 test_ip) 7 /\ 7 <= max_latency /\
  (poll_fuel <= 60)%nat /\
  exists (r : Run) (s' : State),
    begin (timed 2300 7 test_ip) 60 "Corp" "alice" "secret" false (boot 0)
      = Some (run_result r, s')
    /\ trace s' = trace (boot 0) ++ begin_events "Corp" "alice" "secret" r
    /\ 1000 + 500 * turns r <= clock s' - clock (boot 0)
    /\ clock s' - clock (boot 0) <=
       1000 + 500 * turns r +
       7 * Z.of_nat (List.length (begin_events "Corp" "alice" "secret" r))
    /\ turns r <= 40
    /\ clock s' - clock (boot 0) <= 21000 + 134 * 7.
Proof.
  assert (L : latency_at_most (timed 2300 7 test_ip) 7)
    by (intros tr t e; vm_compute; discriminate).
  assert (B : 7 <= max_latency) by (unfold max_latency; lia).
  assert (F : (poll_fuel <= 60)%nat) by (unfold poll_fuel; lia).
  exact (conj L (conj B (conj F
    (begin_duration (timed 2300 7 test_ip) 7 60 "Corp" "alice" "secret" false
       (boot 0) L B F)))).
Defined.

Lemma begin_timeout_duration_witness :
  well_timed deaf /\ (poll_fuel <= poll_fuel)%nat /\
  exists (r : Run) (s' : State),
    begin deaf poll_fuel "Corp" "alice" "secret" true used = Some (run_result r, s')
    /\ trace s' = trace used ++ begin_events "Corp" "alice" "secret" r
    /\ (reported_connected r = false -> 21000 <= clock s' - clock used).
Proof.
  assert (T : well_timed deaf) by (intros tr t e; vm_compute; discriminate).
  assert (F : (poll_fuel <= poll_fuel)%nat) by lia.
  exact (conj T (conj F
    (begin_timeout_duration deaf poll_fuel "Corp" "alice" "secret" true used T F))).
Defined.

Lemma begin_instant_timeout_witness :
  latency_at_most deaf 0 /\ (poll_fuel <= poll_fuel)%nat /\
  exists (r : Run) (s' : State),
    begin deaf poll_fuel "Corp" "alice" "secret" false (boot 4294967000)
      = Some (run_result r, s')
    /\ trace s' = trace (boot 4294967000) ++ begin_events "Corp" "alice" "secret" r
    /\ clock s' - clock (boot 4294967000) = 1000 + 500 * turns r
    /\ (reported_connected r = false ->
        turns r = 40 /\ clock s' - clock (boot 4294967000) = 21000).
Proof.
  assert (L : latency_at_most deaf 0) by (intros tr t e; vm_compute; discriminate).
  assert (F : (poll_fuel <= poll_fuel)%nat) by lia.
  exact (conj L (conj F
    (begin_instant_timeout deaf poll_fuel "Corp" "alice" "secret" false
       (boot 4294967000) L F))).
Defined.


Lemma begin_resets_config_witness :
  well_timed deaf /\ (poll_fuel <= poll_fuel)%nat /\
  exists (b : bool) (s' : State),
    begin deaf poll_fuel "Corp" "alice" "" true served_before = Some (b, s')
    /\ driver_config_within test_limits (trace s') =
       {| cfg_enterprise := b; cfg_ssid := Some "Corp"%string; cfg_mode := WIFI_STA;
          cfg_identity :=
            if identity_ok test_limits (strlen "alice")
            then bytes_of "alice" (strlen "alice")
            else cfg_identity (driver_config_within test_limits (trace served_before));
          cfg_username :=
            if username_ok test_limits (strlen "alice")
            then bytes_of "alice" (strlen "alice")
            else cfg_username (driver_config_within test_limits (trace served_before));
          cfg_password :=
            if password_ok test_limits (strlen "")
            then bytes_of "" (strlen "")
            else cfg_password (driver_config_within test_limits (trace served_before)) |}.
Proof.
  assert (T : well_timed deaf) by (intros tr t e; vm_compute; discriminate).
  assert (F : (poll_fuel <= poll_fuel)%nat) by lia.
  exact (conj T (conj F
    (begin_resets_config deaf test_limits poll_fuel "Corp" "alice" "" true
       served_before T F))).
Defined.



Lemma connectToNetwork_attempt_witness :
  well_timed demo /\ (poll_fuel <= poll_fuel)%nat /\
  exists (r : Run) (s' : State) (ip : IPAddress) (st st' : wl_status_t) (rssi : Z),
    connectToNetwork demo test_radio "Corp" "alice" "secret" poll_fuel (boot 0)
      = Some (run_result r, s')
    /\ trace s' = trace (boot 0) ++ begin_events "Corp" "alice" "secret" r ++
         report_queries (run_result r) ip st st' rssi (radio_macAddress test_radio)
    /\ issued (boot 0) s' (setup_commands "Corp" "alice" "secret" ++
                           (if run_result r then [] else [EvEntDisable]))
    /\ this s' = {| _debugEnabled := false; _connected := run_result r |}.
Proof.
  assert (T : well_timed demo) by (intros tr t e; vm_compute; discriminate).
  assert (F : (poll_fuel <= poll_fuel)%nat) by lia.
  exact (conj T (conj F
    (connectToNetwork_attempt demo test_radio "Corp" "alice" "secret" poll_fuel
       (boot 0) T F))).
Defined.

Lemma loop_attempt_witness :
  well_timed deaf /\ (poll_fuel <= poll_fuel)%nat /\
  0 <= reconnectAttempts Advanced_init <= MAX_RECONNECT_ATTEMPTS /\
  exists (g' : Advanced) (s' : State),
    loop_ deaf test_radio "Corp" "alice" "secret" poll_fuel Advanced_init (boot 6000)
      = Some (g', s')
    /\ 0 <= reconnectAttempts g' <= MAX_RECONNECT_ATTEMPTS
    /\ ((issued (boot 6000) s' []
         /\ (reconnectAttempts g' = reconnectAttempts Advanced_init
             \/ reconnectAttempts g' = 0))
        \/ (reconnectAttempts Advanced_init < MAX_RECONNECT_ATTEMPTS
            /\ exists ok : bool,
                 issued (boot 6000) s' (setup_commands "Corp" "alice" "secret" ++
                                        (if ok then [] else [EvEntDisable]))
                 /\ reconnectAttempts g' =
                    (if ok then 0 else reconnectAttempts Advanced_init + 1))).
Proof.
  assert (T : well_timed deaf) by (intros tr t e; vm_compute; discriminate).
  assert (F : (poll_fuel <= poll_fuel)%nat) by lia.
  assert (I : 0 <= reconnectAttempts Advanced_init <= MAX_RECONNECT_ATTEMPTS)
    by (cbn; unfold MAX_RECONNECT_ATTEMPTS; lia).
  exact (conj T (conj F (conj I
    (loop_attempt deaf test_radio "Corp" "alice" "secret" poll_fuel Advanced_init
       (boot 6000) T F I)))).
Defined.


Lemma loop_gives_up_witness :
  MAX_RECONNECT_ATTEMPTS <= reconnectAttempts given_up /\
  exists (g' : Advanced) (s' : State) (new : list Event),
    loop_ steady test_radio "Corp" "alice" "secret" 0 given_up (boot 6000) = Some (g', s')
    /\ trace s' = trace (boot 6000) ++ new
    /\ filter is_command new = []
    /\ this s' = this (boot 6000)
    /\ (if CHECK_INTERVAL <=?
           ulong_sub (clock (boot 6000) mod ULONG_MOD) (lastCheck given_up)
        then exists (st : wl_status_t) (rest : list Event),
               new = EvMillis (clock (boot 6000) mod ULONG_MOD) :: EvStatus st :: rest
               /\ lastCheck g' = clock (boot 6000) mod ULONG_MOD
               /\ wasConnected g' = wl_status_eqb st WL_CONNECTED
               /\ reconnectAttempts g' =
                  (if wl_status_eqb st WL_CONNECTED && negb (wasConnected given_up)
                   then 0 else reconnectAttempts given_up)
        else lastCheck g' = lastCheck given_up
             /\ wasConnected g' = wasConnected given_up
             /\ reconnectAttempts g' = reconnectAttempts given_up).
Proof.
  assert (G : MAX_RECONNECT_ATTEMPTS <= reconnectAttempts given_up)
    by (cbn; unfold MAX_RECONNECT_ATTEMPTS; lia).
  exact (conj G
    (loop_gives_up steady test_radio "Corp" "alice" "secret" 0 given_up (boot 6000) G)).
Defined.

Lemma loop_rate_limited_witness :
  ulong_sub (clock (boot 3000) mod ULONG_MOD) (lastCheck Advanced_init) < CHECK_INTERVAL /\
  exists (g' : Advanced) (s' : State),
    loop_ deaf test_radio "Corp" "alice" "secret" 0 Advanced_init (boot 3000)
      = Some (g', s')
    /\ issued (boot 3000) s' []
    /\ this s' = this (boot 3000)
    /\ serial s' = serial (boot 3000)
    /\ lastCheck g' = lastCheck Advanced_init
    /\ reconnectAttempts g' = reconnectAttempts Advanced_init
    /\ wasConnected g' = wasConnected Advanced_init.
Proof.
  assert (R : ulong_sub (clock (boot 3000) mod ULONG_MOD) (lastCheck Advanced_init)
              < CHECK_INTERVAL) by (vm_compute; reflexivity).
  exact (conj R
    (loop_rate_limited deaf test_radio "Corp" "alice" "secret" 0 Advanced_init
       (boot 3000) R)).
Defined.

Lemma handleDisconnection_waits_witness :
  ulong_sub (clock (performed deaf (EvDelay 100) 100 (boot 4294967396)) mod ULONG_MOD)
    (lastReconnectAttempt failed_before) < 30000 /\
  exists (h' : Handler) (s' : State),
    handleDisconnection deaf "Corp" "alice" "secret" 0 failed_before (boot 4294967396)
      = Some (h', s')
    /\ issued (boot 4294967396) s' []
    /\ this s' = this (boot 4294967396)
    /\ serial s' = serial (boot 4294967396)
    /\ lastReconnectAttempt h' = lastReconnectAttempt failed_before
    /\ LED_PIN h' = negb (LED_PIN failed_before)
    /\ clock (boot 4294967396) + 100 <= clock s'.
Proof.
  assert (R : ulong_sub
                (clock (performed deaf (EvDelay 100) 100 (boot 4294967396)) mod ULONG_MOD)
                (lastReconnectAttempt failed_before) < 30000)
    by (vm_compute; reflexivity).
  exact (conj R
    (handleDisconnection_waits deaf "Corp" "alice" "secret" 0 failed_before
       (boot 4294967396) R)).
Defined.

Lemma handleDisconnection_attempt_witness :
  well_timed deaf /\ (poll_fuel <= poll_fuel)%nat /\
  30000 <=
    ulong_sub (clock (performed deaf (EvDelay 100) 100 (boot 40000)) mod ULONG_MOD)
      (lastReconnectAttempt never_failed) /\
  exists (ok : bool) (h' : Handler) (s' : State),
    handleDisconnection deaf "Corp" "alice" "secret" poll_fuel never_failed (boot 40000)
      = Some (h', s')
    /\ issued (boot 40000) s' (setup_commands "Corp" "alice" "secret" ++
                               (if ok then [] else [EvEntDisable]))
    /\ this s' = {| _debugEnabled := false; _connected := ok |}
    /\ LED_PIN h' = negb (LED_PIN never_failed)
    /\ (if ok
        then lastReconnectAttempt h' = lastReconnectAttempt never_failed
        else exists before, trace s' = before ++ [EvMillis (lastReconnectAttempt h')])
    /\ serial s' = serial (boot 40000) ++
         SerialPrintln "🔄 WiFi disconnected, attempting to reconnect..." ::
         (if ok then [SerialPrintln "✅ Reconnected successfully!"] else []).
Proof.
  assert (T : well_timed deaf) by (intros tr t e; vm_compute; discriminate).
  assert (F : (poll_fuel <= poll_fuel)%nat) by lia.
  assert (R : 30000 <=
              ulong_sub (clock (performed deaf (EvDelay 100) 100 (boot 40000)) mod ULONG_MOD)
                (lastReconnectAttempt never_failed))
    by (vm_compute; discriminate).
  exact (conj T (conj F (conj R
    (handleDisconnection_attempt deaf "Corp" "alice" "secret" poll_fuel never_failed
       (boot 40000) T F R)))).
Defined.

Lemma formatUptime_seconds_witness :
  0 <= 90061000 /\ 0 <= 90061999 /\
  formatUptime 90061000 = formatUptime 90061999 /\
  90061000 / 1000 = 90061999 / 1000.
Proof.
  assert (A : 0 <= 90061000) by lia.
  assert (B : 0 <= 90061999) by lia.
  assert (E : formatUptime 90061000 = formatUptime 90061999)
    by (vm_compute; reflexivity).
  exact (conj A (conj B (conj E (formatUptime_seconds 90061000 90061999 A B E)))).
Defined.

Lemma getFrequency_bands_witness :
  0 <= 11 <= 255 /\ 0 <= 36 <= 255 /\
  (getFrequency 11 = 0 <-> 11 = 0 \/ 15 <= 11 <= 35)
  /\ (1 <= 11 <= 14 -> 2412 <= getFrequency 11 <= 2477)
  /\ (36 <= 11 -> 5180 <= getFrequency 11 <= 6275)
  /\ (getFrequency 11 = getFrequency 36 -> getFrequency 11 <> 0 -> 11 = 36).
Proof.
  assert (A : 0 <= 11 <= 255) by lia.
  assert (B : 0 <= 36 <= 255) by lia.
  exact (conj A (conj B (getFrequency_bands 11 36 A B))).
Defined.

Lemma band_counts_witness :
  Forall scanned test_networks /\
  count24GHz test_networks + count5GHz test_networks =
    how_many (fun net => negb (net_frequency net =? 0)) test_networks
  /\ count24GHz test_networks + count5GHz test_networks
     <= Z.of_nat (List.length test_networks).
Proof.
  assert (S : Forall scanned test_networks) by (repeat constructor).
  exact (conj S (band_counts test_networks S)).
Defined.

Lemma least_congested_channels_witness :
  on_channel test_networks 1 < 999 /\
  (forall c, In c candidate_channels ->
     fst (least_congested (channel_counts test_networks)) <= on_channel test_networks c)
  /\ (exists c, In c candidate_channels
        /\ on_channel test_networks c = fst (least_congested (channel_counts test_networks)))
  /\ snd (least_congested (channel_counts test_networks)) =
     String.concat ", "
       (map String_of_int
          (filter (fun c => on_channel test_networks c =?
                            fst (least_congested (channel_counts test_networks)))
             candidate_channels)).
Proof.
  assert (H : on_channel test_networks 1 < 999) by (vm_compute; reflexivity).
  exact (conj H (least_congested_channels test_networks H)).
Defined.

Lemma enterprise_detection_witness :
  Forall scanned test_networks /\
  Forall (fun net =>
            (net_isEnterprise net = true <-> net_securityType net = "WPA2-Enterprise"%string)
            /\ (net_isHidden net = true <-> net_ssid net = ""%string)
            /\ (forall code, net_authMode net = WIFI_AUTH_other code ->
                  net_isEnterprise net = false
                  /\ net_securityType net = "Unknown"%string)) test_networks
  /\ countEnterpriseNetworks test_networks =
     how_many (fun net => isEnterpriseNetwork (net_authMode net)) test_networks.
Proof.
  assert (S : Forall scanned test_networks) by (repeat constructor).
  exact (conj S (enterprise_detection test_networks S)).
Defined.

Example formatUptime_examples :
  formatUptime 999 = "0s"%string
  /\ formatUptime 61000 = "1m 1s"%string
  /\ formatUptime 3600000 = "1h 0s"%string
  /\ formatUptime 90061000 = "1d 1h 1m 1s"%string
  /\ formatUptime 4294967295 = "49d 17h 2m 47s"%string.
Proof. repeat split. Qed.

Example getCurrentTime_example :
  option_map fst (getCurrentTime demo (boot 3725999)) = Some "1:02:05"%string
  /\ option_map fst (getCurrentTime demo (boot 4294967296)) = Some "0:00:00"%string.
Proof. split; reflexivity. Qed.

Example showChannelDistribution_example :
  option_map (fun out => serial (snd out))
    (showChannelDistribution test_networks (boot 0)) =
  Some [ SerialPrintln "📊 2.4GHz Channel Usage:";
         SerialPrint ("   Ch  1: █ (1 networks)" ++ newline);
         SerialPrint ("   Ch  6: ██ (2 networks)" ++ newline);
         SerialPrintln "   5GHz: 2 networks";
         SerialPrintln (newline ++
           "💡 Least congested channels: 2, 3, 4, 5, 7, 8, 9, 10, 11 (0 networks)");
         SerialPrintln "" ].
Proof. vm_compute. reflexivity. Qed.

(** A pass of [loop()] on a driver that never connects: the first attempt
    fails after 21 s and is counted. *)
Example loop_counts_failure :
  option_map (fun out => (reconnectAttempts (fst out), lastCheck (fst out),
                          this (snd out), clock (snd out)))
    (loop_ deaf test_radio "Corp" "alice" "secret" poll_fuel Advanced_init (boot 6000)) =
  Some (1, 6000, {| _debugEnabled := false; _connected := false |}, 27200).
Proof. vm_compute. reflexivity. Qed.

(** A pass of [loop()] after the sketch had given up, on a link that is up
    again: the counter goes back to zero and no command is sent. *)
Example loop_recovers :
  option_map (fun out => (reconnectAttempts (fst out), wasConnected (fst out),
                          filter is_command (trace (snd out))))
    (loop_ steady test_radio "Corp" "alice" "secret" 0 given_up (boot 6000)) =
  Some (0, true, []).
Proof. vm_compute. reflexivity. Qed.

(** What the platform sees of a successful [connectToNetwork] once [begin]
    has returned: the four queries of the report. *)
Example connectToNetwork_queries :
  option_map (fun out => skipn 21 (trace (snd out)))
    (connectToNetwork demo test_radio "Corp" "alice" "secret" poll_fuel (boot 0)) =
  Some [ EvLocalIP test_ip; EvStatus WL_CONNECTED; EvRSSI (-57);
         EvMacAddress "24:6F:28:AA:BB:CC" ].
Proof. vm_compute. reflexivity. Qed.

(** A platform that never connects and takes 7 ms per call, started shortly
    before the rollover of [millis]: 39 turns, then the timeout. *)
Example slow_platform_times_out :
  option_map (fun out => (fst out, clock (snd out) - 4294966000,
                          List.length (filter is_delay (trace (snd out)))))
    (begin (timed (2 ^ 40) 7 test_ip) poll_fuel "Corp" "alice" "secret" true
       (boot 4294966000)) =
  Some (false, 21417, 40%nat).
Proof. vm_compute. reflexivity. Qed.

(** A refused credential: the driver keeps the password of the network
    joined before, and [begin] enables enterprise mode and associates with
    the new network all the same. *)
Example stale_password_survives :
  driver_config_within test_limits (trace served_before) =
    {| cfg_enterprise := true; cfg_ssid := Some "Lab"%string; cfg_mode := WIFI_STA;
       cfg_identity := "bob@lab"; cfg_username := "bob@lab";
       cfg_password := "hunter2" |}
  /\ option_map (fun out => (fst out,
                             driver_config_within test_limits (trace (snd out))))
       (begin steady poll_fuel "Corp" "alice" "" false served_before) =
     Some (true,
           {| cfg_enterprise := true; cfg_ssid := Some "Corp"%string;
              cfg_mode := WIFI_STA;
              cfg_identity := "alice"; cfg_username := "alice";
              cfg_password := "hunter2" |}).
Proof. split; vm_compute; reflexivity. Qed.

(** The debug lines show a buffer up to its first NUL, as the setters read
    it. *)
Example debug_value_stops_at_NUL :
  option_map (fun out => firstn 5 (serial (snd out)))
    (begin demo poll_fuel "Corp" (String "a" (String "b" (String Ascii.zero "cd")))
       "secret" true (boot 0)) =
  Some [ SerialPrintln "WiFiEnterprise: Starting connection to WPA2-Enterprise network";
         SerialPrint "SSID: "; SerialPrintln "Corp";
         SerialPrint "Username: "; SerialPrintln "ab" ].
Proof. vm_compute. reflexivity. Qed.

(** The channel field keeps eight bits: a reported 270 is stored as 14. *)
Example scan_entry_truncates :
  net_channel (scan_entry "Odd" "AA:BB:CC:00:00:06" (-40) 270 WIFI_AUTH_OPEN) = 14
  /\ net_frequency (scan_entry "Odd" "AA:BB:CC:00:00:06" (-40) 270 WIFI_AUTH_OPEN) = 2477.
Proof. split; reflexivity. Qed.
